(** * Seat inventory of the railway management backend

    A shallow embedding of the booking path of
    [backend/app/services/__init__.py], [backend/app/api/bookings.py],
    [backend/app/api/payments.py], [backend/app/core/database.py] and
    [backend/app/repositories/booking.py], and the properties of the seat
    counter that the specification states about it; then of the functions
    around that path: the other endpoints of [api/bookings.py] and
    [api/payments.py], [delete_user] and [format_time_ago] of
    [api/admin.py], and the password validator of [schemas/__init__.py].

    Conventions.
    - Integers are [Z].  A [DECIMAL(10, 2)] column is the [Z] number of
      hundredths, so [base_fare * n] is exact, as it is on [Decimal] (whose
      28 digits no fare times the length of a list exceeds).
    - A [Date] column is the [Z] ordinal of the day, [date.toordinal()];
      [timedelta(days=k)] adds [k], within the range of [datetime.date].
    - A table is the list of its rows in primary-key order;
      [query(...).filter(p).first()] is [find p].
    - A SQLAlchemy session is a pair of databases: what is committed
      ([durable]) and the view of the open transaction ([working]). *)

From Stdlib Require Import ZArith List String Bool Lia DecimalString.
Import ListNotations.
Local Open Scope string_scope.
Local Open Scope list_scope.
Local Open Scope Z_scope.

Set Implicit Arguments.

(** ** Models ([app/models/__init__.py], [app/models/payment.py])

    Columns that none of the embedded operations reads or writes
    (names, timestamps, station ids, ...) are left out. *)

Inductive BookingStatus := confirmed | cancelled | completed.
Inductive Gender := male | female | other.
Inductive RefundStatus := PENDING | APPROVED | REJECTED.
Inductive PaymentStatus := pending | processing | payment_completed | failed | refunded.
Inductive PaymentMethod := CREDIT_CARD | DEBIT_CARD | WALLET | UPI.

Definition BookingStatus_eqb (a b : BookingStatus) : bool :=
  match a, b with
  | confirmed, confirmed | cancelled, cancelled | completed, completed => true
  | _, _ => false
  end.

Module Train.
Record t := mk { id : Z; total_seats : Z }.
End Train.

Module Route.
Record t := mk { id : Z; train_id : Z; distance_km : Z; base_fare : Z }.
End Route.

Module TrainSchedule.
Record t := mk { id : Z; route_id : Z; schedule_date : Z; available_seats : Z }.
Definition set_available_seats (v : Z) (s : t) : t :=
  mk (id s) (route_id s) (schedule_date s) v.
End TrainSchedule.

Module Booking.
Record t := mk {
  id : Z; user_id : Z; schedule_id : Z; booking_reference : string;
  passenger_count : Z; total_amount : Z; status : BookingStatus;
  journey_date_from : Z; journey_date_to : Z }.
Definition set_id (v : Z) (b : t) : t :=
  mk v (user_id b) (schedule_id b) (booking_reference b) (passenger_count b)
     (total_amount b) (status b) (journey_date_from b) (journey_date_to b).
Definition set_status (v : BookingStatus) (b : t) : t :=
  mk (id b) (user_id b) (schedule_id b) (booking_reference b) (passenger_count b)
     (total_amount b) v (journey_date_from b) (journey_date_to b).
End Booking.

Module Passenger.
Record t := mk { id : Z; booking_id : Z; name : string; age : Z; gender : Gender }.
End Passenger.

Module RefundRequest.
Record t := mk { id : Z; booking_id : Z; user_id : Z; amount : Z; status : RefundStatus }.
End RefundRequest.

Module Wallet.
Record t := mk { id : Z; user_id : Z; balance : Z }.
Definition set_balance (v : Z) (w : t) : t := mk (id w) (user_id w) v.
End Wallet.

Module CreditCard.
Record t := mk { id : Z; user_id : Z; balance : Z; is_active : bool }.
Definition set_balance (v : Z) (c : t) : t := mk (id c) (user_id c) v (is_active c).
End CreditCard.

Module UpiId.
Record t := mk { id : Z; user_id : Z; balance : Z; is_active : bool }.
Definition set_balance (v : Z) (u : t) : t := mk (id u) (user_id u) v (is_active u).
End UpiId.

(** One record for the three transaction tables ([wallet_transactions],
    [card_transactions], [upi_transactions]): [owner_id] is the
    [wallet_id], [card_id] or [upi_id] column. *)
Module Transaction.
Record t := mk {
  id : Z; owner_id : Z; transaction_type : string; amount : Z;
  description : string; reference_id : string }.
End Transaction.

Module Payment.
Record t := mk {
  id : Z; booking_id : Z; user_id : Z; amount : Z;
  payment_method : PaymentMethod; status : PaymentStatus; transaction_id : string }.
End Payment.

(** ** Request schemas ([app/schemas/__init__.py], [app/schemas/payment.py]) *)

Record PassengerCreate := { pc_name : string; pc_age : Z; pc_gender : Gender }.

Record BookingCreate := { schedule_id : Z; passengers : list PassengerCreate }.

Record PaymentCreate := {
  pay_booking_id : Z; pay_payment_method : PaymentMethod;
  card_id : option Z; upi_id : option Z }.

(** [len(booking.passengers)] *)
Definition len {A} (l : list A) : Z := Z.of_nat (List.length l).

(** ** The database *)

Record Database := {
  trains : list Train.t;
  routes : list Route.t;
  train_schedules : list TrainSchedule.t;
  bookings : list Booking.t;
  passenger_rows : list Passenger.t;
  refund_requests : list RefundRequest.t;
  wallets : list Wallet.t;
  credit_cards : list CreditCard.t;
  upi_ids : list UpiId.t;
  wallet_transactions : list Transaction.t;
  card_transactions : list Transaction.t;
  upi_transactions : list Transaction.t;
  payments : list Payment.t }.

Definition with_train_schedules (v : list TrainSchedule.t) (d : Database) : Database :=
  Build_Database (trains d) (routes d) v (bookings d) (passenger_rows d)
    (refund_requests d) (wallets d) (credit_cards d) (upi_ids d)
    (wallet_transactions d) (card_transactions d) (upi_transactions d) (payments d).

Definition with_routes (v : list Route.t) (d : Database) : Database :=
  Build_Database (trains d) v (train_schedules d) (bookings d) (passenger_rows d)
    (refund_requests d) (wallets d) (credit_cards d) (upi_ids d)
    (wallet_transactions d) (card_transactions d) (upi_transactions d) (payments d).

Definition with_bookings (v : list Booking.t) (d : Database) : Database :=
  Build_Database (trains d) (routes d) (train_schedules d) v (passenger_rows d)
    (refund_requests d) (wallets d) (credit_cards d) (upi_ids d)
    (wallet_transactions d) (card_transactions d) (upi_transactions d) (payments d).

Definition with_passenger_rows (v : list Passenger.t) (d : Database) : Database :=
  Build_Database (trains d) (routes d) (train_schedules d) (bookings d) v
    (refund_requests d) (wallets d) (credit_cards d) (upi_ids d)
    (wallet_transactions d) (card_transactions d) (upi_transactions d) (payments d).

Definition with_refund_requests (v : list RefundRequest.t) (d : Database) : Database :=
  Build_Database (trains d) (routes d) (train_schedules d) (bookings d) (passenger_rows d)
    v (wallets d) (credit_cards d) (upi_ids d)
    (wallet_transactions d) (card_transactions d) (upi_transactions d) (payments d).

Definition with_wallets (v : list Wallet.t) (d : Database) : Database :=
  Build_Database (trains d) (routes d) (train_schedules d) (bookings d) (passenger_rows d)
    (refund_requests d) v (credit_cards d) (upi_ids d)
    (wallet_transactions d) (card_transactions d) (upi_transactions d) (payments d).

Definition with_credit_cards (v : list CreditCard.t) (d : Database) : Database :=
  Build_Database (trains d) (routes d) (train_schedules d) (bookings d) (passenger_rows d)
    (refund_requests d) (wallets d) v (upi_ids d)
    (wallet_transactions d) (card_transactions d) (upi_transactions d) (payments d).

Definition with_upi_ids (v : list UpiId.t) (d : Database) : Database :=
  Build_Database (trains d) (routes d) (train_schedules d) (bookings d) (passenger_rows d)
    (refund_requests d) (wallets d) (credit_cards d) v
    (wallet_transactions d) (card_transactions d) (upi_transactions d) (payments d).

Definition with_wallet_transactions (v : list Transaction.t) (d : Database) : Database :=
  Build_Database (trains d) (routes d) (train_schedules d) (bookings d) (passenger_rows d)
    (refund_requests d) (wallets d) (credit_cards d) (upi_ids d)
    v (card_transactions d) (upi_transactions d) (payments d).

Definition with_card_transactions (v : list Transaction.t) (d : Database) : Database :=
  Build_Database (trains d) (routes d) (train_schedules d) (bookings d) (passenger_rows d)
    (refund_requests d) (wallets d) (credit_cards d) (upi_ids d)
    (wallet_transactions d) v (upi_transactions d) (payments d).

Definition with_upi_transactions (v : list Transaction.t) (d : Database) : Database :=
  Build_Database (trains d) (routes d) (train_schedules d) (bookings d) (passenger_rows d)
    (refund_requests d) (wallets d) (credit_cards d) (upi_ids d)
    (wallet_transactions d) (card_transactions d) v (payments d).

Definition with_payments (v : list Payment.t) (d : Database) : Database :=
  Build_Database (trains d) (routes d) (train_schedules d) (bookings d) (passenger_rows d)
    (refund_requests d) (wallets d) (credit_cards d) (upi_ids d)
    (wallet_transactions d) (card_transactions d) (upi_transactions d) v.

(** The value an [Integer, primary_key=True] column takes on INSERT: one
    more than every id of the table (and at least 1). *)
Definition autoincrement (ids : list Z) : Z := 1 + fold_right Z.max 0 ids.

(** An ORM object written back by its primary key:
    [UPDATE table SET ... WHERE id = <pk>]. *)
Definition update_row {R} (pk : R -> Z) (obj : R) (rows : list R) : list R :=
  map (fun r => if pk r =? pk obj then obj else r) rows.

(** [str(n)] for an integer. *)
Definition str (n : Z) : string := NilZero.string_of_int (Z.to_int n).

(** ** Exceptions

    [NotFoundError] and [InsufficientSeatsError] are the classes of
    [app/core/exceptions.py]; both derive from [HTTPException] and build
    their [detail] from their arguments. *)

Inductive Exception :=
| ValueError (msg : string)
| AttributeError (msg : string)
| OverflowError (msg : string)
| SQLAlchemyError
| HTTPException (status_code : Z) (detail : string)
| NotFoundError (resource : string) (identifier : Z)
| InsufficientSeatsError (available requested : Z).

Definition status_code_of (e : Exception) : option Z :=
  match e with
  | HTTPException c _ => Some c
  | NotFoundError _ _ => Some 404
  | InsufficientSeatsError _ _ => Some 409
  | _ => None
  end.

Definition detail_of (e : Exception) : option string :=
  match e with
  | HTTPException _ d => Some d
  | NotFoundError resource identifier =>
      let detail := String.append resource " not found" in
      Some (if identifier =? 0 then detail
            else String.append detail (String.append " with identifier: " (str identifier)))
  | InsufficientSeatsError available requested =>
      Some (String.append "Insufficient seats. Available: "
             (String.append (str available)
               (String.append ", Requested: " (str requested))))
  | _ => None
  end.

Definition error_code_of (e : Exception) : option string :=
  match e with
  | NotFoundError _ _ => Some "NOT_FOUND"
  | InsufficientSeatsError _ _ => Some "INSUFFICIENT_SEATS"
  | _ => None
  end.

Inductive Result (A : Type) :=
| Ok (a : A)
| Raise (e : Exception).
Arguments Ok {A} a.
Arguments Raise {A} e.

(** ** Sessions

    What a request cannot decide is in [World]: the string that
    [random.choices] draws, the [uuid4] of a payment, today's date, and
    whether the store accepts the [flush] and the [commit] of the request
    (a violated constraint, a lost connection, ... make it refuse). *)

Record World := {
  random_choices : string;
  uuid4 : string;
  today : Z;
  flush_succeeds : bool;
  commit_succeeds : bool }.

Record Session := { world : World; durable : Database; working : Database }.

Definition M (A : Type) : Type := Session -> Result A * Session.

Definition ret {A} (a : A) : M A := fun s => (Ok a, s).

Definition raise {A} (e : Exception) : M A := fun s => (Raise e, s).

Definition bind {A B} (m : M A) (k : A -> M B) : M B :=
  fun s => match m s with
           | (Ok a, s') => k a s'
           | (Raise e, s') => (Raise e, s')
           end.

(** [try: m  except ... as e: handler e] *)
Definition try_except {A} (m : M A) (handler : Exception -> M A) : M A :=
  fun s => match m s with
           | (Ok a, s') => (Ok a, s')
           | (Raise e, s') => handler e s'
           end.

Notation "x <- m ;; k" := (bind m (fun x => k))
  (at level 61, m at next level, right associativity).
Notation "m ;;; k" := (bind m (fun _ => k))
  (at level 61, right associativity).

Fixpoint for_each {A} (l : list A) (body : A -> M unit) : M unit :=
  match l with
  | [] => ret tt
  | x :: l' => body x ;;; for_each l' body
  end.

(** [db.query(T).filter(p).first()] *)
Definition query_first {R} (table : Database -> list R) (p : R -> bool) : M (option R) :=
  fun s => (Ok (find p (table (working s))), s).

Definition modify (f : Database -> Database) : M unit :=
  fun s => (Ok tt, {| world := world s; durable := durable s; working := f (working s) |}).

Definition the_world : M World := fun s => (Ok (world s), s).

(** [db.flush()]: the pending INSERT is sent inside the open transaction. *)
Definition flush : M unit :=
  fun s => if flush_succeeds (world s) then (Ok tt, s) else (Raise SQLAlchemyError, s).

(** [db.commit()]: the transaction becomes durable as a whole, or the call
    raises and nothing of it does. *)
Definition commit : M unit :=
  fun s => if commit_succeeds (world s)
           then (Ok tt, {| world := world s; durable := working s; working := working s |})
           else (Raise SQLAlchemyError, s).

Definition rollback_session (s : Session) : Session :=
  {| world := world s; durable := durable s; working := durable s |}.

(** [db.rollback()] *)
Definition rollback : M unit := fun s => (Ok tt, rollback_session s).

(** [db.add(obj)] of a new row.  The row joins the view of the transaction
    at once, with the id that its INSERT gives it: the operations of this
    file flush it right away or at [commit] and do not query its table in
    between. *)
Definition add_booking (b : Booking.t) : M Booking.t :=
  fun s =>
    let b' := Booking.set_id (autoincrement (map Booking.id (bookings (working s)))) b in
    (Ok b', {| world := world s; durable := durable s;
               working := with_bookings (bookings (working s) ++ [b']) (working s) |}).

Definition add_passenger (booking_id : Z) (p : PassengerCreate) : M unit :=
  modify (fun d =>
    let row := Passenger.mk (autoincrement (map Passenger.id (passenger_rows d)))
                 booking_id (pc_name p) (pc_age p) (pc_gender p) in
    with_passenger_rows (passenger_rows d ++ [row]) d).

Definition add_refund_request (booking_id user_id amount : Z) : M unit :=
  modify (fun d =>
    let row := RefundRequest.mk (autoincrement (map RefundRequest.id (refund_requests d)))
                 booking_id user_id amount PENDING in
    with_refund_requests (refund_requests d ++ [row]) d).

(** An attribute of a loaded object is assigned: the row is rewritten. *)
Definition save_schedule (schedule : TrainSchedule.t) : M unit :=
  modify (fun d =>
    with_train_schedules (update_row TrainSchedule.id schedule (train_schedules d)) d).

Definition save_booking (booking : Booking.t) : M unit :=
  modify (fun d => with_bookings (update_row Booking.id booking (bookings d)) d).

(** [db.refresh(obj)]: the row is read again by its primary key. *)
Definition refresh_booking (b : Booking.t) : M Booking.t :=
  row <- query_first bookings (fun r => Booking.id r =? Booking.id b) ;;
  match row with
  | Some r => ret r
  | None => raise SQLAlchemyError
  end.

(** ** Dates ([datetime.date], [datetime.timedelta])

    A date is its proleptic Gregorian ordinal: [date.min], 0001-01-01, is
    1 and [date.max], 9999-12-31, is 3652059.  A [timedelta] holds at most
    999999999 days in either direction.  The constructor and the addition
    raise [OverflowError] beyond these. *)

Definition date_min : Z := 1.
Definition date_max : Z := 3652059.
Definition timedelta_max_days : Z := 999999999.

(** [timedelta(days=days)] *)
Definition timedelta (days : Z) : M Z :=
  if Z.abs days <=? timedelta_max_days
  then ret days
  else raise (OverflowError
         (String.append "days="
            (String.append (str days) "; must have magnitude <= 999999999"))).

(** [d + delta] for a date [d] *)
Definition date_add (d delta : Z) : M Z :=
  if (date_min <=? d + delta) && (d + delta <=? date_max)
  then ret (d + delta)
  else raise (OverflowError "date value out of range").

(** [max(1, (distance_km + 499) // 500)]: the days of a journey. *)
Definition journey_days (route : Route.t) : Z :=
  Z.max 1 ((Route.distance_km route + 499) / 500).

(** The last day of a journey on a schedule is a date. *)
Definition journey_representable (schedule : TrainSchedule.t) (route : Route.t) : bool :=
  (Z.abs (journey_days route - 1) <=? timedelta_max_days)
  && ((date_min <=? TrainSchedule.schedule_date schedule + (journey_days route - 1))
      && (TrainSchedule.schedule_date schedule + (journey_days route - 1) <=? date_max)).

(** [schedule.route]: the relationship loads the row of [routes] that
    [route_id] names; [None] when there is none. *)
Definition schedule_route (schedule : TrainSchedule.t) : M (option Route.t) :=
  query_first routes (fun r => Route.id r =? TrainSchedule.route_id schedule).

(** [route.train] *)
Definition route_train (route : Route.t) : M (option Train.t) :=
  query_first trains (fun t => Train.id t =? Route.train_id route).

(** ** [BookingService] ([app/services/__init__.py]) *)

(** The dictionary that [cancel_booking_with_refund] returns;
    [refund_amount] is [float(booking.total_amount)], kept here as the
    exact amount. *)
Record CancelResult := { message : string; refund_amount : Z }.

(** The dictionary the cancel endpoint answers with; its [refund_amount]
    entry is the whole result of the service call. *)
Record CancelResponse := { response_message : string; response_refund_amount : CancelResult }.

Module BookingService.

(** [''.join(random.choices(string.ascii_uppercase + string.digits, k=8))] *)
Definition generate_booking_reference : M string :=
  w <- the_world ;; ret (random_choices w).

Definition create_booking (booking : BookingCreate) (user_id : Z) : M Booking.t :=
  (* Check seat availability: one test,
     [not schedule or schedule.available_seats < len(booking.passengers)],
     and one [raise] for both of its cases *)
  schedule <- query_first train_schedules
                (fun r => TrainSchedule.id r =? schedule_id booking) ;;
  match schedule with
  | None => raise (ValueError "Insufficient seats available")
  | Some schedule =>
    if TrainSchedule.available_seats schedule <? len (passengers booking)
    then raise (ValueError "Insufficient seats available")
    else
      route <- schedule_route schedule ;;
      match route with
      | None => raise (AttributeError "'NoneType' object has no attribute 'base_fare'")
      | Some route =>
        (* Calculate total amount *)
        let total_amount := Route.base_fare route * len (passengers booking) in
        (* Calculate journey dates *)
        let journey_date_from := TrainSchedule.schedule_date schedule in
        let days := Z.max 1 ((Route.distance_km route + 499) / 500) in
        delta <- timedelta (days - 1) ;;
        journey_date_to <- date_add journey_date_from delta ;;
        (* Create booking; [status] takes the column default *)
        reference <- generate_booking_reference ;;
        db_booking <- add_booking
          (Booking.mk 0 user_id (schedule_id booking) reference
             (len (passengers booking)) total_amount confirmed
             journey_date_from journey_date_to) ;;
        flush ;;;  (* Get booking ID *)
        (* Add passengers *)
        for_each (passengers booking) (add_passenger (Booking.id db_booking)) ;;;
        (* Update available seats *)
        save_schedule (TrainSchedule.set_available_seats
          (TrainSchedule.available_seats schedule - len (passengers booking)) schedule) ;;;
        commit ;;;
        refresh_booking db_booking
      end
  end.

Definition cancel_booking_with_refund (booking_id user_id : Z) : M CancelResult :=
  booking <- query_first bookings
               (fun b => (Booking.id b =? booking_id) && (Booking.user_id b =? user_id)) ;;
  match booking with
  | None => raise (ValueError "Booking not found")
  | Some booking =>
    if negb (BookingStatus_eqb (Booking.status booking) confirmed)
    then raise (ValueError "Only confirmed bookings can be cancelled")
    else
      (* Cancel booking *)
      let booking := Booking.set_status cancelled booking in
      save_booking booking ;;;
      (* Restore seats *)
      schedule <- query_first train_schedules
                    (fun r => TrainSchedule.id r =? Booking.schedule_id booking) ;;
      match schedule with
      | None => raise (AttributeError "'NoneType' object has no attribute 'available_seats'")
      | Some schedule =>
        save_schedule (TrainSchedule.set_available_seats
          (TrainSchedule.available_seats schedule + Booking.passenger_count booking)
          schedule) ;;;
        (* Create refund request instead of immediate refund *)
        add_refund_request booking_id user_id (Booking.total_amount booking) ;;;
        commit ;;;
        ret {| message := "Booking cancelled. Refund request submitted for admin approval.";
               refund_amount := Booking.total_amount booking |}
      end
  end.

End BookingService.

(** ** The endpoints of [app/api/bookings.py] and [get_db] *)

Module api.

Definition create_booking (booking : BookingCreate) (current_user_id : Z) : M Booking.t :=
  try_except (BookingService.create_booking booking current_user_id)
    (fun e => match e with
              | ValueError msg => raise (HTTPException 400 msg)
              | _ => rollback ;;;
                     raise (HTTPException 500 "Booking failed. Please try again.")
              end).

Definition cancel_booking_with_refund (booking_id current_user_id : Z) : M CancelResponse :=
  try_except
    (refund <- BookingService.cancel_booking_with_refund booking_id current_user_id ;;
     ret {| response_message := "Booking cancelled and refunded successfully";
            response_refund_amount := refund |})
    (fun e => match e with
              | ValueError msg => raise (HTTPException 400 msg)
              | _ => raise e
              end).

End api.

(** [get_db] of [app/core/database.py] around an endpoint: a new session on
    the committed database; [rollback] when the endpoint raises; [close] in
    every case, which drops whatever was not committed.  The result is the
    endpoint's and the database is the committed one. *)
Definition get_db {A} (w : World) (endpoint : M A) (db : Database) : Result A * Database :=
  let '(r, s) := endpoint {| world := w; durable := db; working := db |} in
  let s := match r with
           | Raise _ => rollback_session s
           | Ok _ => s
           end in
  (r, durable (rollback_session s)).

(** ** [RouteService.create_schedules_for_route] ([app/services/__init__.py]) *)

Definition add_schedule (route_id schedule_date available_seats : Z) : M unit :=
  modify (fun d =>
    let row := TrainSchedule.mk (autoincrement (map TrainSchedule.id (train_schedules d)))
                 route_id schedule_date available_seats in
    with_train_schedules (train_schedules d ++ [row]) d).

(** [range(n)] *)
Definition range (n : Z) : list Z := map Z.of_nat (seq 0 (Z.to_nat n)).

Module RouteService.

(** The body of the loop [for i in range(days_ahead)]. *)
Definition schedule_day (w : World) (route_id : Z) (route : Route.t) (i : Z) : M unit :=
  delta <- timedelta i ;;
  schedule_date <- date_add (today w) delta ;;
  (* Check if schedule already exists *)
  existing_schedule <- query_first train_schedules
    (fun s => (TrainSchedule.route_id s =? route_id)
              && (TrainSchedule.schedule_date s =? schedule_date)) ;;
  match existing_schedule with
  | Some _ => ret tt
  | None =>
    train <- route_train route ;;
    match train with
    | None => raise (AttributeError "'NoneType' object has no attribute 'total_seats'")
    | Some train => add_schedule route_id schedule_date (Train.total_seats train)
    end
  end.

Definition create_schedules_for_route (route_id days_ahead : Z) : M unit :=
  route <- query_first routes (fun r => Route.id r =? route_id) ;;
  match route with
  | None => ret tt
  | Some route =>
    w <- the_world ;;
    for_each (range days_ahead) (schedule_day w route_id route) ;;;
    commit
  end.

End RouteService.

(** ** [BookingRepository] ([app/repositories/booking.py])

    The second implementation of the two operations, on an
    [AsyncSession].  No endpoint under [app/api] calls it. *)

Module BookingRepository.

(** [async with db.begin(): body]: the transaction is rolled back when
    the body raises, and the exception goes on. *)
Definition begin {A} (body : M A) : M A :=
  try_except body (fun e => rollback ;;; raise e).

(** An attribute of a relationship that the query has not loaded, read on
    an [AsyncSession]: the load would have to wait for the database, which
    an attribute access cannot do, and SQLAlchemy raises [MissingGreenlet]
    (an [InvalidRequestError]). *)
Definition lazy_load {R} : M R := raise SQLAlchemyError.

(** [await db.refresh(obj)] after [await db.commit()] inside the block of
    [db.begin()]: the transaction of the block is closed, and until the
    block ends the session refuses every further command
    ([InvalidRequestError]).  What was committed stays committed. *)
Definition refresh_in_closed_transaction {R} : M R := raise SQLAlchemyError.

(** [select(T).where(p).with_for_update()] followed by
    [scalar_one_or_none()].  The row lock orders concurrent
    transactions; one transaction alone reads the row as any query. *)
Definition select_for_update {R} (table : Database -> list R) (p : R -> bool)
  : M (option R) := query_first table p.

(** [''.join(secrets.choices(string.ascii_uppercase + string.digits, k=8))]:
    the module [secrets] has [choice], [randbelow], [randbits] and the
    [token_*] functions, and no [choices]; the attribute lookup raises. *)
Definition _generate_booking_reference : M string :=
  raise (AttributeError "module 'secrets' has no attribute 'choices'").

Definition create_booking_with_seat_lock (booking_data : BookingCreate) (user_id : Z)
  : M Booking.t :=
  begin (
    (* Lock the train schedule row for update *)
    schedule <- select_for_update train_schedules
                  (fun r => TrainSchedule.id r =? schedule_id booking_data) ;;
    match schedule with
    | None => raise (NotFoundError "TrainSchedule" (schedule_id booking_data))
    | Some schedule =>
      let passenger_count := len (passengers booking_data) in
      (* Check seat availability under lock *)
      if TrainSchedule.available_seats schedule <? passenger_count
      then raise (InsufficientSeatsError (TrainSchedule.available_seats schedule)
                    passenger_count)
      else
        (* Calculate total amount: [schedule.route] is not loaded *)
        route <- lazy_load ;;
        let total_amount := Route.base_fare route * passenger_count in
        reference <- _generate_booking_reference ;;
        (* the journey dates are not given to this constructor call *)
        booking <- add_booking
          (Booking.mk 0 user_id (schedule_id booking_data) reference
             passenger_count total_amount confirmed 0 0) ;;
        flush ;;;  (* Get booking ID without committing *)
        for_each (passengers booking_data) (add_passenger (Booking.id booking)) ;;;
        save_schedule (TrainSchedule.set_available_seats
          (TrainSchedule.available_seats schedule - passenger_count) schedule) ;;;
        commit ;;;
        refresh_in_closed_transaction
    end).

Definition cancel_booking_with_seat_release (booking_id user_id : Z)
  : M (option Booking.t) :=
  begin (
    booking <- select_for_update bookings
      (fun b => (Booking.id b =? booking_id) && (Booking.user_id b =? user_id)
                && BookingStatus_eqb (Booking.status b) confirmed) ;;
    match booking with
    | None => ret None
    | Some booking =>
      schedule <- select_for_update train_schedules
                    (fun r => TrainSchedule.id r =? Booking.schedule_id booking) ;;
      match schedule with
      | None => raise SQLAlchemyError   (* [scalar_one()] finds no row *)
      | Some schedule =>
        let booking := Booking.set_status cancelled booking in
        save_booking booking ;;;
        save_schedule (TrainSchedule.set_available_seats
          (TrainSchedule.available_seats schedule + Booking.passenger_count booking)
          schedule) ;;;
        commit ;;;
        b <- refresh_in_closed_transaction ;;
        ret (Some b)
      end
    end).

End BookingRepository.

(** ** [process_payment] ([app/api/payments.py]) *)

Definition save_wallet (w : Wallet.t) : M unit :=
  modify (fun d => with_wallets (update_row Wallet.id w (wallets d)) d).

Definition save_card (c : CreditCard.t) : M unit :=
  modify (fun d => with_credit_cards (update_row CreditCard.id c (credit_cards d)) d).

Definition save_upi (u : UpiId.t) : M unit :=
  modify (fun d => with_upi_ids (update_row UpiId.id u (upi_ids d)) d).

Definition new_transaction (rows : list Transaction.t) (owner_id amount : Z)
    (description reference_id : string) : Transaction.t :=
  Transaction.mk (autoincrement (map Transaction.id rows)) owner_id "debit" amount
    description reference_id.

Definition add_wallet_transaction (owner_id amount : Z) (description reference_id : string)
  : M unit :=
  modify (fun d => with_wallet_transactions
    (wallet_transactions d
       ++ [new_transaction (wallet_transactions d) owner_id amount description reference_id]) d).

Definition add_card_transaction (owner_id amount : Z) (description reference_id : string)
  : M unit :=
  modify (fun d => with_card_transactions
    (card_transactions d
       ++ [new_transaction (card_transactions d) owner_id amount description reference_id]) d).

Definition add_upi_transaction (owner_id amount : Z) (description reference_id : string)
  : M unit :=
  modify (fun d => with_upi_transactions
    (upi_transactions d
       ++ [new_transaction (upi_transactions d) owner_id amount description reference_id]) d).

Definition add_payment (p : Payment.t) : M Payment.t :=
  fun s =>
    let p' := Payment.mk (autoincrement (map Payment.id (payments (working s))))
                (Payment.booking_id p) (Payment.user_id p) (Payment.amount p)
                (Payment.payment_method p) (Payment.status p) (Payment.transaction_id p) in
    (Ok p', {| world := world s; durable := durable s;
               working := with_payments (payments (working s) ++ [p']) (working s) |}).

Definition refresh_payment (p : Payment.t) : M Payment.t :=
  row <- query_first payments (fun r => Payment.id r =? Payment.id p) ;;
  match row with
  | Some r => ret r
  | None => raise SQLAlchemyError
  end.

(** [if not payment_data.card_id]: [None] and [0] are both false. *)
Definition given (id : option Z) : option Z :=
  match id with
  | Some i => if i =? 0 then None else Some i
  | None => None
  end.

Module payments.

Definition process_payment (payment_data : PaymentCreate) (current_user_id : Z)
  : M Payment.t :=
  (* Get booking *)
  booking <- query_first bookings
    (fun b => (Booking.id b =? pay_booking_id payment_data)
              && (Booking.user_id b =? current_user_id)) ;;
  match booking with
  | None => raise (HTTPException 404 "Booking not found")
  | Some booking =>
    (* Check if payment already exists *)
    existing_payment <- query_first payments
      (fun p => Payment.booking_id p =? Booking.id booking) ;;
    match existing_payment with
    | Some _ => raise (HTTPException 400 "Payment already processed for this booking")
    | None =>
      let description :=
        String.append "Payment for booking " (Booking.booking_reference booking) in
      (* Process payment based on method *)
      match pay_payment_method payment_data with
      | WALLET =>
        wallet <- query_first wallets (fun w => Wallet.user_id w =? current_user_id) ;;
        match wallet with
        | None => raise (HTTPException 400 "Insufficient wallet balance")
        | Some wallet =>
          if Wallet.balance wallet <? Booking.total_amount booking
          then raise (HTTPException 400 "Insufficient wallet balance")
          else
            save_wallet (Wallet.set_balance
              (Wallet.balance wallet - Booking.total_amount booking) wallet) ;;;
            add_wallet_transaction (Wallet.id wallet) (Booking.total_amount booking)
              description (str (Booking.id booking))
        end
      | CREDIT_CARD =>
        match given (card_id payment_data) with
        | None => raise (HTTPException 400 "Card ID required for credit card payment")
        | Some cid =>
          card <- query_first credit_cards
            (fun c => (CreditCard.id c =? cid) && (CreditCard.user_id c =? current_user_id)) ;;
          match card with
          | None => raise (HTTPException 404 "Credit card not found")
          | Some card =>
            if negb (CreditCard.is_active card)
            then raise (HTTPException 404 "Credit card not found")
            else if CreditCard.balance card <? Booking.total_amount booking
            then raise (HTTPException 400 "Insufficient card balance")
            else
              save_card (CreditCard.set_balance
                (CreditCard.balance card - Booking.total_amount booking) card) ;;;
              add_card_transaction (CreditCard.id card) (Booking.total_amount booking)
                description (str (Booking.id booking))
          end
        end
      | UPI =>
        match given (upi_id payment_data) with
        | None => raise (HTTPException 400 "UPI ID required for UPI payment")
        | Some uid =>
          upi <- query_first upi_ids
            (fun u => (UpiId.id u =? uid) && (UpiId.user_id u =? current_user_id)) ;;
          match upi with
          | None => raise (HTTPException 404 "UPI ID not found")
          | Some upi =>
            if negb (UpiId.is_active upi)
            then raise (HTTPException 404 "UPI ID not found")
            else if UpiId.balance upi <? Booking.total_amount booking
            then raise (HTTPException 400 "Insufficient UPI balance")
            else
              save_upi (UpiId.set_balance
                (UpiId.balance upi - Booking.total_amount booking) upi) ;;;
              add_upi_transaction (UpiId.id upi) (Booking.total_amount booking)
                description (str (Booking.id booking))
          end
        end
      | DEBIT_CARD => ret tt
      end ;;;
      (* Create payment record *)
      w <- the_world ;;
      payment <- add_payment
        (Payment.mk 0 (Booking.id booking) current_user_id (Booking.total_amount booking)
           (pay_payment_method payment_data) payment_completed (uuid4 w)) ;;
      commit ;;;
      refresh_payment payment
    end
  end.

End payments.

(** The rows that the loop over [booking.passengers] adds. *)
Definition insert_passengers (booking_id : Z) (l : list PassengerCreate) (db : Database)
  : Database :=
  fold_left (fun d p =>
    with_passenger_rows
      (passenger_rows d
         ++ [Passenger.mk (autoincrement (map Passenger.id (passenger_rows d)))
               booking_id (pc_name p) (pc_age p) (pc_gender p)]) d) l db.

(** ** What the properties observe *)

(** The row of a schedule, as a query by primary key finds it. *)
Definition schedule_row (db : Database) (schedule_id : Z) : option TrainSchedule.t :=
  find (fun r => TrainSchedule.id r =? schedule_id) (train_schedules db).

Definition available_seats_of (db : Database) (schedule_id : Z) : option Z :=
  option_map TrainSchedule.available_seats (schedule_row db schedule_id).

(** The fare of the route of a schedule. *)
Definition base_fare_of (db : Database) (schedule_id : Z) : option Z :=
  match schedule_row db schedule_id with
  | Some s =>
      option_map Route.base_fare
        (find (fun r => Route.id r =? TrainSchedule.route_id s) (routes db))
  | None => None
  end.

Definition on_schedule (schedule_id : Z) (b : Booking.t) : bool :=
  Booking.schedule_id b =? schedule_id.

Definition is_confirmed (b : Booking.t) : bool :=
  BookingStatus_eqb (Booking.status b) confirmed.

Definition sum (l : list Z) : Z := fold_right Z.add 0 l.

(** The sum of [passenger_count] over the confirmed bookings of a schedule. *)
Definition confirmed_seats (db : Database) (schedule_id : Z) : Z :=
  sum (map Booking.passenger_count
         (filter (fun b => on_schedule schedule_id b && is_confirmed b) (bookings db))).

(** A schedule as [create_schedules_for_route] leaves it: the counter at
    the capacity and no booking on it yet. *)
Definition fresh_schedule (db : Database) (schedule_id total_capacity : Z) : Prop :=
  available_seats_of db schedule_id = Some total_capacity /\
  forall b, In b (bookings db) -> Booking.schedule_id b <> schedule_id.

(** The primary key of [bookings]. *)
Definition bookings_key (db : Database) : Prop := NoDup (map Booking.id (bookings db)).

(** ** Sequences of requests *)

Inductive Operation :=
| reserve (w : World) (booking : BookingCreate) (user_id : Z)
| release (w : World) (booking_id user_id : Z).

Definition perform (db : Database) (op : Operation) : Database :=
  match op with
  | reserve w booking user_id => snd (get_db w (api.create_booking booking user_id) db)
  | release w booking_id user_id =>
      snd (get_db w (api.cancel_booking_with_refund booking_id user_id) db)
  end.

Definition perform_all (ops : list Operation) (db : Database) : Database :=
  fold_left perform ops db.

(** A store that accepts what the request sends. *)
Definition storage_ok (w : World) : Prop :=
  flush_succeeds w = true /\ commit_succeeds w = true.

(** ** Requests that run at the same time

    [create_booking] of [app/api/bookings.py] is a plain [def], which the
    framework runs on a thread of its pool, each request with a session of
    its own.  [BookingService.create_booking] reads the schedule with a
    plain query: the row is not locked, so between that read (line 253) and
    the [commit] (line 292) of one request the statements of the others can
    run.  A request is therefore two steps on the committed database: the
    read, with everything the function does on the objects of its session,
    and the commit, which sends the INSERTs and
    [UPDATE train_schedules SET available_seats = <the value the session
    computed> WHERE id = <pk>].  A session reads what is committed when it
    reads, and what it writes is seen by the others once it has committed. *)

Module Interleaving.

Inductive Thread :=
| at_query (w : World) (booking : BookingCreate) (user_id : Z)
| at_commit (w : World) (booking : BookingCreate) (schedule : TrainSchedule.t)
    (db_booking : Booking.t)
| returned (db_booking : Booking.t)
| raised (e : Exception).

(** Lines 253-290 on the session of the thread: the schedule object is
    loaded, checked and decremented, the booking is built and flushed.
    Every exception but the [ValueError] of the check is answered with
    500, also the [OverflowError] of a journey that ends after
    [date.max]. *)
Definition query_step (w : World) (db : Database) (booking : BookingCreate) (user_id : Z)
  : Thread :=
  match find (fun r => TrainSchedule.id r =? schedule_id booking) (train_schedules db) with
  | None => raised (HTTPException 400 "Insufficient seats available")
  | Some schedule =>
    if TrainSchedule.available_seats schedule <? len (passengers booking)
    then raised (HTTPException 400 "Insufficient seats available")
    else
      match find (fun r => Route.id r =? TrainSchedule.route_id schedule) (routes db) with
      | None => raised (HTTPException 500 "Booking failed. Please try again.")
      | Some route =>
        let total_amount := Route.base_fare route * len (passengers booking) in
        let journey_date_from := TrainSchedule.schedule_date schedule in
        let days := Z.max 1 ((Route.distance_km route + 499) / 500) in
        let journey_date_to := journey_date_from + (days - 1) in
        if negb (journey_representable schedule route)
        then raised (HTTPException 500 "Booking failed. Please try again.")
        else if flush_succeeds w
        then at_commit w booking
               (TrainSchedule.set_available_seats
                  (TrainSchedule.available_seats schedule - len (passengers booking))
                  schedule)
               (Booking.mk 0 user_id (schedule_id booking) (random_choices w)
                  (len (passengers booking)) total_amount confirmed
                  journey_date_from journey_date_to)
        else raised (HTTPException 500 "Booking failed. Please try again.")
      end
  end.

(** Line 292 on the committed database of that moment.  The booking row
    takes its id here and not at the flush; the ids play no part in what
    is counted. *)
Definition commit_step (w : World) (db : Database) (booking : BookingCreate)
    (schedule : TrainSchedule.t) (db_booking : Booking.t) : Database * Thread :=
  if commit_succeeds w
  then
    let b := Booking.set_id (autoincrement (map Booking.id (bookings db))) db_booking in
    let db := with_bookings (bookings db ++ [b]) db in
    let db := insert_passengers (Booking.id b) (passengers booking) db in
    let db := with_train_schedules
                (update_row TrainSchedule.id schedule (train_schedules db)) db in
    (db, returned b)
  else (db, raised (HTTPException 500 "Booking failed. Please try again.")).

Definition step (db : Database) (t : Thread) : Database * Thread :=
  match t with
  | at_query w booking user_id => (db, query_step w db booking user_id)
  | at_commit w booking schedule db_booking =>
      commit_step w db booking schedule db_booking
  | returned _ | raised _ => (db, t)
  end.

Record State := { database : Database; threads : list Thread }.

Fixpoint step_nth (db : Database) (ts : list Thread) (i : nat)
  : Database * list Thread :=
  match ts, i with
  | [], _ => (db, [])
  | t :: ts', O => let '(db', t') := step db t in (db', t' :: ts')
  | t :: ts', S j => let '(db', ts'') := step_nth db ts' j in (db', t :: ts'')
  end.

(** The thread [i] takes its next step. *)
Definition schedule_thread (st : State) (i : nat) : State :=
  let '(db, ts) := step_nth (database st) (threads st) i in
  {| database := db; threads := ts |}.

(** An interleaving is the order in which the threads take their steps. *)
Definition run (order : list nat) (st : State) : State :=
  fold_left schedule_thread order st.

Definition is_returned (t : Thread) : bool :=
  match t with returned _ => true | _ => false end.

Definition is_raised (t : Thread) : bool :=
  match t with raised _ => true | _ => false end.

Definition successes (st : State) : nat := List.length (filter is_returned (threads st)).
Definition failures (st : State) : nat := List.length (filter is_raised (threads st)).

(** No request is under way: each has returned or raised. *)
Definition quiescent (st : State) : bool :=
  forallb (fun t => is_returned t || is_raised t) (threads st).

(** The test of the specification: capacity 10, all seats free, and 15
    requests of one seat each. *)
Definition one_passenger : PassengerCreate :=
  {| pc_name := "P"; pc_age := 30; pc_gender := other |}.

Definition ten_seats : Database :=
  {| trains := [Train.mk 1 10]; routes := [Route.mk 1 1 300 45000];
     train_schedules := [TrainSchedule.mk 1 1 739000 10];
     bookings := []; passenger_rows := []; refund_requests := []; wallets := [];
     credit_cards := []; upi_ids := []; wallet_transactions := [];
     card_transactions := []; upi_transactions := []; payments := [] |}.

(** The world of the request of user [u]: the store accepts everything,
    and every request draws a reference of its own. *)
Definition fair_weather (u : Z) : World :=
  {| random_choices := String.append "RAIL00" (str u); uuid4 := ""; today := 739000;
     flush_succeeds := true; commit_succeeds := true |}.

Definition fifteen_requests : State :=
  {| database := ten_seats;
     threads := map (fun u => at_query (fair_weather (Z.of_nat u))
                                {| schedule_id := 1; passengers := [one_passenger] |}
                                (Z.of_nat u)) (seq 10 15) |}.

(** Every request reads before any of them commits. *)
Definition all_read_then_all_commit : list nat := seq 0 15 ++ seq 0 15.

(** One request after the other. *)
Definition one_after_the_other : list nat := flat_map (fun i => [i; i]) (seq 0 15).

(** Two requests of one seat each on the same schedule, by the users 10
    and 11, and the two ways they can run: both read before either
    commits, or the second starts when the first has committed. *)
Definition two_requests : State :=
  {| database := ten_seats;
     threads := map (fun u => at_query (fair_weather u)
                                {| schedule_id := 1; passengers := [one_passenger] |} u)
                  [10; 11] |}.

Definition read_read_commit_commit : list nat := [0%nat; 1%nat; 0%nat; 1%nat].

Definition read_commit_read_commit : list nat := [0%nat; 0%nat; 1%nat; 1%nat].

End Interleaving.

(** ** The outcome of a request, spelled out

    [new_booking] is the row a reservation inserts and [booked] the
    database it commits; [cancelled_booking] is the database a
    cancellation commits. *)

Definition new_booking (w : World) (db : Database) (booking : BookingCreate) (user_id : Z)
    (schedule : TrainSchedule.t) (route : Route.t) : Booking.t :=
  Booking.mk (autoincrement (map Booking.id (bookings db))) user_id (schedule_id booking)
    (random_choices w) (len (passengers booking))
    (Route.base_fare route * len (passengers booking)) confirmed
    (TrainSchedule.schedule_date schedule)
    (TrainSchedule.schedule_date schedule
     + (Z.max 1 ((Route.distance_km route + 499) / 500) - 1)).

Definition booked (db : Database) (booking : BookingCreate) (schedule : TrainSchedule.t)
    (b : Booking.t) : Database :=
  with_train_schedules
    (update_row TrainSchedule.id
       (TrainSchedule.set_available_seats
          (TrainSchedule.available_seats schedule - len (passengers booking)) schedule)
       (train_schedules db))
    (insert_passengers (Booking.id b) (passengers booking)
       (with_bookings (bookings db ++ [b]) db)).

Definition cancelled_booking (db : Database) (b : Booking.t) (schedule : TrainSchedule.t)
    (booking_id user_id : Z) : Database :=
  let db1 := with_bookings
               (update_row Booking.id (Booking.set_status cancelled b) (bookings db)) db in
  let db2 := with_train_schedules
               (update_row TrainSchedule.id
                  (TrainSchedule.set_available_seats
                     (TrainSchedule.available_seats schedule + Booking.passenger_count b)
                     schedule)
                  (train_schedules db1)) db1 in
  with_refund_requests
    (refund_requests db2
       ++ [RefundRequest.mk (autoincrement (map RefundRequest.id (refund_requests db2)))
             booking_id user_id (Booking.total_amount b) PENDING]) db2.

(** The seats a booking holds on the schedule [k]. *)
Definition seats_held (k : Z) (b : Booking.t) : Z :=
  if on_schedule k b && is_confirmed b then Booking.passenger_count b else 0.

(** The counter of the schedule [k] and its confirmed bookings add up to
    [total]. *)
Definition conserved (k total : Z) (db : Database) : Prop :=
  bookings_key db /\
  exists s, schedule_row db k = Some s /\
            TrainSchedule.available_seats s + confirmed_seats db k = total.

(** Nothing is negative: neither the counter of the schedule [k] nor a
    booking on it. *)
Definition nonnegative (k : Z) (db : Database) : Prop :=
  (forall b, In b (bookings db) -> Booking.schedule_id b = k ->
             0 <= Booking.passenger_count b) /\
  exists s, schedule_row db k = Some s /\ 0 <= TrainSchedule.available_seats s.

(** What a payment takes from the instrument it names: the balance of the
    wallet, card or UPI id that the request addresses is smaller by
    [amount]; [DEBIT_CARD] has no balance and touches none. *)
Definition debited (payment_data : PaymentCreate) (payer amount : Z)
    (before after : Database) : Prop :=
  match pay_payment_method payment_data with
  | WALLET =>
      exists wallet,
        find (fun w => Wallet.user_id w =? payer) (wallets before) = Some wallet
        /\ find (fun w => Wallet.user_id w =? payer) (wallets after)
           = Some (Wallet.set_balance (Wallet.balance wallet - amount) wallet)
  | CREDIT_CARD =>
      exists cid card,
        given (card_id payment_data) = Some cid
        /\ find (fun c => (CreditCard.id c =? cid) && (CreditCard.user_id c =? payer))
             (credit_cards before) = Some card
        /\ find (fun c => (CreditCard.id c =? cid) && (CreditCard.user_id c =? payer))
             (credit_cards after)
           = Some (CreditCard.set_balance (CreditCard.balance card - amount) card)
  | UPI =>
      exists uid upi,
        given (upi_id payment_data) = Some uid
        /\ find (fun u => (UpiId.id u =? uid) && (UpiId.user_id u =? payer))
             (upi_ids before) = Some upi
        /\ find (fun u => (UpiId.id u =? uid) && (UpiId.user_id u =? payer))
             (upi_ids after)
           = Some (UpiId.set_balance (UpiId.balance upi - amount) upi)
  | DEBIT_CARD =>
      wallets after = wallets before
      /\ credit_cards after = credit_cards before
      /\ upi_ids after = upi_ids before
  end.

(** What a payment of [amount] needs from the instrument it names: the
    wallet of the payer, or the card or UPI id of the request, owned by the
    payer and active, holds [amount] at least; [DEBIT_CARD] needs
    nothing. *)
Definition payable (payment_data : PaymentCreate) (payer amount : Z) (db : Database)
  : Prop :=
  match pay_payment_method payment_data with
  | WALLET =>
      exists wallet,
        find (fun w => Wallet.user_id w =? payer) (wallets db) = Some wallet
        /\ amount <= Wallet.balance wallet
  | CREDIT_CARD =>
      exists cid card,
        given (card_id payment_data) = Some cid
        /\ find (fun c => (CreditCard.id c =? cid) && (CreditCard.user_id c =? payer))
             (credit_cards db) = Some card
        /\ CreditCard.is_active card = true
        /\ amount <= CreditCard.balance card
  | UPI =>
      exists uid upi,
        given (upi_id payment_data) = Some uid
        /\ find (fun u => (UpiId.id u =? uid) && (UpiId.user_id u =? payer))
             (upi_ids db) = Some upi
        /\ UpiId.is_active upi = true
        /\ amount <= UpiId.balance upi
  | DEBIT_CARD => True
  end.

(** The outcome of [process_payment], spelled out: [charged] is the
    database after the debit of the instrument (or the refusal), and
    [payment_row] the row that is then recorded. *)
Definition charged (payment_data : PaymentCreate) (payer : Z) (b : Booking.t) (db : Database)
  : Exception + Database :=
  let description := String.append "Payment for booking " (Booking.booking_reference b) in
  let total := Booking.total_amount b in
  match pay_payment_method payment_data with
  | WALLET =>
      match find (fun w => Wallet.user_id w =? payer) (wallets db) with
      | None => inl (HTTPException 400 "Insufficient wallet balance")
      | Some wallet =>
          if Wallet.balance wallet <? total
          then inl (HTTPException 400 "Insufficient wallet balance")
          else
            let db1 := with_wallets
                         (update_row Wallet.id
                            (Wallet.set_balance (Wallet.balance wallet - total) wallet)
                            (wallets db)) db in
            inr (with_wallet_transactions
                   (wallet_transactions db1
                      ++ [new_transaction (wallet_transactions db1) (Wallet.id wallet) total
                            description (str (Booking.id b))]) db1)
      end
  | CREDIT_CARD =>
      match given (card_id payment_data) with
      | None => inl (HTTPException 400 "Card ID required for credit card payment")
      | Some cid =>
          match find (fun c => (CreditCard.id c =? cid) && (CreditCard.user_id c =? payer))
                  (credit_cards db) with
          | None => inl (HTTPException 404 "Credit card not found")
          | Some card =>
              if negb (CreditCard.is_active card)
              then inl (HTTPException 404 "Credit card not found")
              else if CreditCard.balance card <? total
              then inl (HTTPException 400 "Insufficient card balance")
              else
                let db1 := with_credit_cards
                             (update_row CreditCard.id
                                (CreditCard.set_balance (CreditCard.balance card - total) card)
                                (credit_cards db)) db in
                inr (with_card_transactions
                       (card_transactions db1
                          ++ [new_transaction (card_transactions db1) (CreditCard.id card)
                                total description (str (Booking.id b))]) db1)
          end
      end
  | UPI =>
      match given (upi_id payment_data) with
      | None => inl (HTTPException 400 "UPI ID required for UPI payment")
      | Some uid =>
          match find (fun u => (UpiId.id u =? uid) && (UpiId.user_id u =? payer))
                  (upi_ids db) with
          | None => inl (HTTPException 404 "UPI ID not found")
          | Some upi =>
              if negb (UpiId.is_active upi)
              then inl (HTTPException 404 "UPI ID not found")
              else if UpiId.balance upi <? total
              then inl (HTTPException 400 "Insufficient UPI balance")
              else
                let db1 := with_upi_ids
                             (update_row UpiId.id
                                (UpiId.set_balance (UpiId.balance upi - total) upi)
                                (upi_ids db)) db in
                inr (with_upi_transactions
                       (upi_transactions db1
                          ++ [new_transaction (upi_transactions db1) (UpiId.id upi)
                                total description (str (Booking.id b))]) db1)
          end
      end
  | DEBIT_CARD => inr db
  end.

Definition payment_row (w : World) (db : Database) (b : Booking.t)
    (payment_data : PaymentCreate) (payer : Z) : Payment.t :=
  Payment.mk (autoincrement (map Payment.id (payments db))) (Booking.id b) payer
    (Booking.total_amount b) (pay_payment_method payment_data) payment_completed (uuid4 w).

(** The scenario of the specification: a schedule of 50 seats, all free. *)
Module Scenario.

Definition fifty_seats : Database :=
  {| trains := [Train.mk 1 50]; routes := [Route.mk 7 1 1200 12550];
     train_schedules := [TrainSchedule.mk 3 7 100 50];
     bookings := []; passenger_rows := []; refund_requests := [];
     wallets := [Wallet.mk 1 9 100000]; credit_cards := []; upi_ids := [];
     wallet_transactions := []; card_transactions := []; upi_transactions := [];
     payments := [] |}.

Definition fair : World :=
  {| random_choices := "AB12CD34"; uuid4 := "0b6c5e0e-7f43-4c57-9a57-2f0a3c1f9d11";
     today := 100; flush_succeeds := true; commit_succeeds := true |}.

(** The store refuses the commit. *)
Definition commit_fails : World :=
  {| random_choices := "AB12CD34"; uuid4 := ""; today := 100;
     flush_succeeds := true; commit_succeeds := false |}.

Definition passenger : PassengerCreate :=
  {| pc_name := "Asha"; pc_age := 30; pc_gender := female |}.

Definition seats (n : nat) : BookingCreate :=
  {| schedule_id := 3; passengers := repeat passenger n |}.

(** [reserve(3)], [reserve(50)], [release(first)], [release(first)] by user 9. *)
Definition operations : list Operation :=
  [reserve fair (seats 3) 9; reserve fair (seats 50) 9; release fair 1 9; release fair 1 9].

(** The database after the first reservation: 47 seats free. *)
Definition forty_seven_free : Database :=
  snd (get_db fair (api.create_booking (seats 3) 9) fifty_seats).

(** The booking of that reservation. *)
Definition first_booking : Booking.t :=
  Booking.mk 1 9 3 "AB12CD34" 3 37650 confirmed 100 102.

(** Later, the fare of the route has been raised from 125.50 to 999.00. *)
Definition fare_raised : Database :=
  with_routes [Route.mk 7 1 1200 99900] forty_seven_free.

(** The user pays the first booking from the wallet. *)
Definition pay_from_wallet : PaymentCreate :=
  {| pay_booking_id := 1; pay_payment_method := WALLET; card_id := None; upi_id := None |}.

(** A route of 2000000000 km: the journey would end after [date.max]. *)
Definition far_away : Database :=
  with_routes [Route.mk 7 1 2000000000 12550] fifty_seats.

End Scenario.

(** ** More of the session

    The queries and writes that the functions below need beside the ones
    above. *)

(** [db.query(T).filter(p).all()] *)
Definition query_all {R} (table : Database -> list R) (p : R -> bool) : M (list R) :=
  fun s => (Ok (filter p (table (working s))), s).

(** [enumerate(l)] *)
Definition enumerate {A} (l : list A) : list (nat * A) := combine (seq 0 (List.length l)) l.

Definition save_passenger (p : Passenger.t) : M unit :=
  modify (fun d => with_passenger_rows (update_row Passenger.id p (passenger_rows d)) d).

(** [db.query(Passenger).filter(p).delete()] and the same on [Booking]. *)
Definition delete_passengers (p : Passenger.t -> bool) : M unit :=
  modify (fun d => with_passenger_rows (filter (fun r => negb (p r)) (passenger_rows d)) d).

Definition delete_bookings (p : Booking.t -> bool) : M unit :=
  modify (fun d => with_bookings (filter (fun r => negb (p r)) (bookings d)) d).

Definition add_wallet (w : Wallet.t) : M Wallet.t :=
  fun s =>
    let w' := Wallet.mk (autoincrement (map Wallet.id (wallets (working s))))
                (Wallet.user_id w) (Wallet.balance w) in
    (Ok w', {| world := world s; durable := durable s;
               working := with_wallets (wallets (working s) ++ [w']) (working s) |}).

Definition refresh_wallet (w : Wallet.t) : M Wallet.t :=
  row <- query_first wallets (fun r => Wallet.id r =? Wallet.id w) ;;
  match row with
  | Some r => ret r
  | None => raise SQLAlchemyError
  end.

Definition add_wallet_credit (owner_id amount : Z) (description reference_id : string)
  : M unit :=
  modify (fun d => with_wallet_transactions
    (wallet_transactions d
       ++ [Transaction.mk (autoincrement (map Transaction.id (wallet_transactions d)))
             owner_id "credit" amount description reference_id]) d).

(** ** The other functions of [BookingService] and the endpoints on them
    ([app/services/__init__.py], [app/api/bookings.py]) *)

Module BookingQueries.

Definition get_user_bookings (user_id : Z) : M (list Booking.t) :=
  query_all bookings (fun b => Booking.user_id b =? user_id).

Definition get_booking_by_id (booking_id user_id : Z) : M (option Booking.t) :=
  query_first bookings
    (fun b => (Booking.id b =? booking_id) && (Booking.user_id b =? user_id)).

(** [booking.passengers]: the rows of [passengers] with the id of the
    booking, in the order of the table. *)
Definition booking_passengers (booking : Booking.t) : M (list Passenger.t) :=
  query_all passenger_rows (fun p => Passenger.booking_id p =? Booking.id booking).

(** [passengers_data] is a list of dictionaries; the embedding takes the
    ones that have the three keys [name], [age] and [gender]. *)
Definition update_booking_passengers (booking_id user_id : Z)
    (passengers_data : list PassengerCreate) : M Booking.t :=
  booking <- query_first bookings
               (fun b => (Booking.id b =? booking_id) && (Booking.user_id b =? user_id)) ;;
  match booking with
  | None => raise (ValueError "Booking not found")
  | Some booking =>
    if negb (BookingStatus_eqb (Booking.status booking) confirmed)
    then raise (ValueError "Only confirmed bookings can be edited")
    else
      (* Update passenger details *)
      loaded <- booking_passengers booking ;;
      for_each (enumerate passengers_data) (fun '(i, passenger_data) =>
        match nth_error loaded i with   (* if i < len(booking.passengers) *)
        | Some passenger =>
            save_passenger (Passenger.mk (Passenger.id passenger)
              (Passenger.booking_id passenger) (pc_name passenger_data)
              (pc_age passenger_data) (pc_gender passenger_data))
        | None => ret tt
        end) ;;;
      commit ;;;
      ret booking
  end.

(** [get_my_bookings] *)
Definition get_my_bookings (current_user_id : Z) : M (list Booking.t) :=
  get_user_bookings current_user_id.

(** [get_booking] *)
Definition get_booking (booking_id current_user_id : Z) : M Booking.t :=
  booking <- get_booking_by_id booking_id current_user_id ;;
  match booking with
  | None => raise (HTTPException 404 "Booking not found")
  | Some booking => ret booking
  end.

(** [update_booking] *)
Definition update_booking (booking_id : Z) (passengers : list PassengerCreate)
    (current_user_id : Z) : M string :=
  try_except
    (update_booking_passengers booking_id current_user_id passengers ;;;
     ret "Booking updated successfully")
    (fun e => match e with
              | ValueError msg => raise (HTTPException 400 msg)
              | _ => raise e
              end).

End BookingQueries.

(** ** The card, wallet and UPI endpoints of [app/api/payments.py] *)


Module instruments.

Definition get_credit_cards (current_user_id : Z) : M (list CreditCard.t) :=
  query_all credit_cards
    (fun c => (CreditCard.user_id c =? current_user_id) && CreditCard.is_active c).

Definition delete_credit_card (card_id current_user_id : Z) : M string :=
  card <- query_first credit_cards
    (fun c => (CreditCard.id c =? card_id) && (CreditCard.user_id c =? current_user_id)) ;;
  match card with
  | None => raise (HTTPException 404 "Credit card not found")
  | Some card =>
    save_card (CreditCard.mk (CreditCard.id card) (CreditCard.user_id card)
                 (CreditCard.balance card) false) ;;;
    commit ;;;
    ret "Credit card deleted successfully"
  end.

Definition get_wallet (current_user_id : Z) : M Wallet.t :=
  wallet <- query_first wallets (fun w => Wallet.user_id w =? current_user_id) ;;
  match wallet with
  | Some wallet => ret wallet
  | None =>
    (* Create wallet if doesn't exist *)
    wallet <- add_wallet (Wallet.mk 0 current_user_id 0) ;;
    commit ;;;
    refresh_wallet wallet
  end.

(** [amount] is [money_data.amount], which [WalletAddMoney] admits when it
    is positive and has two decimal places at most. *)
Definition add_money_to_wallet (amount : Z) (current_user_id : Z) : M (string * Z) :=
  wallet <- query_first wallets (fun w => Wallet.user_id w =? current_user_id) ;;
  wallet <- match wallet with
            | Some wallet => ret wallet
            | None =>
              wallet <- add_wallet (Wallet.mk 0 current_user_id 0) ;;
              flush ;;;
              ret wallet
            end ;;
  (* Add money to wallet *)
  let wallet := Wallet.set_balance (Wallet.balance wallet + amount) wallet in
  save_wallet wallet ;;;
  (* Create transaction record *)
  w <- the_world ;;
  add_wallet_credit (Wallet.id wallet) amount "Money added to wallet" (uuid4 w) ;;;
  commit ;;;
  ret ("Money added successfully", Wallet.balance wallet).

Definition get_upi_ids (current_user_id : Z) : M (list UpiId.t) :=
  query_all upi_ids (fun u => (UpiId.user_id u =? current_user_id) && UpiId.is_active u).

Definition delete_upi_id (upi_id current_user_id : Z) : M string :=
  upi <- query_first upi_ids
    (fun u => (UpiId.id u =? upi_id) && (UpiId.user_id u =? current_user_id)) ;;
  match upi with
  | None => raise (HTTPException 404 "UPI ID not found")
  | Some upi =>
    save_upi (UpiId.mk (UpiId.id upi) (UpiId.user_id upi) (UpiId.balance upi) false) ;;;
    commit ;;;
    ret "UPI ID deleted successfully"
  end.




End instruments.

(** ** [delete_user] and [format_time_ago] ([app/api/admin.py])

    The table [users] is outside [Database]; [delete_user] takes the ids
    of its rows and returns the message of the endpoint with the ids that
    are left.  [error_text] is [str(e)] of the exception that the store
    raises. *)

Module admin.

(** The rows that the relationships of [User] reach beside the bookings:
    [payments], [credit_cards], [wallet] and [upi_ids]
    ([app/models/__init__.py]). *)
Definition has_dependents (user_id : Z) (d : Database) : bool :=
  existsb (fun p => Payment.user_id p =? user_id) (payments d)
  || existsb (fun c => CreditCard.user_id c =? user_id) (credit_cards d)
  || existsb (fun x => Wallet.user_id x =? user_id) (wallets d)
  || existsb (fun x => UpiId.user_id x =? user_id) (upi_ids d).

(** [db.delete(user)].  None of the relationships of [User] cascades the
    deletion, so the flush detaches the rows they reach: it sets their
    [user_id] to NULL, which the columns ([nullable=False]) refuse with an
    [IntegrityError]. *)
Definition delete_user_row (user_id : Z) : M unit :=
  fun s => if has_dependents user_id (working s)
           then (Raise SQLAlchemyError, s)
           else (Ok tt, s).

Definition delete_user (users : list Z) (error_text : string) (user_id current_user_id : Z)
  : M (string * list Z) :=
  match find (fun id => id =? user_id) users with
  | None => raise (HTTPException 404 "User not found")
  | Some user =>
    if user =? current_user_id
    then raise (HTTPException 400 "Cannot delete your own account")
    else
      try_except
        ((* Delete passengers from user's bookings *)
         user_bookings <- query_all bookings (fun b => Booking.user_id b =? user_id) ;;
         for_each user_bookings (fun booking =>
           delete_passengers (fun p => Passenger.booking_id p =? Booking.id booking)) ;;;
         (* Delete user's bookings *)
         delete_bookings (fun b => Booking.user_id b =? user_id) ;;;
         (* Delete the user *)
         delete_user_row user ;;;
         commit ;;;
         ret ("User deleted successfully", filter (fun id => negb (id =? user)) users))
        (fun e =>
           rollback ;;;
           raise (HTTPException 500 (String.append "Failed to delete user: " error_text)))
  end.

(** A [timedelta] of [d] microseconds: [days] and [seconds] of its
    normal form ([0 <= seconds < 86400], [days] of either sign). *)
Definition timedelta_days (d : Z) : Z := d / 86400000000.
Definition timedelta_seconds (d : Z) : Z := (d mod 86400000000) / 1000000.

Definition plural (n : Z) : string := if 1 <? n then "s" else "".

(** [now] is [datetime.utcnow()] and [dt] the argument, both in
    microseconds. *)
Definition format_time_ago (now dt : Z) : string :=
  let diff := now - dt in
  let days := timedelta_days diff in
  let seconds := timedelta_seconds diff in
  if 0 <? days
  then String.append (str days)
         (String.append " day" (String.append (plural days) " ago"))
  else if 3600 <? seconds
  then let hours := seconds / 3600 in
       String.append (str hours)
         (String.append " hour" (String.append (plural hours) " ago"))
  else if 60 <? seconds
  then let minutes := seconds / 60 in
       String.append (str minutes)
         (String.append " minute" (String.append (plural minutes) " ago"))
  else "Just now".

End admin.

(** ** Password strength ([app/schemas/__init__.py])

    A password is the list of the code points of its characters. *)

Module schemas.

Definition between (lo hi c : Z) : bool := (lo <=? c) && (c <=? hi).

(** The character classes of the four patterns: [[a-z]], [[A-Z]], [[0-9]]
    and the punctuation listed in the last one,
    ! @ # $ % ^ & * ( ) , . ? quote : { } | < >. *)
Definition lowercase (c : Z) : bool := between 97 122 c.
Definition uppercase (c : Z) : bool := between 65 90 c.
Definition digit (c : Z) : bool := between 48 57 c.
Definition symbol (c : Z) : bool :=
  existsb (Z.eqb c)
    [33; 64; 35; 36; 37; 94; 38; 42; 40; 41; 44; 46; 63; 34; 58; 123; 125; 124; 60; 62].

(** [re.search(r'[...]', password)] as a truth value. *)
Definition re_search (class : Z -> bool) (password : list Z) : bool := existsb class password.

Definition point (b : bool) : Z := if b then 1 else 0.

Definition score (password : list Z) : Z :=
  point (8 <=? len password) + point (12 <=? len password)
  + point (re_search lowercase password) + point (re_search uppercase password)
  + point (re_search digit password) + point (re_search symbol password).

Definition get_password_strength (password : list Z) : string :=
  if score password <=? 2 then "weak"
  else if score password <=? 4 then "medium"
  else "strong".

(** The validator of [UserCreate.password]. *)
Definition validate_password (v : list Z) : Result (list Z) :=
  if len v <? 8
  then Raise (ValueError "Password must be at least 8 characters long")
  else if String.eqb (get_password_strength v) "weak"
  then Raise (ValueError
         "Password is too weak. Use a mix of uppercase, lowercase, numbers, and symbols")
  else Ok v.

(** The code points of a string of ASCII characters. *)
Definition code_points (s : string) : list Z :=
  map (fun a => Z.of_N (Ascii.N_of_ascii a)) (list_ascii_of_string s).

End schemas.

(** ** What the further properties observe *)

(** A schedule is for one route on one date. *)
Definition schedule_key (s : TrainSchedule.t) : Z * Z :=
  (TrainSchedule.route_id s, TrainSchedule.schedule_date s).

Definition has_schedule (db : Database) (route_id schedule_date : Z) : Prop :=
  exists s, In s (train_schedules db) /\ schedule_key s = (route_id, schedule_date).

(** [today + timedelta(days=i)] is a date. *)
Definition day_representable (w : World) (i : Z) : bool :=
  (Z.abs i <=? timedelta_max_days)
  && ((date_min <=? today w + i) && (today w + i <=? date_max)).

(** The passenger rows of a booking. *)
Definition passengers_of (db : Database) (booking_id : Z) : list Passenger.t :=
  filter (fun p => Passenger.booking_id p =? booking_id) (passenger_rows db).

(** The balance of the instrument that a payment request names. *)
Definition instrument_balance (payment_data : PaymentCreate) (payer : Z) (db : Database)
  : option Z :=
  match pay_payment_method payment_data with
  | WALLET =>
      option_map Wallet.balance
        (find (fun w => Wallet.user_id w =? payer) (wallets db))
  | CREDIT_CARD =>
      match given (card_id payment_data) with
      | Some cid =>
          option_map CreditCard.balance
            (find (fun c => (CreditCard.id c =? cid) && (CreditCard.user_id c =? payer))
               (credit_cards db))
      | None => None
      end
  | UPI =>
      match given (upi_id payment_data) with
      | Some uid =>
          option_map UpiId.balance
            (find (fun u => (UpiId.id u =? uid) && (UpiId.user_id u =? payer))
               (upi_ids db))
      | None => None
      end
  | DEBIT_CARD => None
  end.

(** The passengers of a booking after an edit: the first rows take the
    details of the entries given, in order; rows beyond the entries keep
    theirs, and entries beyond the rows are dropped. *)
Fixpoint overwrite (rows : list Passenger.t) (data : list PassengerCreate)
  : list Passenger.t :=
  match rows, data with
  | p :: rows', d :: data' =>
      Passenger.mk (Passenger.id p) (Passenger.booking_id p)
        (pc_name d) (pc_age d) (pc_gender d) :: overwrite rows' data'
  | _, _ => rows
  end.

(** The passenger table after the edits of the pairs, one row each. *)
Definition apply_edits (pairs : list (Passenger.t * PassengerCreate))
    (rows : list Passenger.t) : list Passenger.t :=
  fold_left (fun rows '(p, d) =>
    update_row Passenger.id
      (Passenger.mk (Passenger.id p) (Passenger.booking_id p)
         (pc_name d) (pc_age d) (pc_gender d)) rows) pairs rows.

(** The passenger rows that are left when the passengers of the bookings
    [bs] are deleted, one booking after the other. *)
Definition purge_passengers (bs : list Booking.t) (rows : list Passenger.t)
  : list Passenger.t :=
  fold_left (fun rows b =>
    filter (fun p => negb (Passenger.booking_id p =? Booking.id b)) rows) bs rows.

(** The seats that the confirmed bookings of one user hold on a schedule. *)
Definition user_seats (db : Database) (user_id schedule_id : Z) : Z :=
  sum (map Booking.passenger_count
         (filter (fun b => (Booking.user_id b =? user_id)
                           && (on_schedule schedule_id b && is_confirmed b)) (bookings db))).

(** * Properties *)

Unset Implicit Arguments.

(** ** Tables *)

Lemma autoincrement_above (ids : list Z) (x : Z) : In x ids -> x < autoincrement ids.
Proof.
  unfold autoincrement. induction ids as [|y ids IH]; cbn [fold_right In]; [tauto|].
  intros [->|H]; [lia|]. specialize (IH H). lia.
Qed.

Lemma autoincrement_fresh (ids : list Z) : ~ In (autoincrement ids) ids.
Proof. intros H. apply autoincrement_above in H. lia. Qed.

Lemma find_none_app {R} (p : R -> bool) (l : list R) (x : R) :
  find p l = None -> find p (l ++ [x]) = if p x then Some x else None.
Proof.
  induction l as [|y l IH]; simpl; [reflexivity|].
  destruct (p y); [discriminate|exact IH].
Qed.

Lemma find_some_app {R} (p : R -> bool) (l l' : list R) (x : R) :
  find p l = Some x -> find p (l ++ l') = Some x.
Proof.
  induction l as [|y l IH]; simpl; [discriminate|].
  destruct (p y); [tauto|exact IH].
Qed.

Lemma find_by_fresh_id {R} (pk : R -> Z) (l : list R) (x : R) :
  pk x = autoincrement (map pk l) ->
  find (fun r => pk r =? pk x) (l ++ [x]) = Some x.
Proof.
  intros Hx. rewrite find_none_app.
  - now rewrite Z.eqb_refl.
  - destruct (find _ l) as [y|] eqn:E; [|reflexivity].
    apply find_some in E. destruct E as [Hin E]. apply Z.eqb_eq in E.
    exfalso. apply (autoincrement_fresh (map pk l)).
    rewrite <- Hx, <- E. now apply in_map.
Qed.

Lemma map_pk_update_row {R} (pk : R -> Z) (obj : R) (rows : list R) :
  map pk (update_row pk obj rows) = map pk rows.
Proof.
  unfold update_row. rewrite map_map. apply map_ext_in. intros r _.
  destruct (pk r =? pk obj) eqn:E; [|reflexivity].
  apply Z.eqb_eq in E. congruence.
Qed.

(** The row found by its key is the saved object, and the other keys find
    what they found. *)
Lemma find_update_row {R} (pk : R -> Z) (obj : R) (rows : list R) (k : Z) :
  find (fun r => pk r =? k) (update_row pk obj rows) =
  match find (fun r => pk r =? k) rows with
  | Some r => Some (if k =? pk obj then obj else r)
  | None => None
  end.
Proof.
  unfold update_row. induction rows as [|r rows IH]; simpl; [reflexivity|].
  rewrite IH. clear IH.
  destruct (Z.eqb_spec (pk r) (pk obj)) as [E|E];
    destruct (Z.eqb_spec (pk r) k) as [E'|E']; try reflexivity.
  - destruct (Z.eqb_spec (pk obj) k) as [_|N]; [|congruence].
    destruct (Z.eqb_spec k (pk obj)) as [_|N]; [reflexivity|congruence].
  - destruct (Z.eqb_spec (pk obj) k) as [N|_]; [congruence|reflexivity].
  - destruct (Z.eqb_spec k (pk obj)) as [N|_]; [congruence|reflexivity].
Qed.

Lemma sum_app (l l' : list Z) : sum (l ++ l') = sum l + sum l'.
Proof. unfold sum. induction l; simpl; lia. Qed.

Lemma len_nonneg {A} (l : list A) : 0 <= len l.
Proof. unfold len. lia. Qed.

(** ** The loop over the passengers *)

Lemma for_each_add_passenger (booking_id : Z) (l : list PassengerCreate) (s : Session) :
  for_each l (add_passenger booking_id) s =
  (Ok tt, {| world := world s; durable := durable s;
             working := insert_passengers booking_id l (working s) |}).
Proof.
  revert s. induction l as [|p l IH]; intros s.
  - destruct s; reflexivity.
  - simpl. unfold bind at 1. unfold add_passenger at 1, modify at 1.
    rewrite IH. reflexivity.
Qed.

Lemma insert_passengers_bookings (booking_id : Z) (l : list PassengerCreate) (db : Database) :
  bookings (insert_passengers booking_id l db) = bookings db.
Proof. revert db. induction l; intros db; simpl; [reflexivity|]. now rewrite IHl. Qed.

Lemma insert_passengers_train_schedules (booking_id : Z) (l : list PassengerCreate)
    (db : Database) :
  train_schedules (insert_passengers booking_id l db) = train_schedules db.
Proof. revert db. induction l; intros db; simpl; [reflexivity|]. now rewrite IHl. Qed.

Lemma insert_passengers_routes (booking_id : Z) (l : list PassengerCreate) (db : Database) :
  routes (insert_passengers booking_id l db) = routes db.
Proof. revert db. induction l; intros db; simpl; [reflexivity|]. now rewrite IHl. Qed.

Lemma insert_passengers_nil (booking_id : Z) (db : Database) :
  insert_passengers booking_id [] db = db.
Proof. reflexivity. Qed.

(** ** The requests, case by case *)

Lemma create_booking_request (w : World) (db : Database) (booking : BookingCreate) (u : Z) :
  get_db w (api.create_booking booking u) db =
  match schedule_row db (schedule_id booking) with
  | None => (Raise (HTTPException 400 "Insufficient seats available"), db)
  | Some schedule =>
    if TrainSchedule.available_seats schedule <? len (passengers booking)
    then (Raise (HTTPException 400 "Insufficient seats available"), db)
    else
      match find (fun r => Route.id r =? TrainSchedule.route_id schedule) (routes db) with
      | None => (Raise (HTTPException 500 "Booking failed. Please try again."), db)
      | Some route =>
        if journey_representable schedule route
        then
          if flush_succeeds w && commit_succeeds w
          then (Ok (new_booking w db booking u schedule route),
                booked db booking schedule (new_booking w db booking u schedule route))
          else (Raise (HTTPException 500 "Booking failed. Please try again."), db)
        else (Raise (HTTPException 500 "Booking failed. Please try again."), db)
      end
  end.
Proof.
  unfold get_db, api.create_booking, try_except, BookingService.create_booking,
    schedule_row.
  unfold bind at 1, query_first at 1. cbn [working].
  destruct (find _ (train_schedules db)) as [schedule|]; [|reflexivity].
  destruct (TrainSchedule.available_seats schedule <? len (passengers booking));
    [reflexivity|].
  unfold bind at 1, schedule_route, query_first at 1. cbn [working].
  destruct (find _ (routes db)) as [route|]; [|reflexivity].
  unfold journey_representable, journey_days.
  unfold bind at 1, timedelta.
  destruct (Z.abs _ <=? timedelta_max_days); [|reflexivity].
  unfold ret at 1. unfold bind at 1, date_add.
  destruct ((date_min <=? _) && (_ <=? date_max)); [|reflexivity].
  unfold ret at 1. cbn [andb].
  unfold bind at 1, BookingService.generate_booking_reference.
  unfold bind at 1, the_world, ret at 1. cbn [world].
  unfold bind at 1, add_booking. cbn [world durable working].
  unfold bind at 1, flush. cbn [world].
  destruct (flush_succeeds w); [|reflexivity]. cbn [andb].
  unfold bind at 1. rewrite for_each_add_passenger.
  cbn [world durable working Booking.id Booking.set_id].
  unfold bind at 1, save_schedule, modify. cbn [world durable working].
  unfold bind at 1, commit at 1. cbn [world durable working].
  destruct (commit_succeeds w); [|reflexivity].
  unfold refresh_booking, bind, query_first. cbn [world durable working].
  fold (new_booking w db booking u schedule route).
  set (b := new_booking w db booking u schedule route).
  change (Booking.set_id (autoincrement (map Booking.id (bookings db)))
            (Booking.mk 0 u (schedule_id booking) (random_choices w)
               (len (passengers booking)) (Route.base_fare route * len (passengers booking))
               confirmed (TrainSchedule.schedule_date schedule)
               (TrainSchedule.schedule_date schedule
                + (Z.max 1 ((Route.distance_km route + 499) / 500) - 1)))) with b.
  change (autoincrement (map Booking.id (bookings db))) with (Booking.id b).
  rewrite insert_passengers_train_schedules. cbn [train_schedules with_bookings].
  fold (booked db booking schedule b).
  assert (F : find (fun r => Booking.id r =? Booking.id b)
                (bookings (booked db booking schedule b)) = Some b).
  { unfold booked. cbn [bookings with_train_schedules].
    rewrite insert_passengers_bookings. cbn [bookings with_bookings].
    apply find_by_fresh_id. reflexivity. }
  rewrite F. reflexivity.
Qed.

Lemma cancel_booking_request (w : World) (db : Database) (booking_id u : Z) :
  get_db w (api.cancel_booking_with_refund booking_id u) db =
  match find (fun b => (Booking.id b =? booking_id) && (Booking.user_id b =? u))
          (bookings db) with
  | None => (Raise (HTTPException 400 "Booking not found"), db)
  | Some b =>
    if negb (is_confirmed b)
    then (Raise (HTTPException 400 "Only confirmed bookings can be cancelled"), db)
    else
      match schedule_row db (Booking.schedule_id b) with
      | None =>
          (Raise (AttributeError "'NoneType' object has no attribute 'available_seats'"), db)
      | Some schedule =>
        if commit_succeeds w
        then (Ok {| response_message := "Booking cancelled and refunded successfully";
                    response_refund_amount :=
                      {| message :=
                           "Booking cancelled. Refund request submitted for admin approval.";
                         refund_amount := Booking.total_amount b |} |},
              cancelled_booking db b schedule booking_id u)
        else (Raise SQLAlchemyError, db)
      end
  end.
Proof.
  unfold get_db, api.cancel_booking_with_refund, try_except,
    BookingService.cancel_booking_with_refund, schedule_row, is_confirmed.
  unfold bind at 1. unfold bind at 1, query_first at 1. cbn [working].
  destruct (find _ (bookings db)) as [b|]; [|reflexivity].
  destruct (negb (BookingStatus_eqb (Booking.status b) confirmed)); [reflexivity|].
  unfold bind at 1, save_booking, modify at 1. cbn [world durable working].
  unfold bind at 1, query_first at 1.
  cbn [world durable working train_schedules with_bookings Booking.schedule_id
       Booking.set_status].
  destruct (find _ (train_schedules db)) as [schedule|]; [|reflexivity].
  unfold bind at 1, save_schedule, modify at 1. cbn [world durable working].
  unfold bind at 1, add_refund_request, modify at 1. cbn [world durable working].
  unfold bind at 1, commit. cbn [world durable working].
  destruct (commit_succeeds w); reflexivity.
Qed.

(** ** The counter and the confirmed seats, request by request *)

Lemma schedule_row_id (db : Database) (k : Z) (s : TrainSchedule.t) :
  schedule_row db k = Some s -> TrainSchedule.id s = k.
Proof.
  unfold schedule_row. intros H. apply find_some in H. now apply Z.eqb_eq.
Qed.

Lemma schedule_row_booked (db : Database) (booking : BookingCreate)
    (schedule : TrainSchedule.t) (b : Booking.t) (k : Z) :
  schedule_row db (schedule_id booking) = Some schedule ->
  schedule_row (booked db booking schedule b) k =
  if k =? schedule_id booking
  then Some (TrainSchedule.set_available_seats
               (TrainSchedule.available_seats schedule - len (passengers booking)) schedule)
  else schedule_row db k.
Proof.
  intros H. pose proof (schedule_row_id _ _ _ H) as Hid.
  unfold schedule_row, booked in *. cbn [train_schedules with_train_schedules].
  rewrite find_update_row. cbn [TrainSchedule.id TrainSchedule.set_available_seats].
  rewrite Hid. destruct (Z.eqb_spec k (schedule_id booking)) as [->|N].
  - now rewrite H.
  - now destruct (find (fun r => TrainSchedule.id r =? k) (train_schedules db)).
Qed.

Lemma schedule_row_cancelled (db : Database) (b : Booking.t) (schedule : TrainSchedule.t)
    (booking_id u k : Z) :
  schedule_row db (Booking.schedule_id b) = Some schedule ->
  schedule_row (cancelled_booking db b schedule booking_id u) k =
  if k =? Booking.schedule_id b
  then Some (TrainSchedule.set_available_seats
               (TrainSchedule.available_seats schedule + Booking.passenger_count b) schedule)
  else schedule_row db k.
Proof.
  intros H. pose proof (schedule_row_id _ _ _ H) as Hid.
  unfold schedule_row, cancelled_booking in *.
  cbn [train_schedules with_train_schedules with_refund_requests with_bookings].
  rewrite find_update_row. cbn [TrainSchedule.id TrainSchedule.set_available_seats].
  rewrite Hid. destruct (Z.eqb_spec k (Booking.schedule_id b)) as [->|N].
  - now rewrite H.
  - now destruct (find (fun r => TrainSchedule.id r =? k) (train_schedules db)).
Qed.

Lemma bookings_booked (db : Database) (booking : BookingCreate)
    (schedule : TrainSchedule.t) (b : Booking.t) :
  bookings (booked db booking schedule b) = bookings db ++ [b].
Proof.
  unfold booked. cbn [bookings with_train_schedules].
  now rewrite insert_passengers_bookings.
Qed.

Lemma bookings_cancelled (db : Database) (b : Booking.t) (schedule : TrainSchedule.t)
    (booking_id u : Z) :
  bookings (cancelled_booking db b schedule booking_id u) =
  update_row Booking.id (Booking.set_status cancelled b) (bookings db).
Proof. reflexivity. Qed.

Lemma confirmed_seats_cons (k : Z) (b : Booking.t) (l : list Booking.t) :
  sum (map Booking.passenger_count
         (filter (fun b => on_schedule k b && is_confirmed b) (b :: l))) =
  seats_held k b +
  sum (map Booking.passenger_count
         (filter (fun b => on_schedule k b && is_confirmed b) l)).
Proof.
  unfold seats_held. cbn [filter]. destruct (on_schedule k b && is_confirmed b); reflexivity.
Qed.

Lemma confirmed_seats_booked (db : Database) (booking : BookingCreate)
    (schedule : TrainSchedule.t) (b : Booking.t) (k : Z) :
  confirmed_seats (booked db booking schedule b) k = confirmed_seats db k + seats_held k b.
Proof.
  unfold confirmed_seats. rewrite bookings_booked, filter_app, map_app, sum_app.
  f_equal. rewrite confirmed_seats_cons. cbn. lia.
Qed.

Lemma update_row_absent {R} (pk : R -> Z) (obj : R) (rows : list R) :
  ~ In (pk obj) (map pk rows) -> update_row pk obj rows = rows.
Proof.
  unfold update_row. induction rows as [|r rows IH]; cbn [map In]; [reflexivity|].
  intros N. rewrite IH by tauto.
  destruct (Z.eqb_spec (pk r) (pk obj)) as [E|_]; [|reflexivity].
  exfalso. apply N. now left.
Qed.

Lemma confirmed_seats_update_row (k : Z) (b : Booking.t) (rows : list Booking.t) :
  NoDup (map Booking.id rows) -> In b rows ->
  sum (map Booking.passenger_count
         (filter (fun b => on_schedule k b && is_confirmed b)
            (update_row Booking.id (Booking.set_status cancelled b) rows))) =
  sum (map Booking.passenger_count
         (filter (fun b => on_schedule k b && is_confirmed b) rows)) - seats_held k b.
Proof.
  induction rows as [|r rows IH]; cbn [map In]; [tauto|].
  intros ND Hin. inversion ND as [|? ? Hr ND']; subst.
  change (update_row Booking.id (Booking.set_status cancelled b) (r :: rows))
    with ((if Booking.id r =? Booking.id (Booking.set_status cancelled b)
           then Booking.set_status cancelled b else r)
          :: update_row Booking.id (Booking.set_status cancelled b) rows).
  rewrite !confirmed_seats_cons.
  change (Booking.id (Booking.set_status cancelled b)) with (Booking.id b).
  destruct Hin as [->|Hin].
  - rewrite Z.eqb_refl, update_row_absent by exact Hr.
    unfold seats_held at 1. unfold is_confirmed at 1.
    cbn [Booking.status Booking.set_status BookingStatus_eqb].
    rewrite andb_false_r. lia.
  - destruct (Z.eqb_spec (Booking.id r) (Booking.id b)) as [E|_].
    + exfalso. apply Hr. rewrite E. now apply in_map.
    + rewrite IH by assumption. lia.
Qed.

Lemma confirmed_seats_cancelled (db : Database) (b : Booking.t) (schedule : TrainSchedule.t)
    (booking_id u k : Z) :
  bookings_key db -> In b (bookings db) ->
  confirmed_seats (cancelled_booking db b schedule booking_id u) k =
  confirmed_seats db k - seats_held k b.
Proof.
  intros ND Hin. unfold confirmed_seats. rewrite bookings_cancelled.
  now apply confirmed_seats_update_row.
Qed.

Lemma bookings_key_booked (w : World) (db : Database) (booking : BookingCreate) (u : Z)
    (schedule : TrainSchedule.t) (route : Route.t) :
  bookings_key db ->
  bookings_key (booked db booking schedule (new_booking w db booking u schedule route)).
Proof.
  unfold bookings_key. intros ND. rewrite bookings_booked, map_app.
  cbn [map new_booking Booking.id].
  apply NoDup_app; [exact ND|repeat constructor; simpl; tauto|].
  intros x Hx [<-|[]]. now apply autoincrement_fresh in Hx.
Qed.

Lemma bookings_key_cancelled (db : Database) (b : Booking.t) (schedule : TrainSchedule.t)
    (booking_id u : Z) :
  bookings_key db -> bookings_key (cancelled_booking db b schedule booking_id u).
Proof.
  unfold bookings_key. intros ND. now rewrite bookings_cancelled, map_pk_update_row.
Qed.

(** ** One schedule under a sequence of requests *)

Section OneSchedule.

Variables (k total : Z).

Lemma seats_held_new_booking (w : World) (db : Database) (booking : BookingCreate)
    (u : Z) (schedule : TrainSchedule.t) (route : Route.t) :
  seats_held k (new_booking w db booking u schedule route) =
  if k =? schedule_id booking then len (passengers booking) else 0.
Proof.
  unfold seats_held, on_schedule, is_confirmed.
  cbn [new_booking Booking.schedule_id Booking.status Booking.passenger_count
       BookingStatus_eqb].
  rewrite andb_true_r, Z.eqb_sym. reflexivity.
Qed.

Lemma create_booking_conserved (w : World) (booking : BookingCreate) (u : Z)
    (db : Database) :
  conserved k total db -> conserved k total (snd (get_db w (api.create_booking booking u) db)).
Proof.
  intros C. rewrite create_booking_request.
  destruct (schedule_row db (schedule_id booking)) as [schedule|] eqn:Hs; [|exact C].
  destruct (TrainSchedule.available_seats schedule <? len (passengers booking)); [exact C|].
  destruct (find _ (routes db)) as [route|]; [|exact C].
  destruct (journey_representable schedule route); [|exact C].
  destruct (flush_succeeds w && commit_succeeds w); [|exact C].
  cbn [snd]. destruct C as [K [s [Hk Hsum]]]. split.
  - now apply bookings_key_booked.
  - rewrite (schedule_row_booked db booking schedule _ k Hs), confirmed_seats_booked,
      seats_held_new_booking.
    destruct (Z.eqb_spec k (schedule_id booking)) as [E|_].
    + subst k. rewrite Hs in Hk. injection Hk as <-.
      eexists. split; [reflexivity|]. cbn [TrainSchedule.available_seats
        TrainSchedule.set_available_seats]. lia.
    + exists s. split; [exact Hk|lia].
Qed.

Lemma create_booking_nonnegative (w : World) (booking : BookingCreate) (u : Z)
    (db : Database) :
  nonnegative k db -> nonnegative k (snd (get_db w (api.create_booking booking u) db)).
Proof.
  intros C. rewrite create_booking_request.
  destruct (schedule_row db (schedule_id booking)) as [schedule|] eqn:Hs; [|exact C].
  destruct (Z.ltb_spec (TrainSchedule.available_seats schedule) (len (passengers booking)))
    as [_|Hle]; [exact C|].
  destruct (find _ (routes db)) as [route|]; [|exact C].
  destruct (journey_representable schedule route); [|exact C].
  destruct (flush_succeeds w && commit_succeeds w); [|exact C].
  cbn [snd]. destruct C as [Hc [s [Hk Hs0]]]. split.
  - intros b. rewrite bookings_booked, in_app_iff. intros [Hb|[<-|[]]].
    + now apply Hc.
    + intros _. cbn [new_booking Booking.passenger_count]. apply len_nonneg.
  - rewrite (schedule_row_booked db booking schedule _ k Hs).
    destruct (k =? schedule_id booking).
    + eexists. split; [reflexivity|]. cbn [TrainSchedule.available_seats
        TrainSchedule.set_available_seats]. lia.
    + exists s. tauto.
Qed.

Lemma find_booking_in (db : Database) (booking_id u : Z) (b : Booking.t) :
  find (fun b => (Booking.id b =? booking_id) && (Booking.user_id b =? u)) (bookings db)
    = Some b ->
  In b (bookings db) /\ Booking.id b = booking_id /\ Booking.user_id b = u.
Proof.
  intros H. apply find_some in H. destruct H as [Hin H].
  apply andb_true_iff in H. destruct H as [H1 H2].
  apply Z.eqb_eq in H1, H2. tauto.
Qed.

Lemma seats_held_confirmed (b : Booking.t) :
  negb (is_confirmed b) = false ->
  seats_held k b = if k =? Booking.schedule_id b then Booking.passenger_count b else 0.
Proof.
  intros H. apply negb_false_iff in H. unfold seats_held, on_schedule.
  rewrite H, andb_true_r, Z.eqb_sym. reflexivity.
Qed.

Lemma cancel_booking_conserved (w : World) (booking_id u : Z) (db : Database) :
  conserved k total db ->
  conserved k total (snd (get_db w (api.cancel_booking_with_refund booking_id u) db)).
Proof.
  intros C. rewrite cancel_booking_request.
  destruct (find _ (bookings db)) as [b|] eqn:Hb; [|exact C].
  destruct (negb (is_confirmed b)) eqn:Hc; [exact C|].
  destruct (schedule_row db (Booking.schedule_id b)) as [schedule|] eqn:Hs; [|exact C].
  destruct (commit_succeeds w); [|exact C].
  cbn [snd]. destruct C as [K [s [Hk Hsum]]].
  apply find_booking_in in Hb. destruct Hb as [Hin _]. split.
  - now apply bookings_key_cancelled.
  - rewrite (schedule_row_cancelled db b schedule booking_id u k Hs),
      confirmed_seats_cancelled, seats_held_confirmed by assumption.
    destruct (Z.eqb_spec k (Booking.schedule_id b)) as [E|_].
    + subst k. rewrite Hs in Hk. injection Hk as <-.
      eexists. split; [reflexivity|]. cbn [TrainSchedule.available_seats
        TrainSchedule.set_available_seats]. lia.
    + exists s. split; [exact Hk|lia].
Qed.

Lemma in_update_row_status (b x : Booking.t) (rows : list Booking.t) :
  In b rows ->
  In x (update_row Booking.id (Booking.set_status cancelled b) rows) ->
  exists y, In y rows /\ Booking.schedule_id x = Booking.schedule_id y
            /\ Booking.passenger_count x = Booking.passenger_count y.
Proof.
  intros Hb Hx. unfold update_row in Hx. apply in_map_iff in Hx.
  destruct Hx as [r [Hx Hr]]. destruct (Booking.id r =? _).
  - exists b. subst x. now split.
  - exists r. subst x. now split.
Qed.

Lemma cancel_booking_nonnegative (w : World) (booking_id u : Z) (db : Database) :
  nonnegative k db ->
  nonnegative k (snd (get_db w (api.cancel_booking_with_refund booking_id u) db)).
Proof.
  intros C. rewrite cancel_booking_request.
  destruct (find _ (bookings db)) as [b|] eqn:Hb; [|exact C].
  destruct (negb (is_confirmed b)) eqn:Hc; [exact C|].
  destruct (schedule_row db (Booking.schedule_id b)) as [schedule|] eqn:Hs; [|exact C].
  destruct (commit_succeeds w); [|exact C].
  cbn [snd]. destruct C as [Hn [s [Hk Hs0]]].
  apply find_booking_in in Hb. destruct Hb as [Hin _]. split.
  - intros x Hx Hxk. rewrite bookings_cancelled in Hx.
    destruct (in_update_row_status _ _ _ Hin Hx) as [y [Hy [E1 E2]]].
    rewrite E2. apply Hn; congruence.
  - rewrite (schedule_row_cancelled db b schedule booking_id u k Hs).
    destruct (Z.eqb_spec k (Booking.schedule_id b)) as [E|_].
    + subst k. rewrite Hs in Hk. injection Hk as <-.
      eexists. split; [reflexivity|]. cbn [TrainSchedule.available_seats
        TrainSchedule.set_available_seats].
      specialize (Hn b Hin eq_refl). lia.
    + exists s. tauto.
Qed.

Lemma perform_all_conserved (ops : list Operation) (db : Database) :
  conserved k total db -> conserved k total (perform_all ops db).
Proof.
  revert db. induction ops as [|op ops IH]; intros db C; [exact C|].
  apply IH. destruct op; [now apply create_booking_conserved
                         |now apply cancel_booking_conserved].
Qed.

Lemma perform_all_nonnegative (ops : list Operation) (db : Database) :
  nonnegative k db -> nonnegative k (perform_all ops db).
Proof.
  revert db. induction ops as [|op ops IH]; intros db C; [exact C|].
  apply IH. destruct op; [now apply create_booking_nonnegative
                         |now apply cancel_booking_nonnegative].
Qed.

Lemma confirmed_seats_fresh (db : Database) :
  (forall b, In b (bookings db) -> Booking.schedule_id b <> k) ->
  confirmed_seats db k = 0.
Proof.
  unfold confirmed_seats. induction (bookings db) as [|b l IH]; intros H; [reflexivity|].
  rewrite confirmed_seats_cons, IH by (intros; apply H; now right).
  unfold seats_held, on_schedule.
  destruct (Z.eqb_spec (Booking.schedule_id b) k) as [E|_]; [|reflexivity].
  exfalso. now apply (H b (or_introl eq_refl)).
Qed.

Lemma fresh_schedule_conserved (db : Database) :
  bookings_key db -> fresh_schedule db k total -> conserved k total db.
Proof.
  intros K [Ha Hb]. split; [exact K|].
  unfold available_seats_of in Ha.
  destruct (schedule_row db k) as [s|]; [|discriminate].
  injection Ha as Ha. exists s. split; [reflexivity|].
  rewrite confirmed_seats_fresh by exact Hb. lia.
Qed.

Lemma fresh_schedule_nonnegative (db : Database) :
  0 <= total -> fresh_schedule db k total -> nonnegative k db.
Proof.
  intros T [Ha Hb]. split.
  - intros b Hin E. now apply Hb in Hin.
  - unfold available_seats_of in Ha.
    destruct (schedule_row db k) as [s|]; [|discriminate].
    injection Ha as Ha. exists s. split; [reflexivity|lia].
Qed.

End OneSchedule.

Lemma confirmed_seats_nonneg (db : Database) (k : Z) :
  (forall b, In b (bookings db) -> Booking.schedule_id b = k ->
             0 <= Booking.passenger_count b) ->
  0 <= confirmed_seats db k.
Proof.
  unfold confirmed_seats. induction (bookings db) as [|b l IH]; intros H; [cbn; lia|].
  rewrite confirmed_seats_cons.
  assert (0 <= seats_held k b).
  { unfold seats_held, on_schedule.
    destruct (Z.eqb_spec (Booking.schedule_id b) k) as [E|_]; cbn [andb]; [|lia].
    destruct (is_confirmed b); [|lia]. apply H; [now left|exact E]. }
  assert (0 <= sum (map Booking.passenger_count
                      (filter (fun b => on_schedule k b && is_confirmed b) l))).
  { apply IH. intros; apply H; [now right|assumption]. }
  lia.
Qed.

(** ** The properties of the specification *)

(** C1, capacity invariant.  A schedule starts with its counter at the
    capacity [total] (not negative) and without bookings.  Whatever
    sequence of reserve and release requests follows, on this or on other
    schedules, by any users and whether the store accepts or refuses the
    writes, after each of them (after the first [n] operations, for every
    [n]) the counter of the schedule is between 0 and [total]. *)
Theorem capacity_invariant (db0 : Database) (k total : Z) (ops : list Operation) (n : nat) :
  bookings_key db0 ->
  fresh_schedule db0 k total ->
  0 <= total ->
  exists a, available_seats_of (perform_all (firstn n ops) db0) k = Some a
            /\ 0 <= a <= total.
Proof.
  intros K F T.
  pose proof (perform_all_conserved k total (firstn n ops) db0
                (fresh_schedule_conserved k total db0 K F)) as [_ [s [Hs Hsum]]].
  pose proof (perform_all_nonnegative k (firstn n ops) db0
                (fresh_schedule_nonnegative k total db0 T F)) as [Hn [s' [Hs' H0]]].
  rewrite Hs in Hs'. injection Hs' as <-.
  apply confirmed_seats_nonneg in Hn.
  exists (TrainSchedule.available_seats s). unfold available_seats_of.
  rewrite Hs. split; [reflexivity|lia].
Qed.

Lemma capacity_invariant_witness :
  exists a, available_seats_of
              (perform_all (firstn 4 Scenario.operations) Scenario.fifty_seats) 3 = Some a
            /\ 0 <= a <= 50.
Proof.
  apply capacity_invariant.
  - constructor.
  - split; [reflexivity|intros b []].
  - lia.
Defined.

(** X1.  Conservation, for requests that run one after the other.  From the
    same start, after any sequence of reserve and release requests each of
    which has completed before the next one begins, the counter of the
    schedule plus the [passenger_count] of its confirmed bookings is the
    capacity.  Requests that overlap are another matter
    ([conservation_lost_under_overlap]). *)
Theorem conservation (db0 : Database) (k total : Z) (ops : list Operation) :
  bookings_key db0 ->
  fresh_schedule db0 k total ->
  exists a, available_seats_of (perform_all ops db0) k = Some a
            /\ a + confirmed_seats (perform_all ops db0) k = total.
Proof.
  intros K F.
  pose proof (perform_all_conserved k total ops db0
                (fresh_schedule_conserved k total db0 K F)) as [_ [s [Hs Hsum]]].
  exists (TrainSchedule.available_seats s). unfold available_seats_of.
  rewrite Hs. split; [reflexivity|exact Hsum].
Qed.

Lemma conservation_witness :
  exists a, available_seats_of (perform_all Scenario.operations Scenario.fifty_seats) 3
              = Some a
            /\ a + confirmed_seats
                     (perform_all Scenario.operations Scenario.fifty_seats) 3 = 50.
Proof.
  apply conservation.
  - constructor.
  - split; [reflexivity|intros b []].
Defined.

Lemma base_fare_of_route (db : Database) (k fare : Z) (schedule : TrainSchedule.t) :
  schedule_row db k = Some schedule ->
  base_fare_of db k = Some fare ->
  exists route,
    find (fun r => Route.id r =? TrainSchedule.route_id schedule) (routes db) = Some route
    /\ Route.base_fare route = fare.
Proof.
  unfold base_fare_of. intros -> H.
  destruct (find _ (routes db)) as [route|]; [|discriminate].
  exists route. split; [reflexivity|]. now injection H.
Qed.


(** X2.  A reservation that passes the check on a route so long that the
    journey would end after [date.max]: [journey_date_from + timedelta(...)]
    raises [OverflowError], the endpoint answers 500, and nothing is
    written, however many seats are free and whatever the store accepts. *)
Lemma create_booking_journey_overflow (w : World) (db : Database) (booking : BookingCreate)
    (u : Z) (schedule : TrainSchedule.t) (route : Route.t) :
  schedule_row db (schedule_id booking) = Some schedule ->
  len (passengers booking) <= TrainSchedule.available_seats schedule ->
  find (fun r => Route.id r =? TrainSchedule.route_id schedule) (routes db) = Some route ->
  journey_representable schedule route = false ->
  get_db w (api.create_booking booking u) db =
  (Raise (HTTPException 500 "Booking failed. Please try again."), db).
Proof.
  intros Hs Hle Hr Hj. rewrite create_booking_request, Hs, Hr, Hj.
  destruct (Z.ltb_spec (TrainSchedule.available_seats schedule) (len (passengers booking)));
    [lia|reflexivity].
Qed.

Lemma create_booking_journey_overflow_witness :
  get_db Scenario.fair (api.create_booking (Scenario.seats 3) 9) Scenario.far_away
  = (Raise (HTTPException 500 "Booking failed. Please try again."), Scenario.far_away).
Proof.
  apply (create_booking_journey_overflow Scenario.fair Scenario.far_away (Scenario.seats 3) 9
           (TrainSchedule.mk 3 7 100 50) (Route.mk 7 1 2000000000 12550)).
  - reflexivity.
  - vm_compute. discriminate.
  - reflexivity.
  - reflexivity.
Defined.

Example journey_after_date_max :
  get_db Scenario.fair (api.create_booking (Scenario.seats 3) 9) Scenario.far_away
  = (Raise (HTTPException 500 "Booking failed. Please try again."), Scenario.far_away)
  /\ get_db Scenario.fair (api.create_booking (Scenario.seats 0) 9) Scenario.far_away
     = (Raise (HTTPException 500 "Booking failed. Please try again."), Scenario.far_away).
Proof. split; vm_compute; reflexivity. Qed.



(** What the rollback of the endpoint discards: when the store refuses the
    commit, the service has raised with the booking, the passengers and
    the decrement written in its session, and nothing committed. *)
Lemma create_booking_commit_refused (w : World) (db : Database) (booking : BookingCreate)
    (u : Z) (schedule : TrainSchedule.t) (route : Route.t) :
  schedule_row db (schedule_id booking) = Some schedule ->
  len (passengers booking) <= TrainSchedule.available_seats schedule ->
  find (fun r => Route.id r =? TrainSchedule.route_id schedule) (routes db) = Some route ->
  journey_representable schedule route = true ->
  flush_succeeds w = true ->
  commit_succeeds w = false ->
  BookingService.create_booking booking u {| world := w; durable := db; working := db |} =
  (Raise SQLAlchemyError,
   {| world := w; durable := db;
      working := booked db booking schedule (new_booking w db booking u schedule route) |}).
Proof.
  unfold schedule_row, BookingService.create_booking. intros Hs Hle Hr Hj Hf Hc.
  unfold bind at 1, query_first at 1. cbn [working]. rewrite Hs.
  destruct (Z.ltb_spec (TrainSchedule.available_seats schedule) (len (passengers booking)));
    [lia|].
  unfold bind at 1, schedule_route, query_first at 1. cbn [working]. rewrite Hr.
  unfold journey_representable, journey_days in Hj.
  apply andb_true_iff in Hj. destruct Hj as [Hj1 Hj2].
  unfold bind at 1, timedelta. rewrite Hj1.
  unfold ret at 1. unfold bind at 1, date_add. rewrite Hj2. unfold ret at 1.
  unfold bind at 1, BookingService.generate_booking_reference.
  unfold bind at 1, the_world, ret at 1. cbn [world].
  unfold bind at 1, add_booking. cbn [world durable working].
  unfold bind at 1, flush. cbn [world]. rewrite Hf.
  unfold bind at 1. rewrite for_each_add_passenger.
  cbn [world durable working Booking.id Booking.set_id].
  unfold bind at 1, save_schedule, modify. cbn [world durable working].
  unfold bind at 1, commit at 1. cbn [world durable working]. rewrite Hc.
  unfold booked, new_booking. rewrite !insert_passengers_train_schedules. reflexivity.
Qed.

(** C7, atomicity under storage failure.  The availability check of a
    reserve request has passed and the store then refuses the [flush] or
    the [commit].  The endpoint rolls the session back and answers 500; the
    committed database is the one before the request, so the counter is
    unchanged and no booking or passenger row has been added. *)
Theorem reserve_atomic (w : World) (db : Database) (booking : BookingCreate) (u : Z)
    (schedule : TrainSchedule.t) :
  schedule_row db (schedule_id booking) = Some schedule ->
  len (passengers booking) <= TrainSchedule.available_seats schedule ->
  flush_succeeds w = false \/ commit_succeeds w = false ->
  get_db w (api.create_booking booking u) db =
  (Raise (HTTPException 500 "Booking failed. Please try again."), db).
Proof.
  intros Hs Hle Hw. rewrite create_booking_request, Hs.
  destruct (Z.ltb_spec (TrainSchedule.available_seats schedule) (len (passengers booking)));
    [lia|].
  destruct (find _ (routes db)) as [route|]; [|reflexivity].
  destruct (journey_representable schedule route); [|reflexivity].
  destruct Hw as [-> | ->]; [reflexivity|]. now rewrite andb_false_r.
Qed.

Lemma reserve_atomic_witness :
  get_db Scenario.commit_fails (api.create_booking (Scenario.seats 3) 9) Scenario.fifty_seats =
  (Raise (HTTPException 500 "Booking failed. Please try again."), Scenario.fifty_seats).
Proof.
  apply (reserve_atomic Scenario.commit_fails Scenario.fifty_seats (Scenario.seats 3) 9
           (TrainSchedule.mk 3 7 100 50)).
  - reflexivity.
  - vm_compute. discriminate.
  - right. reflexivity.
Defined.



(** ** Cancelling twice *)

Lemma find_update_row_pred {R} (pk : R -> Z) (p : R -> bool) (obj obj' : R)
    (rows : list R) :
  find p rows = Some obj -> pk obj' = pk obj -> p obj' = true ->
  find p (update_row pk obj' rows) = Some obj'.
Proof.
  intros H E P. unfold update_row.
  induction rows as [|r rows IH]; cbn [find map] in *; [discriminate|].
  destruct (p r) eqn:Hr.
  - injection H as ->. rewrite E, Z.eqb_refl. now rewrite P.
  - destruct (pk r =? pk obj'); [now rewrite P|]. rewrite Hr. now apply IH.
Qed.

Lemma find_booking_by_key (rows : list Booking.t) (b : Booking.t) :
  NoDup (map Booking.id rows) -> In b rows ->
  find (fun r => (Booking.id r =? Booking.id b) && (Booking.user_id r =? Booking.user_id b))
    rows = Some b.
Proof.
  induction rows as [|r rows IH]; cbn [map In find]; [tauto|].
  intros ND [->|Hin].
  - now rewrite !Z.eqb_refl.
  - inversion ND as [|? ? Hr ND']; subst.
    destruct (Z.eqb_spec (Booking.id r) (Booking.id b)) as [E|_]; cbn [andb].
    + exfalso. apply Hr. rewrite E. now apply in_map.
    + now apply IH.
Qed.

(** C6, cancelling twice.  A confirmed booking of the database is
    cancelled twice by its owner (the row of its schedule exists and the
    store accepts the first commit).  The first request succeeds; the
    second is refused with "Only confirmed bookings can be cancelled" and
    leaves the database as the first one left it; the counter of the
    schedule has grown by the [passenger_count] of the booking, once. *)
Theorem release_twice (w1 w2 : World) (db : Database) (b : Booking.t)
    (schedule : TrainSchedule.t) :
  bookings_key db ->
  In b (bookings db) ->
  Booking.status b = confirmed ->
  schedule_row db (Booking.schedule_id b) = Some schedule ->
  commit_succeeds w1 = true ->
  let first :=
    get_db w1 (api.cancel_booking_with_refund (Booking.id b) (Booking.user_id b)) db in
  let second :=
    get_db w2 (api.cancel_booking_with_refund (Booking.id b) (Booking.user_id b))
      (snd first) in
  (exists r, fst first = Ok r)
  /\ fst second = Raise (HTTPException 400 "Only confirmed bookings can be cancelled")
  /\ snd second = snd first
  /\ available_seats_of (snd first) (Booking.schedule_id b)
     = Some (TrainSchedule.available_seats schedule + Booking.passenger_count b)
  /\ available_seats_of (snd second) (Booking.schedule_id b)
     = Some (TrainSchedule.available_seats schedule + Booking.passenger_count b).
Proof.
  intros K Hin Hst Hs Hc first second.
  pose proof (find_booking_by_key (bookings db) b K Hin) as Hfind.
  assert (E1 : first =
    (Ok {| response_message := "Booking cancelled and refunded successfully";
           response_refund_amount :=
             {| message := "Booking cancelled. Refund request submitted for admin approval.";
                refund_amount := Booking.total_amount b |} |},
     cancelled_booking db b schedule (Booking.id b) (Booking.user_id b))).
  { unfold first. rewrite cancel_booking_request, Hfind.
    unfold is_confirmed. rewrite Hst. cbn [BookingStatus_eqb negb]. now rewrite Hs, Hc. }
  assert (E2 : second =
    (Raise (HTTPException 400 "Only confirmed bookings can be cancelled"), snd first)).
  { unfold second. rewrite cancel_booking_request, E1. cbn [snd].
    rewrite bookings_cancelled.
    rewrite (find_update_row_pred Booking.id _ b (Booking.set_status cancelled b)
               (bookings db) Hfind eq_refl).
    - reflexivity.
    - cbn [Booking.id Booking.user_id Booking.set_status]. now rewrite !Z.eqb_refl. }
  assert (A : available_seats_of (snd first) (Booking.schedule_id b)
              = Some (TrainSchedule.available_seats schedule + Booking.passenger_count b)).
  { rewrite E1. cbn [snd]. unfold available_seats_of.
    rewrite (schedule_row_cancelled db b schedule _ _ (Booking.schedule_id b) Hs),
      Z.eqb_refl.
    reflexivity. }
  clearbody second. subst second. clearbody first. subst first.
  cbn [fst snd] in *. repeat split; try exact A.
  eexists. reflexivity.
Qed.

Lemma release_twice_witness :
  let b := Booking.mk 1 9 3 "AB12CD34" 3 37650 confirmed 100 102 in
  let first :=
    get_db Scenario.fair (api.cancel_booking_with_refund (Booking.id b) (Booking.user_id b))
      Scenario.forty_seven_free in
  let second :=
    get_db Scenario.fair (api.cancel_booking_with_refund (Booking.id b) (Booking.user_id b))
      (snd first) in
  (exists r, fst first = Ok r)
  /\ fst second = Raise (HTTPException 400 "Only confirmed bookings can be cancelled")
  /\ snd second = snd first
  /\ available_seats_of (snd first) (Booking.schedule_id b)
     = Some (TrainSchedule.available_seats (TrainSchedule.mk 3 7 100 47)
             + Booking.passenger_count b)
  /\ available_seats_of (snd second) (Booking.schedule_id b)
     = Some (TrainSchedule.available_seats (TrainSchedule.mk 3 7 100 47)
             + Booking.passenger_count b).
Proof.
  intros b.
  apply (release_twice Scenario.fair Scenario.fair Scenario.forty_seven_free b
           (TrainSchedule.mk 3 7 100 47)).
  - vm_compute. repeat constructor. intros [].
  - vm_compute. left. reflexivity.
  - reflexivity.
  - reflexivity.
  - reflexivity.
Defined.

(** ** The two refusals of a reservation *)

(** No schedule with the id of the request: the service raises its one
    [ValueError], and nothing is written. *)
Lemma create_booking_schedule_missing (w : World) (db : Database) (booking : BookingCreate)
    (u : Z) :
  schedule_row db (schedule_id booking) = None ->
  get_db w (api.create_booking booking u) db =
  (Raise (HTTPException 400 "Insufficient seats available"), db).
Proof. intros H. now rewrite create_booking_request, H. Qed.

(** Fewer free seats than passengers: the same [ValueError], and nothing
    is written. *)
Lemma create_booking_insufficient (w : World) (db : Database) (booking : BookingCreate)
    (u : Z) (schedule : TrainSchedule.t) :
  schedule_row db (schedule_id booking) = Some schedule ->
  TrainSchedule.available_seats schedule < len (passengers booking) ->
  get_db w (api.create_booking booking u) db =
  (Raise (HTTPException 400 "Insufficient seats available"), db).
Proof.
  intros H Hlt. rewrite create_booking_request, H.
  destruct (Z.ltb_spec (TrainSchedule.available_seats schedule) (len (passengers booking)));
    [reflexivity|lia].
Qed.

(** The repository tells the two apart and reports the counts. *)
Lemma create_booking_with_seat_lock_schedule_missing (w : World) (db : Database)
    (booking : BookingCreate) (u : Z) :
  schedule_row db (schedule_id booking) = None ->
  get_db w (BookingRepository.create_booking_with_seat_lock booking u) db =
  (Raise (NotFoundError "TrainSchedule" (schedule_id booking)), db).
Proof.
  unfold schedule_row, get_db, BookingRepository.create_booking_with_seat_lock,
    BookingRepository.begin, BookingRepository.select_for_update, try_except.
  intros H. unfold bind at 1, query_first at 1. cbn [working]. now rewrite H.
Qed.

Lemma create_booking_with_seat_lock_insufficient (w : World) (db : Database)
    (booking : BookingCreate) (u : Z) (schedule : TrainSchedule.t) :
  schedule_row db (schedule_id booking) = Some schedule ->
  TrainSchedule.available_seats schedule < len (passengers booking) ->
  get_db w (BookingRepository.create_booking_with_seat_lock booking u) db =
  (Raise (InsufficientSeatsError (TrainSchedule.available_seats schedule)
            (len (passengers booking))), db).
Proof.
  unfold schedule_row, get_db, BookingRepository.create_booking_with_seat_lock,
    BookingRepository.begin, BookingRepository.select_for_update, try_except.
  intros H Hlt. unfold bind at 1, query_first at 1. cbn [working]. rewrite H.
  destruct (Z.ltb_spec (TrainSchedule.available_seats schedule) (len (passengers booking)));
    [reflexivity|lia].
Qed.

(** X3.  Past the two checks the repository reads [schedule.route], which its
    query has not loaded, and raises; were the route loaded, the call of
    [secrets.choices] in [_generate_booking_reference] would raise.  It
    never books. *)
Lemma create_booking_with_seat_lock_never_returns (w : World) (db : Database)
    (booking : BookingCreate) (u : Z) :
  exists e, get_db w (BookingRepository.create_booking_with_seat_lock booking u) db
            = (Raise e, db).
Proof.
  unfold get_db, BookingRepository.create_booking_with_seat_lock,
    BookingRepository.begin, BookingRepository.select_for_update, try_except.
  unfold bind at 1, query_first at 1. cbn [working].
  destruct (find _ (train_schedules db)) as [schedule|]; [|eexists; reflexivity].
  destruct (TrainSchedule.available_seats schedule <? len (passengers booking));
    eexists; reflexivity.
Qed.

(** C4, at the input of the scenario: 47 seats are free and 50 are
    requested.  The endpoint answers 400 "Insufficient seats available" and
    writes nothing; the answer to a request of 48 seats is the same, so it
    carries neither count.  [create_booking_with_seat_lock] raises
    [InsufficientSeatsError] with both counts at this input. *)
Theorem insufficient_seats_without_counts :
  get_db Scenario.fair (api.create_booking (Scenario.seats 50) 9) Scenario.forty_seven_free
  = (Raise (HTTPException 400 "Insufficient seats available"), Scenario.forty_seven_free)
  /\ fst (get_db Scenario.fair (api.create_booking (Scenario.seats 48) 9)
            Scenario.forty_seven_free)
     = fst (get_db Scenario.fair (api.create_booking (Scenario.seats 50) 9)
              Scenario.forty_seven_free)
  /\ get_db Scenario.fair
       (BookingRepository.create_booking_with_seat_lock (Scenario.seats 50) 9)
       Scenario.forty_seven_free
     = (Raise (InsufficientSeatsError 47 50), Scenario.forty_seven_free)
  /\ detail_of (InsufficientSeatsError 47 50)
     = Some "Insufficient seats. Available: 47, Requested: 50".
Proof. repeat split; vm_compute; reflexivity. Qed.

(** C5, at a schedule id that no row has (4, in the database of the
    scenario).  The endpoint answers 400 "Insufficient seats available",
    the very answer it gives when seats are short, and writes nothing.
    [create_booking_with_seat_lock] raises [NotFoundError] (404) at this
    input, and [InsufficientSeatsError] (409) when seats are short. *)
Theorem schedule_not_found_not_distinct :
  let unknown := {| schedule_id := 4; passengers := [Scenario.passenger] |} in
  get_db Scenario.fair (api.create_booking unknown 9) Scenario.fifty_seats
  = (Raise (HTTPException 400 "Insufficient seats available"), Scenario.fifty_seats)
  /\ fst (get_db Scenario.fair (api.create_booking unknown 9) Scenario.fifty_seats)
     = fst (get_db Scenario.fair (api.create_booking (Scenario.seats 50) 9)
              Scenario.forty_seven_free)
  /\ get_db Scenario.fair (BookingRepository.create_booking_with_seat_lock unknown 9)
       Scenario.fifty_seats
     = (Raise (NotFoundError "TrainSchedule" 4), Scenario.fifty_seats)
  /\ status_code_of (NotFoundError "TrainSchedule" 4) = Some 404
  /\ status_code_of (InsufficientSeatsError 47 50) = Some 409.
Proof. repeat split; vm_compute; reflexivity. Qed.

(** ** Requests at the same time *)

(** Run alone, the two steps of a request are the request of the
    sequential embedding. *)
Lemma steps_alone (w : World) (db : Database) (booking : BookingCreate) (u : Z) :
  let '(db1, t1) := Interleaving.step db (Interleaving.at_query w booking u) in
  let '(db2, t2) := Interleaving.step db1 t1 in
  db2 = snd (get_db w (api.create_booking booking u) db)
  /\ t2 = match fst (get_db w (api.create_booking booking u) db) with
          | Ok b => Interleaving.returned b
          | Raise e => Interleaving.raised e
          end.
Proof.
  rewrite create_booking_request.
  cbn [Interleaving.step]. unfold Interleaving.query_step, schedule_row.
  destruct (find _ (train_schedules db)) as [schedule|]; [|now split].
  destruct (TrainSchedule.available_seats schedule <? len (passengers booking));
    [now split|].
  destruct (find _ (routes db)) as [route|]; [|now split].
  destruct (journey_representable schedule route); [|now split]. cbn [negb].
  destruct (flush_succeeds w); [|now split].
  cbn [Interleaving.step andb]. unfold Interleaving.commit_step.
  destruct (commit_succeeds w); [|now split].
  cbn [fst snd]. split; [|reflexivity].
  unfold booked. rewrite insert_passengers_train_schedules. reflexivity.
Qed.

(** C9, at the input of the specification: 10 seats, all free, and 15
    requests of one seat each.  When every request has read the schedule
    before the first of them commits, all 15 pass the check and all 15
    succeed: no request fails, 15 seats are confirmed on a schedule of 10,
    and the counter is at 9.  One after the other, the same requests give
    10 successes and 5 failures. *)
Theorem lost_update :
  let st := Interleaving.run Interleaving.all_read_then_all_commit
              Interleaving.fifteen_requests in
  Interleaving.successes st = 15%nat
  /\ Interleaving.failures st = 0%nat
  /\ confirmed_seats (Interleaving.database st) 1 = 15
  /\ available_seats_of (Interleaving.database st) 1 = Some 9
  /\ let st' := Interleaving.run Interleaving.one_after_the_other
                  Interleaving.fifteen_requests in
     Interleaving.successes st' = 10%nat /\ Interleaving.failures st' = 5%nat.
Proof. vm_compute. repeat split; reflexivity. Qed.

(** C2, at two requests that overlap.  The schedule has 10 seats, all
    free, and no booking; two requests of one seat each read it before
    either commits.  Both have returned, no request is under way, and the
    counter is at 9 with 2 seats confirmed: 11, not 10.  The same two
    requests one after the other leave 8 and 2.  The read of line 253
    takes no lock on the row; [create_booking_with_seat_lock] takes it. *)
Theorem conservation_lost_under_overlap :
  let st := Interleaving.run Interleaving.read_read_commit_commit
              Interleaving.two_requests in
  let st' := Interleaving.run Interleaving.read_commit_read_commit
               Interleaving.two_requests in
  bookings_key Interleaving.ten_seats
  /\ fresh_schedule Interleaving.ten_seats 1 10
  /\ Interleaving.quiescent st = true
  /\ Interleaving.successes st = 2%nat
  /\ available_seats_of (Interleaving.database st) 1 = Some 9
  /\ confirmed_seats (Interleaving.database st) 1 = 2
  /\ ~ conserved 1 10 (Interleaving.database st)
  /\ Interleaving.quiescent st' = true
  /\ Interleaving.successes st' = 2%nat
  /\ available_seats_of (Interleaving.database st') 1 = Some 8
  /\ confirmed_seats (Interleaving.database st') 1 = 2
  /\ conserved 1 10 (Interleaving.database st').
Proof.
  cbv zeta. split; [constructor|]. split; [split; [reflexivity|intros b []]|].
  split; [reflexivity|]. split; [reflexivity|]. split; [reflexivity|].
  split; [reflexivity|]. split.
  { intros [_ [s [Hs Hsum]]]. vm_compute in Hs. injection Hs as <-.
    vm_compute in Hsum. discriminate. }
  split; [reflexivity|]. split; [reflexivity|]. split; [reflexivity|].
  split; [reflexivity|]. split.
  - vm_compute. repeat constructor; simpl; intuition discriminate.
  - eexists. split; [vm_compute; reflexivity|]. vm_compute. reflexivity.
Qed.

(** ** Payment *)

(** The record of the payment and its commit, the common end of
    [process_payment]. *)
Lemma payment_recorded (s : Session) (booking_id payer amount : Z) (method : PaymentMethod)
    (p : Payment.t) (s' : Session) :
  bind the_world (fun w =>
    bind (add_payment (Payment.mk 0 booking_id payer amount method payment_completed
                         (uuid4 w)))
      (fun payment => bind commit (fun _ => refresh_payment payment))) s = (Ok p, s') ->
  Payment.amount p = amount
  /\ wallets (durable s') = wallets (working s)
  /\ credit_cards (durable s') = credit_cards (working s)
  /\ upi_ids (durable s') = upi_ids (working s).
Proof.
  unfold bind at 1, the_world. unfold bind at 1, add_payment.
  cbn [world durable working Payment.booking_id Payment.user_id Payment.amount
       Payment.payment_method Payment.status Payment.transaction_id].
  unfold bind at 1, commit. cbn [world durable working].
  destruct (commit_succeeds (world s)); [|discriminate].
  unfold refresh_payment, bind, query_first. cbn [world durable working payments with_payments].
  rewrite (find_by_fresh_id Payment.id) by reflexivity.
  unfold ret. intros H. injection H as <- <-. cbn. tauto.
Qed.

Lemma bind_ok {A B} (m : M A) (k : A -> M B) (s s' : Session) (b : B) :
  bind m k s = (Ok b, s') ->
  exists a s1, m s = (Ok a, s1) /\ k a s1 = (Ok b, s').
Proof.
  unfold bind. destruct (m s) as [[a|e] s1]; [|discriminate].
  intros H. now exists a, s1.
Qed.

Lemma process_payment_charges (w : World) (db : Database) (payment_data : PaymentCreate)
    (payer : Z) (b : Booking.t) (p : Payment.t) (db' : Database) :
  find (fun r => (Booking.id r =? pay_booking_id payment_data)
                 && (Booking.user_id r =? payer)) (bookings db) = Some b ->
  get_db w (payments.process_payment payment_data payer) db = (Ok p, db') ->
  Payment.amount p = Booking.total_amount b
  /\ debited payment_data payer (Booking.total_amount b) db db'.
Proof.
  intros Hb. unfold get_db.
  destruct (payments.process_payment payment_data payer _) as [r s] eqn:E.
  intros H. injection H as -> <-. cbn [rollback_session durable].
  unfold payments.process_payment in E.
  unfold bind at 1, query_first at 1 in E. cbn [working] in E. rewrite Hb in E.
  unfold bind at 1, query_first at 1 in E. cbn [working] in E.
  destruct (find _ (payments db)); [discriminate|].
  apply bind_ok in E. destruct E as [[] [s1 [E T]]].
  apply payment_recorded in T. destruct T as [Ha [Tw [Tc Tu]]].
  split; [exact Ha|]. unfold debited.
  destruct (pay_payment_method payment_data).
  - (* CREDIT_CARD *)
    destruct (given (card_id payment_data)) as [cid|]; [|discriminate].
    apply bind_ok in E. destruct E as [card [s2 [Q E]]].
    unfold query_first in Q. injection Q as <- <-. cbn [working] in *.
    destruct (find _ (credit_cards db)) as [card|] eqn:Hc; [|discriminate].
    destruct (negb (CreditCard.is_active card)); [discriminate|].
    destruct (CreditCard.balance card <? Booking.total_amount b); [discriminate|].
    unfold bind, save_card, add_card_transaction, modify in E. cbn [working world durable] in E.
    injection E as <-. cbn [working] in Tc. rewrite Tc.
    exists cid, card. repeat split; [exact Hc|].
    cbn [credit_cards with_card_transactions with_credit_cards].
    apply (find_update_row_pred CreditCard.id _ card); [exact Hc|reflexivity|].
    apply find_some in Hc. exact (proj2 Hc).
  - (* DEBIT_CARD *)
    unfold ret in E. injection E as <-. cbn [working] in *. tauto.
  - (* WALLET *)
    apply bind_ok in E. destruct E as [wallet [s2 [Q E]]].
    unfold query_first in Q. injection Q as <- <-. cbn [working] in *.
    destruct (find _ (wallets db)) as [wallet|] eqn:Hw; [|discriminate].
    destruct (Wallet.balance wallet <? Booking.total_amount b); [discriminate|].
    unfold bind, save_wallet, add_wallet_transaction, modify in E.
    cbn [working world durable] in E.
    injection E as <-. cbn [working] in Tw. rewrite Tw.
    exists wallet. split; [reflexivity|].
    cbn [wallets with_wallet_transactions with_wallets].
    apply (find_update_row_pred Wallet.id _ wallet); [exact Hw|reflexivity|].
    apply find_some in Hw. exact (proj2 Hw).
  - (* UPI *)
    destruct (given (upi_id payment_data)) as [uid|]; [|discriminate].
    apply bind_ok in E. destruct E as [upi [s2 [Q E]]].
    unfold query_first in Q. injection Q as <- <-. cbn [working] in *.
    destruct (find _ (upi_ids db)) as [upi|] eqn:Hu; [|discriminate].
    destruct (negb (UpiId.is_active upi)); [discriminate|].
    destruct (UpiId.balance upi <? Booking.total_amount b); [discriminate|].
    unfold bind, save_upi, add_upi_transaction, modify in E. cbn [working world durable] in E.
    injection E as <-. cbn [working] in Tu. rewrite Tu.
    exists uid, upi. repeat split; [exact Hu|].
    cbn [upi_ids with_upi_transactions with_upi_ids].
    apply (find_update_row_pred UpiId.id _ upi); [exact Hu|reflexivity|].
    apply find_some in Hu. exact (proj2 Hu).
Qed.

(** The request, case by case. *)

Lemma payment_tail (s : Session) (booking_id payer amount : Z) (method : PaymentMethod) :
  bind the_world (fun w =>
    bind (add_payment (Payment.mk 0 booking_id payer amount method payment_completed
                         (uuid4 w)))
      (fun payment => bind commit (fun _ => refresh_payment payment))) s =
  let p := Payment.mk (autoincrement (map Payment.id (payments (working s))))
             booking_id payer amount method payment_completed (uuid4 (world s)) in
  let db := with_payments (payments (working s) ++ [p]) (working s) in
  if commit_succeeds (world s)
  then (Ok p, {| world := world s; durable := db; working := db |})
  else (Raise SQLAlchemyError, {| world := world s; durable := durable s; working := db |}).
Proof.
  unfold bind at 1, the_world. unfold bind at 1, add_payment.
  cbn [world durable working Payment.booking_id Payment.user_id Payment.amount
       Payment.payment_method Payment.status Payment.transaction_id].
  unfold bind at 1, commit. cbn [world durable working].
  destruct (commit_succeeds (world s)); [|reflexivity].
  unfold refresh_payment, bind, query_first. cbn [world durable working payments with_payments].
  rewrite (find_by_fresh_id Payment.id) by reflexivity. reflexivity.
Qed.

Lemma process_payment_request (w : World) (db : Database) (payment_data : PaymentCreate)
    (payer : Z) :
  get_db w (payments.process_payment payment_data payer) db =
  match find (fun r => (Booking.id r =? pay_booking_id payment_data)
                       && (Booking.user_id r =? payer)) (bookings db) with
  | None => (Raise (HTTPException 404 "Booking not found"), db)
  | Some b =>
    match find (fun p => Payment.booking_id p =? Booking.id b) (payments db) with
    | Some _ => (Raise (HTTPException 400 "Payment already processed for this booking"), db)
    | None =>
      match charged payment_data payer b db with
      | inl e => (Raise e, db)
      | inr db1 =>
        if commit_succeeds w
        then (Ok (payment_row w db1 b payment_data payer),
              with_payments (payments db1 ++ [payment_row w db1 b payment_data payer]) db1)
        else (Raise SQLAlchemyError, db)
      end
    end
  end.
Proof.
  unfold get_db, payments.process_payment.
  unfold bind at 1, query_first at 1. cbn [working].
  destruct (find _ (bookings db)) as [b|]; [|reflexivity].
  unfold bind at 1, query_first at 1. cbn [working].
  destruct (find _ (payments db)); [reflexivity|].
  unfold bind at 1. unfold charged, payment_row.
  destruct (pay_payment_method payment_data).
  - (* CREDIT_CARD *)
    destruct (given (card_id payment_data)) as [cid|]; [|reflexivity].
    unfold bind at 1, query_first at 1. cbn [working].
    destruct (find _ (credit_cards db)) as [card|]; [|reflexivity].
    destruct (negb (CreditCard.is_active card)); [reflexivity|].
    destruct (CreditCard.balance card <? Booking.total_amount b); [reflexivity|].
    unfold bind at 1, save_card, modify at 1. unfold add_card_transaction, modify.
    cbn [world durable working]. rewrite payment_tail. cbn [world durable working].
    destruct (commit_succeeds w); reflexivity.
  - (* DEBIT_CARD *)
    unfold ret at 1. rewrite payment_tail. cbn [world durable working].
    destruct (commit_succeeds w); reflexivity.
  - (* WALLET *)
    unfold bind at 1, query_first at 1. cbn [working].
    destruct (find _ (wallets db)) as [wallet|]; [|reflexivity].
    destruct (Wallet.balance wallet <? Booking.total_amount b); [reflexivity|].
    unfold bind at 1, save_wallet, modify at 1. unfold add_wallet_transaction, modify.
    cbn [world durable working]. rewrite payment_tail. cbn [world durable working].
    destruct (commit_succeeds w); reflexivity.
  - (* UPI *)
    destruct (given (upi_id payment_data)) as [uid|]; [|reflexivity].
    unfold bind at 1, query_first at 1. cbn [working].
    destruct (find _ (upi_ids db)) as [upi|]; [|reflexivity].
    destruct (negb (UpiId.is_active upi)); [reflexivity|].
    destruct (UpiId.balance upi <? Booking.total_amount b); [reflexivity|].
    unfold bind at 1, save_upi, modify at 1. unfold add_upi_transaction, modify.
    cbn [world durable working]. rewrite payment_tail. cbn [world durable working].
    destruct (commit_succeeds w); reflexivity.
Qed.

Lemma charged_tables (payment_data : PaymentCreate) (payer : Z) (b : Booking.t)
    (db db1 : Database) :
  charged payment_data payer b db = inr db1 ->
  payments db1 = payments db /\ bookings db1 = bookings db
  /\ train_schedules db1 = train_schedules db.
Proof.
  unfold charged. destruct (pay_payment_method payment_data).
  - destruct (given (card_id payment_data)); [|discriminate].
    destruct (find _ (credit_cards db)) as [card|]; [|discriminate].
    destruct (negb (CreditCard.is_active card)); [discriminate|].
    destruct (CreditCard.balance card <? Booking.total_amount b); [discriminate|].
    intros H. injection H as <-. now repeat split.
  - intros H. injection H as <-. now repeat split.
  - destruct (find _ (wallets db)) as [wallet|]; [|discriminate].
    destruct (Wallet.balance wallet <? Booking.total_amount b); [discriminate|].
    intros H. injection H as <-. now repeat split.
  - destruct (given (upi_id payment_data)); [|discriminate].
    destruct (find _ (upi_ids db)) as [upi|]; [|discriminate].
    destruct (negb (UpiId.is_active upi)); [discriminate|].
    destruct (UpiId.balance upi <? Booking.total_amount b); [discriminate|].
    intros H. injection H as <-. now repeat split.
Qed.

(** An instrument that holds the amount is charged. *)
Lemma payable_charged (payment_data : PaymentCreate) (payer : Z) (b : Booking.t)
    (db : Database) :
  payable payment_data payer (Booking.total_amount b) db ->
  exists db1, charged payment_data payer b db = inr db1.
Proof.
  unfold payable, charged. destruct (pay_payment_method payment_data).
  - intros [cid [card [-> [-> [-> Hle]]]]]. cbn [negb].
    destruct (Z.ltb_spec (CreditCard.balance card) (Booking.total_amount b)); [lia|].
    eexists. reflexivity.
  - intros _. eexists. reflexivity.
  - intros [wallet [-> Hle]].
    destruct (Z.ltb_spec (Wallet.balance wallet) (Booking.total_amount b)); [lia|].
    eexists. reflexivity.
  - intros [uid [upi [-> [-> [-> Hle]]]]]. cbn [negb].
    destruct (Z.ltb_spec (UpiId.balance upi) (Booking.total_amount b)); [lia|].
    eexists. reflexivity.
Qed.

(** A booking that is not paid yet, an instrument that holds its amount
    and a store that accepts the commit: the payment is made. *)
Lemma process_payment_succeeds (w : World) (db : Database) (payment_data : PaymentCreate)
    (payer : Z) (b : Booking.t) :
  find (fun r => (Booking.id r =? pay_booking_id payment_data)
                 && (Booking.user_id r =? payer)) (bookings db) = Some b ->
  find (fun p => Payment.booking_id p =? Booking.id b) (payments db) = None ->
  payable payment_data payer (Booking.total_amount b) db ->
  commit_succeeds w = true ->
  exists (p : Payment.t) (db' : Database),
    get_db w (payments.process_payment payment_data payer) db = (Ok p, db')
    /\ Payment.booking_id p = Booking.id b
    /\ Payment.status p = payment_completed
    /\ In p (payments db').
Proof.
  intros Hb Hp Hpay Hc. rewrite process_payment_request, Hb, Hp.
  destruct (payable_charged _ _ _ _ Hpay) as [db1 ->]. rewrite Hc.
  eexists. eexists. split; [reflexivity|]. repeat split.
  cbn [payments with_payments]. apply in_or_app. right. now left.
Qed.

(** ** A stored booking keeps its seats and its amount *)

Lemma same_key_same_row {R} (pk : R -> Z) (rows : list R) (x y : R) :
  NoDup (map pk rows) -> In x rows -> In y rows -> pk x = pk y -> x = y.
Proof.
  induction rows as [|r rows IH]; cbn [map In]; [tauto|].
  intros ND Hx Hy E. inversion ND as [|? ? Hr ND']; subst.
  destruct Hx as [->|Hx], Hy as [->|Hy].
  - reflexivity.
  - exfalso. apply Hr. rewrite E. now apply in_map.
  - exfalso. apply Hr. rewrite <- E. now apply in_map.
  - now apply IH.
Qed.

Lemma perform_bookings_key (op : Operation) (db : Database) :
  bookings_key db -> bookings_key (perform db op).
Proof.
  intros K. destruct op as [w booking u|w booking_id u]; unfold perform.
  - rewrite create_booking_request.
    destruct (schedule_row db (schedule_id booking)) as [schedule|]; [|exact K].
    destruct (TrainSchedule.available_seats schedule <? len (passengers booking));
      [exact K|].
    destruct (find _ (routes db)) as [route|]; [|exact K].
    destruct (journey_representable schedule route); [|exact K].
    destruct (flush_succeeds w && commit_succeeds w); [|exact K].
    now apply bookings_key_booked.
  - rewrite cancel_booking_request.
    destruct (find _ (bookings db)) as [b|]; [|exact K].
    destruct (negb (is_confirmed b)); [exact K|].
    destruct (schedule_row db (Booking.schedule_id b)) as [schedule|]; [|exact K].
    destruct (commit_succeeds w); [|exact K].
    now apply bookings_key_cancelled.
Qed.

(** No reserve and no release request rewrites the user, the schedule,
    the [passenger_count] or the [total_amount] of a stored booking: a
    release changes its [status], and nothing else does anything to it. *)
Lemma perform_keeps_booking (op : Operation) (db : Database) (k : Z) (b : Booking.t) :
  bookings_key db ->
  find (fun r => Booking.id r =? k) (bookings db) = Some b ->
  exists b',
    find (fun r => Booking.id r =? k) (bookings (perform db op)) = Some b'
    /\ Booking.user_id b' = Booking.user_id b
    /\ Booking.schedule_id b' = Booking.schedule_id b
    /\ Booking.passenger_count b' = Booking.passenger_count b
    /\ Booking.total_amount b' = Booking.total_amount b.
Proof.
  intros K Hb.
  assert (Same : exists b', find (fun r => Booking.id r =? k) (bookings db) = Some b'
                 /\ Booking.user_id b' = Booking.user_id b
                 /\ Booking.schedule_id b' = Booking.schedule_id b
                 /\ Booking.passenger_count b' = Booking.passenger_count b
                 /\ Booking.total_amount b' = Booking.total_amount b)
    by (exists b; tauto).
  destruct op as [w booking u|w booking_id u]; unfold perform.
  - rewrite create_booking_request.
    destruct (schedule_row db (schedule_id booking)) as [schedule|]; [|exact Same].
    destruct (TrainSchedule.available_seats schedule <? len (passengers booking));
      [exact Same|].
    destruct (find _ (routes db)) as [route|]; [|exact Same].
    destruct (journey_representable schedule route); [|exact Same].
    destruct (flush_succeeds w && commit_succeeds w); [|exact Same].
    cbn [snd]. rewrite bookings_booked. exists b.
    split; [now apply find_some_app|tauto].
  - rewrite cancel_booking_request.
    destruct (find (fun r => (Booking.id r =? booking_id) && (Booking.user_id r =? u))
                (bookings db)) as [c|] eqn:Hc; [|exact Same].
    destruct (negb (is_confirmed c)); [exact Same|].
    destruct (schedule_row db (Booking.schedule_id c)) as [schedule|]; [|exact Same].
    destruct (commit_succeeds w); [|exact Same].
    cbn [snd]. rewrite bookings_cancelled, find_update_row, Hb.
    change (Booking.id (Booking.set_status cancelled c)) with (Booking.id c).
    destruct (Z.eqb_spec k (Booking.id c)) as [E|_]; [|exists b; tauto].
    apply find_booking_in in Hc. destruct Hc as [Hin _].
    apply find_some in Hb. destruct Hb as [Hin' Hk]. apply Z.eqb_eq in Hk.
    assert (c = b) as -> by (apply (same_key_same_row Booking.id (bookings db));
                              [exact K|exact Hin|exact Hin'|congruence]).
    eexists. split; [reflexivity|]. now repeat split.
Qed.

(** X4.  What is stored of a booking stays: after any sequence of reserve
    and release requests the row with its id is still there, with the
    user, the schedule, the [passenger_count] and the [total_amount] it
    had (booking ids are a primary key). *)
Lemma perform_all_keeps_booking (ops : list Operation) (db : Database) (k : Z)
    (b : Booking.t) :
  bookings_key db ->
  find (fun r => Booking.id r =? k) (bookings db) = Some b ->
  exists b',
    find (fun r => Booking.id r =? k) (bookings (perform_all ops db)) = Some b'
    /\ Booking.user_id b' = Booking.user_id b
    /\ Booking.schedule_id b' = Booking.schedule_id b
    /\ Booking.passenger_count b' = Booking.passenger_count b
    /\ Booking.total_amount b' = Booking.total_amount b.
Proof.
  revert db b. induction ops as [|op ops IH]; intros db b K Hb.
  - exists b. tauto.
  - destruct (perform_keeps_booking op db k b K Hb) as [b1 [H1 [E1 [E2 [E3 E4]]]]].
    destruct (IH (perform db op) b1 (perform_bookings_key op db K) H1)
      as [b2 [H2 [F1 [F2 [F3 F4]]]]].
    exists b2. split; [exact H2|]. repeat split; congruence.
Qed.

Lemma perform_all_keeps_booking_witness :
  exists b',
    find (fun r => Booking.id r =? 1)
      (bookings (perform_all [release Scenario.fair 1 9; reserve Scenario.fair (Scenario.seats 2) 4]
                   Scenario.forty_seven_free)) = Some b'
    /\ Booking.user_id b' = Booking.user_id Scenario.first_booking
    /\ Booking.schedule_id b' = Booking.schedule_id Scenario.first_booking
    /\ Booking.passenger_count b' = Booking.passenger_count Scenario.first_booking
    /\ Booking.total_amount b' = Booking.total_amount Scenario.first_booking.
Proof.
  apply (perform_all_keeps_booking
           [release Scenario.fair 1 9; reserve Scenario.fair (Scenario.seats 2) 4]
           Scenario.forty_seven_free 1 Scenario.first_booking).
  - vm_compute. repeat constructor. intros [].
  - reflexivity.
Defined.

(** C8, fare calculation.  A reserve request has returned the booking [b].
    Its [total_amount] is the [base_fare] that the route of the schedule
    had in the database of the request, times the number of passengers.
    Later, in any database that holds the row of the booking with that
    amount (whatever the fares have become, and whether the booking is
    still confirmed or cancelled), a payment request of its owner for it
    is charged that amount and no other: every payment that the request
    makes is recorded with [total_amount] and the balance of the wallet,
    card or UPI id it names is reduced by it; and the request does make
    the payment when the booking is not paid yet, the instrument holds the
    amount and the store accepts the commit. *)
Theorem fare_calculation (w : World) (db : Database) (booking : BookingCreate) (u : Z)
    (b : Booking.t) (db1 : Database) :
  get_db w (api.create_booking booking u) db = (Ok b, db1) ->
  exists fare,
    base_fare_of db (schedule_id booking) = Some fare
    /\ Booking.total_amount b = fare * len (passengers booking)
    /\ find (fun r => Booking.id r =? Booking.id b) (bookings db1) = Some b
    /\ forall (w' : World) (db2 : Database) (payment_data : PaymentCreate) (payer : Z)
              (b2 : Booking.t),
         pay_booking_id payment_data = Booking.id b ->
         find (fun r => (Booking.id r =? pay_booking_id payment_data)
                        && (Booking.user_id r =? payer)) (bookings db2) = Some b2 ->
         Booking.total_amount b2 = Booking.total_amount b ->
         (forall (p : Payment.t) (db3 : Database),
            get_db w' (payments.process_payment payment_data payer) db2 = (Ok p, db3) ->
            Payment.amount p = Booking.total_amount b
            /\ debited payment_data payer (Booking.total_amount b) db2 db3)
         /\ (find (fun p => Payment.booking_id p =? Booking.id b) (payments db2) = None ->
             payable payment_data payer (Booking.total_amount b) db2 ->
             commit_succeeds w' = true ->
             exists (p : Payment.t) (db3 : Database),
               get_db w' (payments.process_payment payment_data payer) db2 = (Ok p, db3)
               /\ Payment.booking_id p = Booking.id b
               /\ Payment.status p = payment_completed
               /\ In p (payments db3)
               /\ Payment.amount p = Booking.total_amount b
               /\ debited payment_data payer (Booking.total_amount b) db2 db3).
Proof.
  rewrite create_booking_request. unfold base_fare_of.
  destruct (schedule_row db (schedule_id booking)) as [schedule|]; [|discriminate].
  destruct (TrainSchedule.available_seats schedule <? len (passengers booking));
    [discriminate|].
  destruct (find _ (routes db)) as [route|]; [|discriminate].
  destruct (journey_representable schedule route); [|discriminate].
  destruct (flush_succeeds w && commit_succeeds w); [|discriminate].
  intros H. injection H as <- <-.
  exists (Route.base_fare route). split; [reflexivity|]. split; [reflexivity|].
  split.
  { rewrite bookings_booked. apply find_by_fresh_id. reflexivity. }
  intros w' db2 payment_data payer b2 Hid Hb Ha.
  set (b := new_booking w db booking u schedule route) in *.
  assert (Hid2 : Booking.id b2 = Booking.id b).
  { apply find_some in Hb. destruct Hb as [_ Hb].
    apply andb_true_iff in Hb. destruct Hb as [Hb _]. apply Z.eqb_eq in Hb. congruence. }
  split.
  - intros p db3 Hp. rewrite <- Ha.
    exact (process_payment_charges w' db2 payment_data payer b2 p db3 Hb Hp).
  - intros Hnone Hpay Hc. rewrite <- Hid2 in Hnone. rewrite <- Ha in Hpay.
    destruct (process_payment_succeeds w' db2 payment_data payer b2 Hb Hnone Hpay Hc)
      as [p [db3 [Hp [E1 [E2 E3]]]]].
    exists p, db3. split; [exact Hp|]. split; [congruence|]. split; [exact E2|].
    split; [exact E3|]. rewrite <- Ha.
    exact (process_payment_charges w' db2 payment_data payer b2 p db3 Hb Hp).
Qed.

Lemma fare_calculation_witness :
  exists fare,
    base_fare_of Scenario.fifty_seats (schedule_id (Scenario.seats 3)) = Some fare
    /\ Booking.total_amount Scenario.first_booking
       = fare * len (passengers (Scenario.seats 3))
    /\ exists (p : Payment.t) (db3 : Database),
         get_db Scenario.fair (payments.process_payment Scenario.pay_from_wallet 9)
           Scenario.fare_raised = (Ok p, db3)
         /\ Payment.booking_id p = Booking.id Scenario.first_booking
         /\ Payment.status p = payment_completed
         /\ In p (payments db3)
         /\ Payment.amount p = Booking.total_amount Scenario.first_booking
         /\ debited Scenario.pay_from_wallet 9 (Booking.total_amount Scenario.first_booking)
              Scenario.fare_raised db3.
Proof.
  destruct (fare_calculation Scenario.fair Scenario.fifty_seats (Scenario.seats 3) 9
              Scenario.first_booking Scenario.forty_seven_free eq_refl)
    as [fare [H1 [H2 [_ H3]]]].
  exists fare. split; [exact H1|]. split; [exact H2|].
  destruct (H3 Scenario.fair Scenario.fare_raised Scenario.pay_from_wallet 9
              Scenario.first_booking eq_refl eq_refl eq_refl) as [_ H4].
  apply H4.
  - reflexivity.
  - exists (Wallet.mk 1 9 100000). split; [reflexivity|]. vm_compute. discriminate.
  - reflexivity.
Defined.

(** The scenario goes on: the fare of the route is raised after the
    reservation of three seats at 125.50, and the wallet of the user is
    charged 376.50. *)
Example payment_after_fare_change :
  let later := with_routes [Route.mk 7 1 1200 99900] Scenario.forty_seven_free in
  let paid := get_db Scenario.fair
                (payments.process_payment
                   {| pay_booking_id := 1; pay_payment_method := WALLET;
                      card_id := None; upi_id := None |} 9) later in
  option_map Payment.amount (match fst paid with Ok p => Some p | Raise _ => None end)
    = Some 37650
  /\ map Wallet.balance (wallets (snd paid)) = [100000 - 37650]
  /\ map Transaction.amount (wallet_transactions (snd paid)) = [37650].
Proof. vm_compute. repeat split; reflexivity. Qed.

(** ** Where a schedule starts: [create_schedules_for_route] *)

Lemma nothing_added (s : Session) :
  s = {| world := world s; durable := durable s;
         working := with_train_schedules (train_schedules (working s) ++ []) (working s) |}.
Proof. rewrite app_nil_r. destruct s as [? ? []]; reflexivity. Qed.

Section NewSchedules.

Variables (w : World) (route_id : Z) (route : Route.t) (train : Train.t).

(** The loop adds schedule rows and nothing else, whether it comes to its
    end or stops at a day that is not a date. *)
Lemma schedules_loop (l : list Z) (s : Session) :
  find (fun t => Train.id t =? Route.train_id route) (trains (working s)) = Some train ->
  exists (r : Result unit) (added : list TrainSchedule.t),
    for_each l (RouteService.schedule_day w route_id route) s =
      (r, {| world := world s; durable := durable s;
             working := with_train_schedules
                          (train_schedules (working s) ++ added) (working s) |})
    /\ Forall (fun r =>
         TrainSchedule.available_seats r = Train.total_seats train
         /\ ~ In (TrainSchedule.id r) (map TrainSchedule.id (train_schedules (working s))))
         added
    /\ (NoDup (map TrainSchedule.id (train_schedules (working s))) ->
        NoDup (map TrainSchedule.id (train_schedules (working s) ++ added))).
Proof.
  revert s. induction l as [|i l IH]; intros s Ht.
  - exists (Ok tt), []. rewrite app_nil_r. repeat split; [|constructor|tauto].
    destruct s as [? ? []]; reflexivity.
  - cbn [for_each]. unfold bind at 1. unfold RouteService.schedule_day at 1.
    unfold bind at 1, timedelta.
    destruct (Z.abs i <=? timedelta_max_days).
    2:{ eexists. exists []. split; [unfold raise; f_equal; apply nothing_added|].
        rewrite app_nil_r. split; [constructor|tauto]. }
    unfold ret at 1. unfold bind at 1, date_add.
    destruct ((date_min <=? today w + i) && (today w + i <=? date_max)).
    2:{ eexists. exists []. split; [unfold raise; f_equal; apply nothing_added|].
        rewrite app_nil_r. split; [constructor|tauto]. }
    unfold ret at 1. unfold bind at 1, query_first at 1.
    destruct (find _ (train_schedules (working s))).
    + unfold ret at 1. exact (IH s Ht).
    + unfold bind at 1, route_train, query_first at 1. rewrite Ht.
      unfold add_schedule, modify.
      set (row := TrainSchedule.mk _ _ _ _).
      set (s1 := Build_Session _ _ _).
      destruct (IH s1 Ht) as [r [added [E [Hall Hnd]]]].
      exists r, (row :: added). rewrite E. subst s1.
      cbn [world durable working train_schedules with_train_schedules] in *.
      rewrite <- app_assoc in *. cbn [app] in *. repeat split.
      * constructor.
        -- split; [reflexivity|]. apply autoincrement_fresh.
        -- apply (Forall_impl _ (P := fun r =>
             TrainSchedule.available_seats r = Train.total_seats train
             /\ ~ In (TrainSchedule.id r)
                     (map TrainSchedule.id (train_schedules (working s) ++ [row])))).
           ++ intros r0 [H1 H2]. split; [exact H1|]. intros H. apply H2.
              rewrite map_app. apply in_or_app. now left.
           ++ exact Hall.
      * intros ND. apply Hnd. rewrite map_app. cbn [map].
        apply NoDup_app; [exact ND|repeat constructor; simpl; tauto|].
        intros x Hx [<-|[]]. now apply autoincrement_fresh in Hx.
Qed.

End NewSchedules.

Lemma find_schedule_by_key (rows : list TrainSchedule.t) (s : TrainSchedule.t) :
  NoDup (map TrainSchedule.id rows) -> In s rows ->
  find (fun r => TrainSchedule.id r =? TrainSchedule.id s) rows = Some s.
Proof.
  induction rows as [|r rows IH]; cbn [map In find]; [tauto|].
  intros ND [->|Hin].
  - now rewrite Z.eqb_refl.
  - inversion ND as [|? ? Hr ND']; subst.
    destruct (Z.eqb_spec (TrainSchedule.id r) (TrainSchedule.id s)) as [E|_].
    + exfalso. apply Hr. rewrite E. now apply in_map.
    + now apply IH.
Qed.

(** Every schedule that [create_schedules_for_route] adds is fresh: its
    counter is [total_seats] of the train of the route and no booking is on
    it (ids are primary keys, and a booking names a schedule that exists). *)
Lemma create_schedules_for_route_fresh (w : World) (db : Database) (route_id days_ahead : Z)
    (route : Route.t) (train : Train.t) (s : TrainSchedule.t) :
  NoDup (map TrainSchedule.id (train_schedules db)) ->
  (forall b, In b (bookings db) ->
             In (Booking.schedule_id b) (map TrainSchedule.id (train_schedules db))) ->
  find (fun r => Route.id r =? route_id) (routes db) = Some route ->
  find (fun t => Train.id t =? Route.train_id route) (trains db) = Some train ->
  let db' := snd (get_db w (RouteService.create_schedules_for_route route_id days_ahead) db) in
  In s (train_schedules db') -> ~ In s (train_schedules db) ->
  fresh_schedule db' (TrainSchedule.id s) (Train.total_seats train).
Proof.
  intros ND FK Hr Ht. cbv zeta.
  destruct (schedules_loop w route_id route train (range days_ahead)
              {| world := w; durable := db; working := db |} Ht)
    as [r [added [E [Hall Hnd]]]].
  cbn [world durable working] in E, Hnd.
  assert (D : snd (get_db w (RouteService.create_schedules_for_route route_id days_ahead) db)
              = match r with
                | Ok _ => if commit_succeeds w
                          then with_train_schedules (train_schedules db ++ added) db
                          else db
                | Raise _ => db
                end).
  { unfold get_db, RouteService.create_schedules_for_route.
    unfold bind at 1, query_first at 1. cbn [working]. rewrite Hr.
    unfold bind at 1, the_world at 1. cbn [world].
    unfold bind at 1. rewrite E. destruct r as [[]|e]; [|reflexivity].
    unfold commit. cbn [world durable working]. now destruct (commit_succeeds w). }
  rewrite D. clear D E.
  destruct r as [[]|e]; [|tauto].
  destruct (commit_succeeds w); [|tauto].
  cbn [train_schedules with_train_schedules]. intros Hin Hnew.
  apply in_app_or in Hin. destruct Hin as [Hin|Hin]; [tauto|].
  rewrite Forall_forall in Hall. destruct (Hall s Hin) as [Ha Hid].
  split.
  - unfold available_seats_of, schedule_row. cbn [train_schedules with_train_schedules].
    rewrite find_schedule_by_key; [|now apply Hnd|apply in_or_app; now right].
    cbn [option_map]. now f_equal.
  - cbn [bookings with_train_schedules]. intros b Hb E'.
    apply Hid. rewrite <- E'. now apply FK.
Qed.

(** * Further properties of the code *)

(** ** [create_schedules_for_route] *)

Section ScheduleLoop.

Variables (w : World) (route_id : Z) (route : Route.t).

Lemma session_eta (s : Session) :
  {| world := world s; durable := durable s;
     working := with_train_schedules (train_schedules (working s) ++ []) (working s) |} = s.
Proof. destruct s as [? ? []]. cbn. now rewrite app_nil_r. Qed.

Lemma schedule_day_loop (l : list Z) (s : Session) :
  exists r added,
    for_each l (RouteService.schedule_day w route_id route) s =
      (r, {| world := world s; durable := durable s;
             working := with_train_schedules
                          (train_schedules (working s) ++ added) (working s) |})
    /\ Forall (fun x =>
         TrainSchedule.route_id x = route_id
         /\ In (TrainSchedule.schedule_date x - today w) l
         /\ exists train,
              find (fun t => Train.id t =? Route.train_id route) (trains (working s))
                = Some train
              /\ TrainSchedule.available_seats x = Train.total_seats train) added
    /\ (NoDup (map schedule_key (train_schedules (working s))) ->
        NoDup (map schedule_key (train_schedules (working s) ++ added)))
    /\ (r = Ok tt ->
        forall i, In i l ->
          exists x, In x (train_schedules (working s) ++ added)
                    /\ schedule_key x = (route_id, today w + i))
    /\ (find (fun t => Train.id t =? Route.train_id route) (trains (working s)) <> None ->
        (forall i, In i l -> day_representable w i = true) ->
        r = Ok tt).
Proof.
  revert s. induction l as [|i l IH]; intros s.
  - exists (Ok tt), []. rewrite session_eta, app_nil_r.
    repeat split; [constructor|tauto|intros _ i []].
  - cbn [for_each]. unfold bind at 1. unfold RouteService.schedule_day at 1.
    unfold bind at 1, timedelta.
    destruct (Z.abs i <=? timedelta_max_days) eqn:Hi1.
    2:{ eexists. exists []. unfold raise. rewrite session_eta, app_nil_r.
        repeat split; [constructor|tauto|discriminate|].
        intros _ Hd. specialize (Hd i (or_introl eq_refl)).
        unfold day_representable in Hd. rewrite Hi1 in Hd. discriminate. }
    unfold ret at 1. unfold bind at 1, date_add.
    destruct ((date_min <=? today w + i) && (today w + i <=? date_max)) eqn:Hi2.
    2:{ eexists. exists []. unfold raise. rewrite session_eta, app_nil_r.
        repeat split; [constructor|tauto|discriminate|].
        intros _ Hd. specialize (Hd i (or_introl eq_refl)).
        unfold day_representable in Hd. rewrite Hi1, Hi2 in Hd. discriminate. }
    unfold ret at 1. unfold bind at 1, query_first at 1.
    destruct (find _ (train_schedules (working s))) as [e|] eqn:He.
    + unfold ret at 1. destruct (IH s) as [r [added [E [Hall [Hnd [Hcov Hok]]]]]].
      exists r, added. rewrite E. repeat split; [|exact Hnd| |].
      3:{ intros Ht Hd. apply Hok; [exact Ht|]. intros j Hj. apply Hd. now right. }
      * eapply Forall_impl; [|exact Hall]. cbn [In]. intros x [H1 [H2 H3]]. tauto.
      * intros Hr j [<-|Hj]; [|now apply Hcov].
        apply find_some in He. destruct He as [Hin He].
        apply andb_true_iff in He. destruct He as [H1 H2]. apply Z.eqb_eq in H1, H2.
        exists e. split; [apply in_or_app; now left|]. unfold schedule_key. congruence.
    + unfold bind at 1, route_train, query_first at 1.
      destruct (find _ (trains (working s))) as [train|] eqn:Ht.
      * unfold add_schedule, modify.
        set (row := TrainSchedule.mk _ _ _ _).
        set (s1 := Build_Session _ _ _).
        destruct (IH s1) as [r [added [E [Hall [Hnd [Hcov Hok]]]]]].
        exists r, (row :: added). rewrite E. subst s1.
        cbn [world durable working train_schedules trains with_train_schedules] in *.
        rewrite <- app_assoc in *. cbn [app] in *. repeat split.
        -- constructor.
           ++ cbn. repeat split; [left; lia|]. exists train. now split.
           ++ eapply Forall_impl; [|exact Hall]. cbn [In]. intros x [H1 [H2 H3]].
              rewrite Ht in H3. repeat split; [exact H1|now right|exact H3].
        -- intros ND. apply Hnd. rewrite map_app. cbn [map].
           apply NoDup_app; [exact ND|repeat constructor; simpl; tauto|].
           intros k Hk [<-|[]]. apply in_map_iff in Hk. destruct Hk as [x [Hx Hin]].
           pose proof (find_none _ _ He x Hin) as Hf. cbn in Hf.
           unfold schedule_key in Hx. cbn in Hx. injection Hx as Hx1 Hx2.
           rewrite Hx1, Hx2, !Z.eqb_refl in Hf. discriminate.
        -- intros Hr j [<-|Hj]; [|now apply Hcov].
           exists row. split; [apply in_or_app; right; now left|reflexivity].
        -- intros _ Hd. apply Hok; [now rewrite Ht|].
           intros j Hj. apply Hd. now right.
      * exists (Raise (AttributeError "'NoneType' object has no attribute 'total_seats'")), [].
        unfold raise. rewrite session_eta, app_nil_r.
        repeat split; [constructor|tauto|discriminate|tauto].
Qed.

End ScheduleLoop.

(** The dates of a window that begins today and ends by [date.max]. *)
Lemma days_representable (w : World) (days_ahead : Z) :
  date_min <= today w -> today w + days_ahead - 1 <= date_max ->
  forall i, 0 <= i < days_ahead -> day_representable w i = true.
Proof.
  unfold day_representable, date_min, date_max, timedelta_max_days.
  intros H1 H2 i Hi. rewrite !andb_true_iff, !Z.leb_le. lia.
Qed.

Lemma in_range (n i : Z) : In i (range n) <-> 0 <= i < n.
Proof.
  unfold range. rewrite in_map_iff. split.
  - intros [k [<- Hk]]. apply in_seq in Hk. lia.
  - intros H. exists (Z.to_nat i). split; [lia|]. apply in_seq. lia.
Qed.

(** The request spelled out: the committed database is the old one, or
    the old one with new schedules at the end of the table. *)
Lemma create_schedules_request (w : World) (db : Database) (route_id days_ahead : Z) :
  exists added,
    snd (get_db w (RouteService.create_schedules_for_route route_id days_ahead) db)
      = with_train_schedules (train_schedules db ++ added) db
    /\ Forall (fun x =>
         TrainSchedule.route_id x = route_id
         /\ 0 <= TrainSchedule.schedule_date x - today w < days_ahead
         /\ exists route train,
              find (fun r => Route.id r =? route_id) (routes db) = Some route
              /\ find (fun t => Train.id t =? Route.train_id route) (trains db) = Some train
              /\ TrainSchedule.available_seats x = Train.total_seats train) added
    /\ (NoDup (map schedule_key (train_schedules db)) ->
        NoDup (map schedule_key (train_schedules db ++ added)))
    /\ (forall route train,
          find (fun r => Route.id r =? route_id) (routes db) = Some route ->
          find (fun t => Train.id t =? Route.train_id route) (trains db) = Some train ->
          commit_succeeds w = true ->
          (forall i, 0 <= i < days_ahead -> day_representable w i = true) ->
          forall i, 0 <= i < days_ahead ->
            exists x, In x (train_schedules db ++ added)
                      /\ schedule_key x = (route_id, today w + i)).
Proof.
  assert (N : with_train_schedules (train_schedules db ++ []) db = db)
    by (destruct db; cbn; now rewrite app_nil_r).
  unfold get_db, RouteService.create_schedules_for_route.
  unfold bind at 1, query_first at 1. cbn [working].
  destruct (find _ (routes db)) as [route|] eqn:Hr.
  - unfold bind at 1, the_world at 1. cbn [world]. unfold bind at 1.
    destruct (schedule_day_loop w route_id route (range days_ahead)
                {| world := w; durable := db; working := db |})
      as [r [added [E [Hall [Hnd [Hcov Hok]]]]]].
    cbn [world durable working] in *. rewrite E.
    destruct r as [[]|e].
    + unfold commit. cbn [world durable working].
      destruct (commit_succeeds w) eqn:Hc.
      * exists added. cbn. repeat split; [|exact Hnd|].
        -- eapply Forall_impl; [|exact Hall]. cbn. intros x [H1 [H2 [train [H3 H4]]]].
           apply in_range in H2. repeat split; try tauto. now exists route, train.
        -- intros route' train' _ _ _ _ i Hi. apply Hcov; [reflexivity|now apply in_range].
      * exists []. cbn. rewrite N, app_nil_r. repeat split; [constructor|tauto|discriminate].
    + exists []. cbn. rewrite N, app_nil_r. repeat split; [constructor|tauto|].
      intros route' train' Hr' Ht' _ Hd. injection Hr' as <-.
      assert (Raise e = Ok tt :> Result unit).
      { apply Hok; [now rewrite Ht'|]. intros i Hi. apply Hd. now apply in_range. }
      discriminate.
  - exists []. cbn. rewrite N, app_nil_r. repeat split; [constructor|tauto|discriminate].
Qed.

Lemma with_train_schedules_same (db : Database) :
  with_train_schedules (train_schedules db ++ []) db = db.
Proof. destruct db. cbn. now rewrite app_nil_r. Qed.

(** X5.  [create_schedules_for_route] only adds rows at the end of
    [train_schedules]: whatever its arguments and whether it succeeds, every
    schedule that was there is still found under its id with the counter
    it had, and no booking is touched. *)
Theorem create_schedules_keeps_existing (w : World) (db : Database)
    (route_id days_ahead : Z) :
  let db' := snd (get_db w (RouteService.create_schedules_for_route route_id days_ahead) db) in
  (exists added, train_schedules db' = train_schedules db ++ added)
  /\ bookings db' = bookings db
  /\ forall k s, schedule_row db k = Some s -> schedule_row db' k = Some s.
Proof.
  cbv zeta. destruct (create_schedules_request w db route_id days_ahead) as [added [E _]].
  rewrite E. cbn [train_schedules bookings with_train_schedules]. repeat split.
  - now exists added.
  - intros k s H. unfold schedule_row in *. cbn [train_schedules with_train_schedules].
    now apply find_some_app.
Qed.

(** X6.  For a route whose train is in the database, a window of
    [days_ahead] days from today that ends by [date.max] and a store that
    accepts the commit, after [create_schedules_for_route] each date of
    the window has a schedule of the route, and each row that was added
    has its counter at [total_seats] of the train. *)
Theorem create_schedules_covers_window (w : World) (db : Database) (route_id days_ahead : Z)
    (route : Route.t) (train : Train.t) :
  find (fun r => Route.id r =? route_id) (routes db) = Some route ->
  find (fun t => Train.id t =? Route.train_id route) (trains db) = Some train ->
  commit_succeeds w = true ->
  date_min <= today w ->
  today w + days_ahead - 1 <= date_max ->
  let db' := snd (get_db w (RouteService.create_schedules_for_route route_id days_ahead) db) in
  (forall i, 0 <= i < days_ahead -> has_schedule db' route_id (today w + i))
  /\ exists added,
       train_schedules db' = train_schedules db ++ added
       /\ Forall (fun x => TrainSchedule.available_seats x = Train.total_seats train
                           /\ TrainSchedule.route_id x = route_id) added.
Proof.
  intros Hr Ht Hc Hd1 Hd2. cbv zeta.
  destruct (create_schedules_request w db route_id days_ahead)
    as [added [E [Hall [_ Hcov]]]].
  rewrite E. cbn [train_schedules with_train_schedules]. split.
  - intros i Hi. unfold has_schedule. cbn [train_schedules with_train_schedules].
    exact (Hcov route train Hr Ht Hc (days_representable w days_ahead Hd1 Hd2) i Hi).
  - exists added. split; [reflexivity|]. eapply Forall_impl; [|exact Hall]. cbn.
    intros x [H1 [_ [route' [train' [Hr' [Ht' Ha]]]]]].
    rewrite Hr in Hr'. injection Hr' as <-. rewrite Ht in Ht'. injection Ht' as <-.
    tauto.
Qed.

Lemma create_schedules_covers_window_witness :
  let db' := snd (get_db Scenario.fair (RouteService.create_schedules_for_route 7 3)
                    Scenario.fifty_seats) in
  (forall i, 0 <= i < 3 -> has_schedule db' 7 (today Scenario.fair + i))
  /\ exists added,
       train_schedules db' = train_schedules Scenario.fifty_seats ++ added
       /\ Forall (fun x => TrainSchedule.available_seats x
                             = Train.total_seats (Train.mk 1 50)
                           /\ TrainSchedule.route_id x = 7) added.
Proof.
  apply (create_schedules_covers_window Scenario.fair Scenario.fifty_seats 7 3
           (Route.mk 7 1 1200 12550) (Train.mk 1 50));
    try reflexivity; vm_compute; discriminate.
Defined.

(** A date of the window that has its schedule adds nothing. *)
Lemma schedule_day_loop_covered (w : World) (route_id : Z) (route : Route.t) (l : list Z)
    (s : Session) :
  (forall i, In i l -> day_representable w i = true) ->
  (forall i, In i l ->
     exists x, In x (train_schedules (working s))
               /\ schedule_key x = (route_id, today w + i)) ->
  for_each l (RouteService.schedule_day w route_id route) s = (Ok tt, s).
Proof.
  induction l as [|i l IH]; intros Hd H; [reflexivity|].
  cbn [for_each]. unfold bind at 1. unfold RouteService.schedule_day at 1.
  pose proof (Hd i (or_introl eq_refl)) as Hi. unfold day_representable in Hi.
  apply andb_true_iff in Hi. destruct Hi as [Hi1 Hi2].
  unfold bind at 1, timedelta. rewrite Hi1.
  unfold ret at 1. unfold bind at 1, date_add. rewrite Hi2.
  unfold ret at 1. unfold bind at 1, query_first at 1.
  destruct (find _ (train_schedules (working s))) as [e|] eqn:He.
  - unfold ret at 1. apply IH; [intros j Hj; apply Hd; now right|].
    intros j Hj. apply H. now right.
  - exfalso. destruct (H i (or_introl eq_refl)) as [x [Hin Hk]].
    pose proof (find_none _ _ He x Hin) as Hf. cbn in Hf.
    unfold schedule_key in Hk. injection Hk as H1 H2.
    now rewrite H1, H2, !Z.eqb_refl in Hf.
Qed.

(** X7.  [create_schedules_for_route] is idempotent: once a call has been
    committed, a second call for the same route and number of days on the
    same day (the window ending by [date.max]) leaves the database as the
    first one left it. *)
Theorem create_schedules_idempotent (w w2 : World) (db : Database)
    (route_id days_ahead : Z) :
  commit_succeeds w = true ->
  today w2 = today w ->
  date_min <= today w ->
  today w + days_ahead - 1 <= date_max ->
  let db1 := snd (get_db w (RouteService.create_schedules_for_route route_id days_ahead) db) in
  snd (get_db w2 (RouteService.create_schedules_for_route route_id days_ahead) db1) = db1.
Proof.
  intros Hc Hd Hd1 Hd2. cbv zeta.
  pose proof (days_representable w days_ahead Hd1 Hd2) as Hdays.
  destruct (create_schedules_request w db route_id days_ahead)
    as [added [E [Hall [_ Hcov]]]].
  rewrite E. set (db1 := with_train_schedules (train_schedules db ++ added) db).
  destruct (find (fun r => Route.id r =? route_id) (routes db)) as [route|] eqn:Hr;
    [destruct (find (fun t => Train.id t =? Route.train_id route) (trains db))
       as [train|] eqn:Ht|].
  - (* the window is covered *)
    unfold get_db, RouteService.create_schedules_for_route.
    unfold bind at 1, query_first at 1. cbn [working].
    change (routes db1) with (routes db). rewrite Hr.
    unfold bind at 1, the_world at 1. cbn [world]. unfold bind at 1.
    rewrite schedule_day_loop_covered.
    + unfold commit. cbn [world durable working]. now destruct (commit_succeeds w2).
    + intros i Hi. apply in_range in Hi. unfold day_representable. rewrite Hd.
      exact (Hdays i Hi).
    + intros i Hi. apply in_range in Hi. rewrite Hd. cbn [working].
      exact (Hcov route train eq_refl Ht Hc Hdays i Hi).
  - (* no train: nothing was added and nothing is *)
    assert (added = []) as ->.
    { destruct added as [|x ?]; [reflexivity|]. inversion Hall as [|? ? Hx _]; subst.
      destruct Hx as [_ [_ [route' [train' [Hr' [Ht' _]]]]]].
      injection Hr' as <-. rewrite Ht in Ht'. discriminate. }
    subst db1. rewrite with_train_schedules_same.
    destruct (create_schedules_request w2 db route_id days_ahead) as [added2 [E2 [Hall2 _]]].
    rewrite E2. assert (added2 = []) as ->; [|apply with_train_schedules_same].
    destruct added2 as [|x ?]; [reflexivity|]. inversion Hall2 as [|? ? Hx _]; subst.
    destruct Hx as [_ [_ [route' [train' [Hr' [Ht' _]]]]]].
    rewrite Hr in Hr'. injection Hr' as <-. rewrite Ht in Ht'. discriminate.
  - (* no route *)
    assert (added = []) as ->.
    { destruct added as [|x ?]; [reflexivity|]. inversion Hall as [|? ? Hx _]; subst.
      destruct Hx as [_ [_ [route' [train' [Hr' _]]]]]. discriminate. }
    subst db1. rewrite with_train_schedules_same.
    destruct (create_schedules_request w2 db route_id days_ahead) as [added2 [E2 [Hall2 _]]].
    rewrite E2. assert (added2 = []) as ->; [|apply with_train_schedules_same].
    destruct added2 as [|x ?]; [reflexivity|]. inversion Hall2 as [|? ? Hx _]; subst.
    destruct Hx as [_ [_ [route' [train' [Hr' _]]]]].
    rewrite Hr in Hr'. discriminate.
Qed.

Lemma create_schedules_idempotent_witness :
  let db1 := snd (get_db Scenario.fair (RouteService.create_schedules_for_route 7 3)
                    Scenario.fifty_seats) in
  snd (get_db Scenario.fair (RouteService.create_schedules_for_route 7 3) db1) = db1.
Proof.
  apply (create_schedules_idempotent Scenario.fair Scenario.fair Scenario.fifty_seats 7 3);
    try reflexivity; vm_compute; discriminate.
Defined.

(** X8.  One schedule per route and date: when no two rows of
    [train_schedules] are for the same route on the same date, this still
    holds after [create_schedules_for_route]. *)
Theorem create_schedules_one_per_day (w : World) (db : Database) (route_id days_ahead : Z) :
  NoDup (map schedule_key (train_schedules db)) ->
  NoDup (map schedule_key
           (train_schedules
              (snd (get_db w (RouteService.create_schedules_for_route route_id days_ahead)
                      db)))).
Proof.
  intros ND.
  destruct (create_schedules_request w db route_id days_ahead) as [added [E [_ [Hnd _]]]].
  rewrite E. cbn [train_schedules with_train_schedules]. now apply Hnd.
Qed.

Lemma create_schedules_one_per_day_witness :
  NoDup (map schedule_key
           (train_schedules
              (snd (get_db Scenario.fair (RouteService.create_schedules_for_route 7 3)
                      Scenario.fifty_seats)))).
Proof.
  apply (create_schedules_one_per_day Scenario.fair Scenario.fifty_seats 7 3).
  repeat constructor. intros [].
Defined.

(** ** Looking a booking up *)

Lemma find_fresh_row_none {R} (pk : R -> Z) (p : R -> bool) (l : list R) (k : Z) :
  k = autoincrement (map pk l) ->
  find (fun r => (pk r =? k) && p r) l = None.
Proof.
  intros Hk. destruct (find _ l) as [y|] eqn:E; [|reflexivity].
  apply find_some in E. destruct E as [Hin E]. apply andb_true_iff in E.
  destruct E as [E _]. apply Z.eqb_eq in E.
  exfalso. apply (autoincrement_fresh (map pk l)). rewrite <- Hk, <- E. now apply in_map.
Qed.

(** X9.  A booking can be read back by the user who made it and by nobody
    else: after a reserve request of user [u] has returned [b],
    [get_booking] with the id of [b] answers [b] to [u] and 404 to every
    other user, and [get_my_bookings] of [u] has one more entry, [b]. *)
Theorem get_booking_after_create (w w' : World) (db db1 : Database)
    (booking : BookingCreate) (u : Z) (b : Booking.t) :
  get_db w (api.create_booking booking u) db = (Ok b, db1) ->
  get_db w' (BookingQueries.get_booking (Booking.id b) u) db1 = (Ok b, db1)
  /\ (forall v, v <> u ->
        get_db w' (BookingQueries.get_booking (Booking.id b) v) db1
        = (Raise (HTTPException 404 "Booking not found"), db1))
  /\ fst (get_db w' (BookingQueries.get_my_bookings u) db1)
     = match fst (get_db w' (BookingQueries.get_my_bookings u) db) with
       | Ok l => Ok (l ++ [b])
       | Raise e => Raise e
       end.
Proof.
  rewrite create_booking_request.
  destruct (schedule_row db (schedule_id booking)) as [schedule|]; [|discriminate].
  destruct (TrainSchedule.available_seats schedule <? len (passengers booking));
    [discriminate|].
  destruct (find _ (routes db)) as [route|]; [|discriminate].
  destruct (journey_representable schedule route); [|discriminate].
  destruct (flush_succeeds w && commit_succeeds w); [|discriminate].
  intros H. injection H as <- <-.
  set (b := new_booking w db booking u schedule route).
  assert (Hb : bookings (booked db booking schedule b) = bookings db ++ [b])
    by apply bookings_booked.
  assert (Hn : forall v,
    find (fun r => (Booking.id r =? Booking.id b) && (Booking.user_id r =? v)) (bookings db)
    = None) by (intros v; now apply find_fresh_row_none).
  unfold get_db, BookingQueries.get_booking, BookingQueries.get_booking_by_id,
    BookingQueries.get_my_bookings, BookingQueries.get_user_bookings.
  unfold bind, query_first, query_all. cbn [working fst]. rewrite Hb. repeat split.
  - rewrite find_none_app by apply Hn. cbn [Booking.id Booking.user_id b new_booking].
    now rewrite !Z.eqb_refl.
  - intros v Hv. rewrite find_none_app by apply Hn.
    cbn [Booking.id Booking.user_id b new_booking]. rewrite Z.eqb_refl.
    destruct (Z.eqb_spec u v) as [E|_]; [congruence|reflexivity].
  - rewrite filter_app. cbn [filter Booking.user_id b new_booking].
    now rewrite Z.eqb_refl.
Qed.

Lemma get_booking_after_create_witness :
  let b := Scenario.first_booking in
  get_db Scenario.fair (BookingQueries.get_booking (Booking.id b) 9)
    Scenario.forty_seven_free = (Ok b, Scenario.forty_seven_free)
  /\ (forall v, v <> 9 ->
        get_db Scenario.fair (BookingQueries.get_booking (Booking.id b) v)
          Scenario.forty_seven_free
        = (Raise (HTTPException 404 "Booking not found"), Scenario.forty_seven_free))
  /\ fst (get_db Scenario.fair (BookingQueries.get_my_bookings 9) Scenario.forty_seven_free)
     = match fst (get_db Scenario.fair (BookingQueries.get_my_bookings 9)
                    Scenario.fifty_seats) with
       | Ok l => Ok (l ++ [b])
       | Raise e => Raise e
       end.
Proof.
  intros b.
  apply (get_booking_after_create Scenario.fair Scenario.fair Scenario.fifty_seats
           Scenario.forty_seven_free (Scenario.seats 3) 9 b).
  reflexivity.
Defined.
(** ** Payments *)

(** X10.  A payment request changes nothing or records exactly one
    completed payment: when [process_payment] raises, the committed
    database is the one before; when it returns, [payments] has one more
    row, the returned one, with status completed.  In neither case does it
    change a booking or a schedule. *)
Theorem process_payment_all_or_nothing (w : World) (db : Database)
    (payment_data : PaymentCreate) (payer : Z) :
  match get_db w (payments.process_payment payment_data payer) db with
  | (Raise _, db') => db' = db
  | (Ok p, db') =>
      payments db' = payments db ++ [p]
      /\ Payment.status p = payment_completed
      /\ bookings db' = bookings db
      /\ train_schedules db' = train_schedules db
  end.
Proof.
  rewrite process_payment_request.
  destruct (find _ (bookings db)) as [b|]; [|reflexivity].
  destruct (find _ (payments db)); [reflexivity|].
  destruct (charged payment_data payer b db) as [e|db1] eqn:E; [reflexivity|].
  destruct (commit_succeeds w); [|reflexivity].
  destruct (charged_tables _ _ _ _ _ E) as [Hp [Hb Hs]].
  cbn [payments bookings train_schedules with_payments]. rewrite Hp, Hb, Hs.
  now repeat split.
Qed.

(** X11.  A booking is paid once: after [process_payment] has returned for
    a booking, every further payment request of the same user for that
    booking, by whatever method, is refused with "Payment already processed
    for this booking" and changes nothing. *)
Theorem second_payment_refused (w w' : World) (db db1 : Database)
    (payment_data payment_data' : PaymentCreate) (payer : Z) (p : Payment.t) :
  get_db w (payments.process_payment payment_data payer) db = (Ok p, db1) ->
  pay_booking_id payment_data' = pay_booking_id payment_data ->
  get_db w' (payments.process_payment payment_data' payer) db1 =
  (Raise (HTTPException 400 "Payment already processed for this booking"), db1).
Proof.
  rewrite process_payment_request. intros H Hid.
  destruct (find _ (bookings db)) as [b|] eqn:Hb; [|discriminate].
  destruct (find _ (payments db)) eqn:Hp; [discriminate|].
  destruct (charged payment_data payer b db) as [e|db2] eqn:E; [discriminate|].
  destruct (commit_succeeds w); [|discriminate].
  injection H as <- <-.
  destruct (charged_tables _ _ _ _ _ E) as [Hp2 [Hb2 _]].
  rewrite process_payment_request. cbn [bookings payments with_payments].
  rewrite Hid, Hb2, Hb, Hp2, find_none_app by exact Hp.
  cbn [Payment.booking_id payment_row]. now rewrite Z.eqb_refl.
Qed.

Lemma second_payment_refused_witness :
  let pay := {| pay_booking_id := 1; pay_payment_method := WALLET;
                card_id := None; upi_id := None |} in
  let paid := snd (get_db Scenario.fair (payments.process_payment pay 9)
                     Scenario.forty_seven_free) in
  get_db Scenario.fair
    (payments.process_payment {| pay_booking_id := 1; pay_payment_method := DEBIT_CARD;
                                 card_id := None; upi_id := None |} 9) paid =
  (Raise (HTTPException 400 "Payment already processed for this booking"), paid).
Proof.
  intros pay paid.
  apply (second_payment_refused Scenario.fair Scenario.fair Scenario.forty_seven_free paid
           pay _ 9
           (Payment.mk 1 1 9 37650 WALLET payment_completed
              "0b6c5e0e-7f43-4c57-9a57-2f0a3c1f9d11")).
  - vm_compute. reflexivity.
  - reflexivity.
Defined.

(** X12.  A payment is only taken from a balance that covers it: when
    [process_payment] returns for a wallet, card or UPI payment, the
    balance of the instrument was at least the amount of the payment, and
    is now smaller by that amount (and so not negative). *)
Theorem payment_within_balance (w : World) (db db' : Database)
    (payment_data : PaymentCreate) (payer : Z) (p : Payment.t) :
  get_db w (payments.process_payment payment_data payer) db = (Ok p, db') ->
  pay_payment_method payment_data <> DEBIT_CARD ->
  exists old,
    instrument_balance payment_data payer db = Some old
    /\ Payment.amount p <= old
    /\ instrument_balance payment_data payer db' = Some (old - Payment.amount p).
Proof.
  rewrite process_payment_request. intros H M.
  destruct (find _ (bookings db)) as [b|] eqn:Hb; [|discriminate].
  destruct (find _ (payments db)) eqn:Hp; [discriminate|].
  destruct (charged payment_data payer b db) as [e|db2] eqn:E; [discriminate|].
  destruct (commit_succeeds w); [|discriminate].
  injection H as <- <-. cbn [Payment.amount payment_row].
  unfold charged in E. unfold instrument_balance.
  destruct (pay_payment_method payment_data); [| congruence | |].
  - destruct (given (card_id payment_data)) as [cid|]; [|discriminate].
    destruct (find _ (credit_cards db)) as [card|] eqn:Hc; [|discriminate].
    destruct (negb (CreditCard.is_active card)); [discriminate|].
    destruct (Z.ltb_spec (CreditCard.balance card) (Booking.total_amount b));
      [discriminate|].
    injection E as <-. exists (CreditCard.balance card). repeat split; [assumption|].
    cbn [credit_cards with_payments with_card_transactions with_credit_cards].
    erewrite (find_update_row_pred CreditCard.id _ card);
      [reflexivity|exact Hc|reflexivity|].
    apply find_some in Hc. exact (proj2 Hc).
  - destruct (find _ (wallets db)) as [wallet|] eqn:Hw; [|discriminate].
    destruct (Z.ltb_spec (Wallet.balance wallet) (Booking.total_amount b)); [discriminate|].
    injection E as <-. exists (Wallet.balance wallet). repeat split; [assumption|].
    cbn [wallets with_payments with_wallet_transactions with_wallets].
    erewrite (find_update_row_pred Wallet.id _ wallet);
      [reflexivity|exact Hw|reflexivity|].
    apply find_some in Hw. exact (proj2 Hw).
  - destruct (given (upi_id payment_data)) as [uid|]; [|discriminate].
    destruct (find _ (upi_ids db)) as [upi|] eqn:Hu; [|discriminate].
    destruct (negb (UpiId.is_active upi)); [discriminate|].
    destruct (Z.ltb_spec (UpiId.balance upi) (Booking.total_amount b)); [discriminate|].
    injection E as <-. exists (UpiId.balance upi). repeat split; [assumption|].
    cbn [upi_ids with_payments with_upi_transactions with_upi_ids].
    erewrite (find_update_row_pred UpiId.id _ upi);
      [reflexivity|exact Hu|reflexivity|].
    apply find_some in Hu. exact (proj2 Hu).
Qed.

Lemma payment_within_balance_witness :
  let pay := {| pay_booking_id := 1; pay_payment_method := WALLET;
                card_id := None; upi_id := None |} in
  let p := Payment.mk 1 1 9 37650 WALLET payment_completed
             "0b6c5e0e-7f43-4c57-9a57-2f0a3c1f9d11" in
  let paid := snd (get_db Scenario.fair (payments.process_payment pay 9)
                     Scenario.forty_seven_free) in
  exists old,
    instrument_balance pay 9 Scenario.forty_seven_free = Some old
    /\ Payment.amount p <= old
    /\ instrument_balance pay 9 paid = Some (old - Payment.amount p).
Proof.
  intros pay p paid.
  apply (payment_within_balance Scenario.fair Scenario.forty_seven_free paid pay 9 p).
  - vm_compute. reflexivity.
  - discriminate.
Defined.

(** X13.  [process_payment] does not look at the status of the booking
    and has no branch for [DEBIT_CARD]: for a booking of the user in any
    status, cancelled included, that has no payment yet, a [DEBIT_CARD]
    request on a store that accepts the commit returns a payment with
    status completed for the whole [total_amount], and no wallet, card or
    UPI balance changes and no transaction is recorded. *)
Theorem debit_card_completes_without_debit (w : World) (db : Database)
    (payment_data : PaymentCreate) (payer : Z) (b : Booking.t) :
  find (fun r => (Booking.id r =? pay_booking_id payment_data)
                 && (Booking.user_id r =? payer)) (bookings db) = Some b ->
  find (fun p => Payment.booking_id p =? Booking.id b) (payments db) = None ->
  pay_payment_method payment_data = DEBIT_CARD ->
  commit_succeeds w = true ->
  exists p db',
    get_db w (payments.process_payment payment_data payer) db = (Ok p, db')
    /\ Payment.status p = payment_completed
    /\ Payment.amount p = Booking.total_amount b
    /\ wallets db' = wallets db /\ credit_cards db' = credit_cards db
    /\ upi_ids db' = upi_ids db
    /\ wallet_transactions db' = wallet_transactions db
    /\ card_transactions db' = card_transactions db
    /\ upi_transactions db' = upi_transactions db.
Proof.
  intros Hb Hp M Hc. rewrite process_payment_request, Hb, Hp.
  unfold charged. rewrite M, Hc. eexists. eexists. split; [reflexivity|].
  now repeat split.
Qed.

Lemma debit_card_completes_without_debit_witness :
  let cancelled_db :=
    snd (get_db Scenario.fair (api.cancel_booking_with_refund 1 9)
           Scenario.forty_seven_free) in
  let pay := {| pay_booking_id := 1; pay_payment_method := DEBIT_CARD;
                card_id := None; upi_id := None |} in
  let b := Booking.mk 1 9 3 "AB12CD34" 3 37650 cancelled 100 102 in
  exists p db',
    get_db Scenario.fair (payments.process_payment pay 9) cancelled_db = (Ok p, db')
    /\ Payment.status p = payment_completed
    /\ Payment.amount p = Booking.total_amount b
    /\ wallets db' = wallets cancelled_db /\ credit_cards db' = credit_cards cancelled_db
    /\ upi_ids db' = upi_ids cancelled_db
    /\ wallet_transactions db' = wallet_transactions cancelled_db
    /\ card_transactions db' = card_transactions cancelled_db
    /\ upi_transactions db' = upi_transactions cancelled_db.
Proof.
  intros cancelled_db pay b.
  apply (debit_card_completes_without_debit Scenario.fair cancelled_db pay 9 b);
    vm_compute; reflexivity.
Defined.

(** ** Cards, wallet and UPI ids *)

Lemma delete_credit_card_request (w : World) (db : Database) (cid u : Z) :
  get_db w (instruments.delete_credit_card cid u) db =
  match find (fun c => (CreditCard.id c =? cid) && (CreditCard.user_id c =? u))
          (credit_cards db) with
  | None => (Raise (HTTPException 404 "Credit card not found"), db)
  | Some card =>
      if commit_succeeds w
      then (Ok "Credit card deleted successfully",
            with_credit_cards
              (update_row CreditCard.id
                 (CreditCard.mk (CreditCard.id card) (CreditCard.user_id card)
                    (CreditCard.balance card) false)
                 (credit_cards db)) db)
      else (Raise SQLAlchemyError, db)
  end.
Proof.
  unfold get_db, instruments.delete_credit_card.
  unfold bind at 1, query_first at 1. cbn [working].
  destruct (find _ (credit_cards db)) as [card|]; [|reflexivity].
  unfold bind, save_card, modify, commit. cbn [world durable working].
  destruct (commit_succeeds w); reflexivity.
Qed.



Lemma in_update_row {R} (pk : R -> Z) (obj x : R) (rows : list R) :
  In x (update_row pk obj rows) -> x = obj \/ (In x rows /\ pk x <> pk obj).
Proof.
  unfold update_row. rewrite in_map_iff. intros [r [H Hin]].
  destruct (Z.eqb_spec (pk r) (pk obj)) as [E|N]; [now left|]. subst x. now right.
Qed.

(** X14.  A deleted card cannot pay and is no longer listed: after
    [delete_credit_card] has returned, [get_credit_cards] of the owner has
    no card with that id, and a [CREDIT_CARD] payment request that names
    the card, for a booking of the owner that has no payment, is refused
    with 404 "Credit card not found" and changes nothing. *)
Theorem deleted_card_cannot_pay (w w' : World) (db db1 : Database) (cid u : Z)
    (msg : string) (payment_data : PaymentCreate) (b : Booking.t) :
  get_db w (instruments.delete_credit_card cid u) db = (Ok msg, db1) ->
  find (fun r => (Booking.id r =? pay_booking_id payment_data)
                 && (Booking.user_id r =? u)) (bookings db1) = Some b ->
  find (fun p => Payment.booking_id p =? Booking.id b) (payments db1) = None ->
  pay_payment_method payment_data = CREDIT_CARD ->
  given (card_id payment_data) = Some cid ->
  get_db w' (payments.process_payment payment_data u) db1
    = (Raise (HTTPException 404 "Credit card not found"), db1)
  /\ forall cards,
       fst (get_db w' (instruments.get_credit_cards u) db1) = Ok cards ->
       ~ In cid (map CreditCard.id cards).
Proof.
  rewrite delete_credit_card_request.
  destruct (find _ (credit_cards db)) as [card|] eqn:Hc; [|discriminate].
  destruct (commit_succeeds w); [|discriminate].
  intros H Hb Hp M G. injection H as _ <-.
  pose proof (find_some _ _ Hc) as [_ Hcard]. apply andb_true_iff in Hcard.
  destruct Hcard as [Hid Hu]. apply Z.eqb_eq in Hid, Hu.
  set (card' := CreditCard.mk _ _ _ false) in *.
  split.
  - rewrite process_payment_request, Hb, Hp. unfold charged. rewrite M, G.
    cbn [credit_cards with_credit_cards].
    rewrite (find_update_row_pred CreditCard.id _ card card' _ Hc eq_refl).
    + reflexivity.
    + subst card'. cbn. now rewrite Hid, Hu, !Z.eqb_refl.
  - unfold get_db, instruments.get_credit_cards, query_all.
    cbn [fst working credit_cards with_credit_cards].
    intros cards H. injection H as <-. intros Hin.
    apply in_map_iff in Hin. destruct Hin as [x [Hx Hin]].
    apply filter_In in Hin. destruct Hin as [Hin Hact].
    apply andb_true_iff in Hact. destruct Hact as [_ Hact].
    apply in_update_row in Hin. destruct Hin as [->|[_ N]].
    + subst card'. discriminate.
    + apply N. subst card'. cbn. congruence.
Qed.

Lemma deleted_card_cannot_pay_witness :
  let db := with_credit_cards [CreditCard.mk 5 9 1000000 true] Scenario.forty_seven_free in
  let db1 := snd (get_db Scenario.fair (instruments.delete_credit_card 5 9) db) in
  let pay := {| pay_booking_id := 1; pay_payment_method := CREDIT_CARD;
                card_id := Some 5; upi_id := None |} in
  get_db Scenario.fair (payments.process_payment pay 9) db1
    = (Raise (HTTPException 404 "Credit card not found"), db1)
  /\ forall cards,
       fst (get_db Scenario.fair (instruments.get_credit_cards 9) db1) = Ok cards ->
       ~ In 5 (map CreditCard.id cards).
Proof.
  intros db db1 pay.
  apply (deleted_card_cannot_pay Scenario.fair Scenario.fair db db1 5 9
           "Credit card deleted successfully" pay
           Scenario.first_booking); vm_compute; reflexivity.
Defined.





Lemma get_wallet_request (w : World) (db : Database) (u : Z) :
  get_db w (instruments.get_wallet u) db =
  match find (fun x => Wallet.user_id x =? u) (wallets db) with
  | Some wallet => (Ok wallet, db)
  | None =>
      let wallet := Wallet.mk (autoincrement (map Wallet.id (wallets db))) u 0 in
      if commit_succeeds w
      then (Ok wallet, with_wallets (wallets db ++ [wallet]) db)
      else (Raise SQLAlchemyError, db)
  end.
Proof.
  unfold get_db, instruments.get_wallet.
  unfold bind at 1, query_first at 1. cbn [working].
  destruct (find _ (wallets db)); [reflexivity|].
  unfold bind at 1, add_wallet. cbn [world durable working Wallet.user_id Wallet.balance].
  unfold bind at 1, commit. cbn [world durable working].
  destruct (commit_succeeds w); [|reflexivity].
  unfold refresh_wallet, bind, query_first. cbn [world durable working wallets with_wallets].
  rewrite (find_by_fresh_id Wallet.id) by reflexivity. reflexivity.
Qed.

(** X17.  [get_wallet] creates the wallet of a user at most once: when it
    has returned a wallet, calling it again returns the same wallet and
    changes nothing. *)
Theorem get_wallet_idempotent (w w' : World) (db db1 : Database) (u : Z)
    (wallet : Wallet.t) :
  get_db w (instruments.get_wallet u) db = (Ok wallet, db1) ->
  get_db w' (instruments.get_wallet u) db1 = (Ok wallet, db1)
  /\ Wallet.user_id wallet = u.
Proof.
  rewrite get_wallet_request.
  destruct (find _ (wallets db)) as [x|] eqn:Hw.
  - intros H. injection H as <- <-. rewrite get_wallet_request, Hw.
    split; [reflexivity|]. apply find_some in Hw. now apply Z.eqb_eq.
  - cbv zeta. destruct (commit_succeeds w); [|discriminate].
    intros H. injection H as <- <-. rewrite get_wallet_request.
    cbn [wallets with_wallets]. rewrite find_none_app by exact Hw.
    cbn [Wallet.user_id]. now rewrite Z.eqb_refl.
Qed.

Lemma get_wallet_idempotent_witness :
  let wallet := Wallet.mk 2 4 0 in
  let db1 := with_wallets [Wallet.mk 1 9 100000; wallet] Scenario.fifty_seats in
  get_db Scenario.fair (instruments.get_wallet 4) db1 = (Ok wallet, db1)
  /\ Wallet.user_id wallet = 4.
Proof.
  intros wallet db1.
  apply (get_wallet_idempotent Scenario.fair Scenario.fair Scenario.fifty_seats db1 4 wallet).
  vm_compute. reflexivity.
Defined.

Lemma add_money_request (w : World) (db : Database) (amount u : Z) :
  get_db w (instruments.add_money_to_wallet amount u) db =
  let credit rows owner :=
    rows ++ [Transaction.mk (autoincrement (map Transaction.id rows)) owner "credit" amount
               "Money added to wallet" (uuid4 w)] in
  match find (fun x => Wallet.user_id x =? u) (wallets db) with
  | Some wallet =>
      if commit_succeeds w
      then
        let db1 := with_wallets
                     (update_row Wallet.id
                        (Wallet.set_balance (Wallet.balance wallet + amount) wallet)
                        (wallets db)) db in
        (Ok ("Money added successfully", Wallet.balance wallet + amount),
         with_wallet_transactions (credit (wallet_transactions db1) (Wallet.id wallet)) db1)
      else (Raise SQLAlchemyError, db)
  | None =>
      let wallet := Wallet.mk (autoincrement (map Wallet.id (wallets db))) u 0 in
      if flush_succeeds w && commit_succeeds w
      then
        let db1 := with_wallets
                     (update_row Wallet.id (Wallet.set_balance (0 + amount) wallet)
                        (wallets db ++ [wallet])) db in
        (Ok ("Money added successfully", 0 + amount),
         with_wallet_transactions (credit (wallet_transactions db1) (Wallet.id wallet)) db1)
      else (Raise SQLAlchemyError, db)
  end.
Proof.
  unfold get_db, instruments.add_money_to_wallet.
  unfold bind at 1, query_first at 1. cbn [working].
  destruct (find _ (wallets db)) as [wallet|].
  - unfold bind at 1, ret at 1.
    unfold bind, save_wallet, add_wallet_credit, modify, the_world, commit.
    cbn [world durable working]. destruct (commit_succeeds w); reflexivity.
  - unfold bind at 1. unfold bind at 1, add_wallet.
    cbn [world durable working Wallet.user_id Wallet.balance].
    unfold bind at 1, flush. cbn [world].
    destruct (flush_succeeds w); [|reflexivity]. unfold ret at 1.
    unfold bind, save_wallet, add_wallet_credit, modify, the_world, commit.
    cbn [world durable working andb]. destruct (commit_succeeds w); reflexivity.
Qed.

(** X18.  Money added for a booking pays for it.  The user has a wallet
    whose balance is not negative, or none, and a booking without payment
    whose [total_amount] is positive (the amount that [WalletAddMoney]
    admits).  After [add_money_to_wallet] with that amount, a
    [WALLET] payment for the booking returns (on a store that accepts the
    writes), and the balance of the wallet is the one before the two
    requests, 0 when there was no wallet. *)
Theorem add_money_then_pay (w1 w2 : World) (db : Database) (payment_data : PaymentCreate)
    (payer : Z) (b : Booking.t) :
  find (fun r => (Booking.id r =? pay_booking_id payment_data)
                 && (Booking.user_id r =? payer)) (bookings db) = Some b ->
  find (fun p => Payment.booking_id p =? Booking.id b) (payments db) = None ->
  pay_payment_method payment_data = WALLET ->
  0 < Booking.total_amount b ->
  match find (fun x => Wallet.user_id x =? payer) (wallets db) with
  | Some wallet => 0 <= Wallet.balance wallet
  | None => True
  end ->
  storage_ok w1 -> commit_succeeds w2 = true ->
  let db1 := snd (get_db w1 (instruments.add_money_to_wallet (Booking.total_amount b) payer)
                    db) in
  let paid := get_db w2 (payments.process_payment payment_data payer) db1 in
  (exists p, fst paid = Ok p /\ Payment.amount p = Booking.total_amount b)
  /\ option_map Wallet.balance
       (find (fun x => Wallet.user_id x =? payer) (wallets (snd paid)))
     = Some match find (fun x => Wallet.user_id x =? payer) (wallets db) with
            | Some wallet => Wallet.balance wallet
            | None => 0
            end.
Proof.
  intros Hb Hp M Hpos Hbal [Hf Hc] Hc2. cbv zeta.
  rewrite add_money_request. cbv zeta. rewrite Hf, Hc. cbn [andb].
  destruct (find (fun x => Wallet.user_id x =? payer) (wallets db)) as [wallet|] eqn:Hw.
  - pose proof (find_some _ _ Hw) as [_ Hu].
    cbn [snd]. rewrite process_payment_request.
    cbn [bookings payments with_wallet_transactions with_wallets]. rewrite Hb, Hp.
    unfold charged. rewrite M. cbn [wallets with_wallet_transactions with_wallets].
    erewrite (find_update_row_pred Wallet.id _ wallet); [|exact Hw|reflexivity|exact Hu].
    cbn [Wallet.balance Wallet.set_balance].
    destruct (Z.ltb_spec (Wallet.balance wallet + Booking.total_amount b)
                (Booking.total_amount b)); [lia|].
    rewrite Hc2. cbn [fst snd]. split; [eexists; split; reflexivity|].
    cbn [wallets with_payments with_wallet_transactions with_wallets].
    rewrite (find_update_row_pred Wallet.id (fun x => Wallet.user_id x =? payer)
               (Wallet.set_balance (Wallet.balance wallet + Booking.total_amount b) wallet)).
    + cbn. f_equal. lia.
    + apply (find_update_row_pred Wallet.id _ wallet); [exact Hw|reflexivity|exact Hu].
    + reflexivity.
    + exact Hu.
  - set (wallet := Wallet.mk (autoincrement (map Wallet.id (wallets db))) payer 0).
    assert (Hw1 : find (fun x => Wallet.user_id x =? payer) (wallets db ++ [wallet])
                  = Some wallet).
    { rewrite find_none_app by exact Hw. cbn. now rewrite Z.eqb_refl. }
    assert (Hu : (Wallet.user_id wallet =? payer) = true) by (cbn; apply Z.eqb_refl).
    cbn [snd]. rewrite process_payment_request.
    cbn [bookings payments with_wallet_transactions with_wallets]. rewrite Hb, Hp.
    unfold charged. rewrite M. cbn [wallets with_wallet_transactions with_wallets].
    erewrite (find_update_row_pred Wallet.id _ wallet); [|exact Hw1|reflexivity|exact Hu].
    cbn [Wallet.balance Wallet.set_balance].
    destruct (Z.ltb_spec (0 + Booking.total_amount b) (Booking.total_amount b)); [lia|].
    rewrite Hc2. cbn [fst snd]. split; [eexists; split; reflexivity|].
    cbn [wallets with_payments with_wallet_transactions with_wallets].
    rewrite (find_update_row_pred Wallet.id (fun x => Wallet.user_id x =? payer)
               (Wallet.set_balance (0 + Booking.total_amount b) wallet)).
    + cbn. f_equal. lia.
    + apply (find_update_row_pred Wallet.id _ wallet); [exact Hw1|reflexivity|exact Hu].
    + reflexivity.
    + exact Hu.
Qed.

Lemma add_money_then_pay_witness :
  let pay := {| pay_booking_id := 1; pay_payment_method := WALLET;
                card_id := None; upi_id := None |} in
  let b := Scenario.first_booking in
  let db1 := snd (get_db Scenario.fair
                    (instruments.add_money_to_wallet (Booking.total_amount b) 9)
                    Scenario.forty_seven_free) in
  let paid := get_db Scenario.fair (payments.process_payment pay 9) db1 in
  (exists p, fst paid = Ok p /\ Payment.amount p = Booking.total_amount b)
  /\ option_map Wallet.balance
       (find (fun x => Wallet.user_id x =? 9) (wallets (snd paid)))
     = Some match find (fun x => Wallet.user_id x =? 9)
                   (wallets Scenario.forty_seven_free) with
            | Some wallet => Wallet.balance wallet
            | None => 0
            end.
Proof.
  intros pay b.
  apply (add_money_then_pay Scenario.fair Scenario.fair Scenario.forty_seven_free pay 9 b).
  - reflexivity.
  - reflexivity.
  - reflexivity.
  - reflexivity.
  - vm_compute. discriminate.
  - split; reflexivity.
  - reflexivity.
Defined.

(** ** The cancellation of the repository *)

Lemma cancel_with_seat_release_request (w : World) (db : Database) (booking_id u : Z) :
  get_db w (BookingRepository.cancel_booking_with_seat_release booking_id u) db =
  match find (fun b => (Booking.id b =? booking_id) && (Booking.user_id b =? u)
                       && BookingStatus_eqb (Booking.status b) confirmed) (bookings db) with
  | None => (Ok None, db)
  | Some b =>
      match schedule_row db (Booking.schedule_id b) with
      | None => (Raise SQLAlchemyError, db)
      | Some schedule =>
          if commit_succeeds w
          then (Raise SQLAlchemyError,
                with_train_schedules
                  (update_row TrainSchedule.id
                     (TrainSchedule.set_available_seats
                        (TrainSchedule.available_seats schedule + Booking.passenger_count b)
                        schedule) (train_schedules db))
                  (with_bookings
                     (update_row Booking.id (Booking.set_status cancelled b) (bookings db))
                     db))
          else (Raise SQLAlchemyError, db)
      end
  end.
Proof.
  unfold get_db, BookingRepository.cancel_booking_with_seat_release,
    BookingRepository.begin, BookingRepository.select_for_update, try_except, schedule_row.
  unfold bind at 1, query_first at 1. cbn [working].
  destruct (find _ (bookings db)) as [b|] eqn:Hb; [|reflexivity].
  unfold bind at 1, query_first at 1. cbn [working].
  destruct (find _ (train_schedules db)) as [schedule|]; [|reflexivity].
  unfold bind at 1, save_booking, modify at 1. cbn [world durable working].
  unfold bind at 1, save_schedule, modify at 1. cbn [world durable working].
  unfold bind at 1, commit. cbn [world durable working].
  destruct (commit_succeeds w); reflexivity.
Qed.

Lemma find_booking_by_id_key (rows : list Booking.t) (b : Booking.t) :
  NoDup (map Booking.id rows) -> In b rows ->
  find (fun r => Booking.id r =? Booking.id b) rows = Some b.
Proof.
  induction rows as [|r rows IH]; cbn [map In find]; [tauto|].
  intros ND [->|Hin].
  - now rewrite Z.eqb_refl.
  - inversion ND as [|? ? Hr ND']; subst.
    destruct (Z.eqb_spec (Booking.id r) (Booking.id b)) as [E|_].
    + exfalso. apply Hr. rewrite E. now apply in_map.
    + now apply IH.
Qed.

(** X19.  [cancel_booking_with_seat_release] run twice on a confirmed
    booking by its owner (booking ids are a primary key, the row of the
    schedule exists and the store accepts the first commit): the first call
    commits the cancellation, which gives the seats back, and then raises
    at its [refresh]; the second returns [None], without an exception, and
    changes nothing.  Neither call files a refund request. *)
Theorem seat_release_twice (w1 w2 : World) (db : Database) (b : Booking.t)
    (schedule : TrainSchedule.t) :
  bookings_key db ->
  In b (bookings db) ->
  Booking.status b = confirmed ->
  schedule_row db (Booking.schedule_id b) = Some schedule ->
  commit_succeeds w1 = true ->
  let first :=
    get_db w1 (BookingRepository.cancel_booking_with_seat_release
                 (Booking.id b) (Booking.user_id b)) db in
  let second :=
    get_db w2 (BookingRepository.cancel_booking_with_seat_release
                 (Booking.id b) (Booking.user_id b)) (snd first) in
  fst first = Raise SQLAlchemyError
  /\ find (fun r => Booking.id r =? Booking.id b) (bookings (snd first))
     = Some (Booking.set_status cancelled b)
  /\ available_seats_of (snd first) (Booking.schedule_id b)
     = Some (TrainSchedule.available_seats schedule + Booking.passenger_count b)
  /\ second = (Ok None, snd first)
  /\ refund_requests (snd first) = refund_requests db.
Proof.
  intros K Hin Hst Hs Hc first second.
  assert (Hfind :
    find (fun r => (Booking.id r =? Booking.id b) && (Booking.user_id r =? Booking.user_id b)
                   && BookingStatus_eqb (Booking.status r) confirmed) (bookings db) = Some b).
  { clear first second. revert K Hin. unfold bookings_key.
    induction (bookings db) as [|r rows IH]; cbn [map In find]; [tauto|].
    intros ND [->|Hin'].
    - now rewrite !Z.eqb_refl, Hst.
    - inversion ND as [|? ? Hr ND']; subst.
      destruct (Z.eqb_spec (Booking.id r) (Booking.id b)) as [E|_]; cbn [andb].
      + exfalso. apply Hr. rewrite E. now apply in_map.
      + now apply IH. }
  assert (E1 : first =
    (Raise SQLAlchemyError,
     with_train_schedules
       (update_row TrainSchedule.id
          (TrainSchedule.set_available_seats
             (TrainSchedule.available_seats schedule + Booking.passenger_count b) schedule)
          (train_schedules db))
       (with_bookings
          (update_row Booking.id (Booking.set_status cancelled b) (bookings db)) db))).
  { unfold first. now rewrite cancel_with_seat_release_request, Hfind, Hs, Hc. }
  clearbody first. subst first. cbn [fst snd] in *. repeat split.
  - cbn [bookings with_train_schedules with_bookings].
    rewrite (find_update_row Booking.id).
    rewrite (find_booking_by_id_key (bookings db) b K Hin).
    cbn [Booking.id Booking.set_status]. now rewrite Z.eqb_refl.
  - unfold available_seats_of, schedule_row. cbn [train_schedules with_train_schedules
      with_bookings].
    rewrite (find_update_row TrainSchedule.id). unfold schedule_row in Hs. rewrite Hs.
    cbn [TrainSchedule.id TrainSchedule.set_available_seats].
    rewrite (schedule_row_id db _ _ Hs), Z.eqb_refl. reflexivity.
  - unfold second. rewrite cancel_with_seat_release_request.
    cbn [bookings with_train_schedules with_bookings].
    assert (Hnone :
      find (fun r => (Booking.id r =? Booking.id b)
                     && (Booking.user_id r =? Booking.user_id b)
                     && BookingStatus_eqb (Booking.status r) confirmed)
        (update_row Booking.id (Booking.set_status cancelled b) (bookings db)) = None).
    { destruct (find _ (update_row _ _ _)) as [y|] eqn:E; [|reflexivity].
      apply find_some in E. destruct E as [Hy E].
      apply andb_true_iff in E. destruct E as [E Hconf].
      apply andb_true_iff in E. destruct E as [Eid _]. apply Z.eqb_eq in Eid.
      apply in_update_row in Hy. destruct Hy as [->|[_ N]].
      - discriminate.
      - exfalso. apply N. exact Eid. }
    now rewrite Hnone.
Qed.

Lemma seat_release_twice_witness :
  let b := Scenario.first_booking in
  let first :=
    get_db Scenario.fair (BookingRepository.cancel_booking_with_seat_release
                            (Booking.id b) (Booking.user_id b))
      Scenario.forty_seven_free in
  let second :=
    get_db Scenario.fair (BookingRepository.cancel_booking_with_seat_release
                            (Booking.id b) (Booking.user_id b)) (snd first) in
  fst first = Raise SQLAlchemyError
  /\ find (fun r => Booking.id r =? Booking.id b) (bookings (snd first))
     = Some (Booking.set_status cancelled b)
  /\ available_seats_of (snd first) (Booking.schedule_id b)
     = Some (TrainSchedule.available_seats (TrainSchedule.mk 3 7 100 47)
             + Booking.passenger_count b)
  /\ second = (Ok None, snd first)
  /\ refund_requests (snd first) = refund_requests Scenario.forty_seven_free.
Proof.
  intros b.
  apply (seat_release_twice Scenario.fair Scenario.fair Scenario.forty_seven_free b
           (TrainSchedule.mk 3 7 100 47)).
  - vm_compute. repeat constructor. intros [].
  - vm_compute. left. reflexivity.
  - reflexivity.
  - reflexivity.
  - reflexivity.
Defined.

(** ** Editing the passengers of a booking *)

Lemma skipn_nth_error {A} (l : list A) (k : nat) :
  skipn k l = match nth_error l k with
              | Some x => x :: skipn (S k) l
              | None => []
              end.
Proof.
  revert k. induction l as [|a l IH]; intros [|k]; cbn; try reflexivity. apply IH.
Qed.

Lemma with_passenger_rows_same (d : Database) : with_passenger_rows (passenger_rows d) d = d.
Proof. now destruct d. Qed.

Lemma edit_loop (loaded : list Passenger.t) (ds : list PassengerCreate) (k : nat)
    (s : Session) :
  for_each (combine (seq k (List.length ds)) ds)
    (fun '(i, passenger_data) =>
       match nth_error loaded i with
       | Some passenger =>
           save_passenger (Passenger.mk (Passenger.id passenger)
             (Passenger.booking_id passenger) (pc_name passenger_data)
             (pc_age passenger_data) (pc_gender passenger_data))
       | None => ret tt
       end) s =
  (Ok tt, {| world := world s; durable := durable s;
             working := with_passenger_rows
                          (apply_edits (combine (skipn k loaded) ds)
                             (passenger_rows (working s))) (working s) |}).
Proof.
  revert k s. induction ds as [|d ds IH]; intros k s.
  - cbn. rewrite combine_nil. cbn. rewrite with_passenger_rows_same. now destruct s.
  - cbn [List.length seq combine for_each]. unfold bind at 1.
    rewrite (skipn_nth_error loaded k).
    destruct (nth_error loaded k) as [p|] eqn:Hp.
    + unfold save_passenger, modify. rewrite IH. cbn. reflexivity.
    + unfold ret at 1. rewrite IH.
      assert (skipn (S k) loaded = []) as ->.
      { apply skipn_all2. apply nth_error_None in Hp. lia. }
      cbn. reflexivity.
Qed.

Lemma update_booking_request (w : World) (db : Database) (booking_id u : Z)
    (data : list PassengerCreate) :
  get_db w (BookingQueries.update_booking booking_id data u) db =
  match find (fun b => (Booking.id b =? booking_id) && (Booking.user_id b =? u))
          (bookings db) with
  | None => (Raise (HTTPException 400 "Booking not found"), db)
  | Some b =>
      if negb (is_confirmed b)
      then (Raise (HTTPException 400 "Only confirmed bookings can be edited"), db)
      else if commit_succeeds w
      then (Ok "Booking updated successfully",
            with_passenger_rows
              (apply_edits (combine (passengers_of db (Booking.id b)) data)
                 (passenger_rows db)) db)
      else (Raise SQLAlchemyError, db)
  end.
Proof.
  unfold get_db, BookingQueries.update_booking, try_except,
    BookingQueries.update_booking_passengers, is_confirmed.
  unfold bind at 1. unfold bind at 1, query_first at 1. cbn [working].
  destruct (find _ (bookings db)) as [b|]; [|reflexivity].
  destruct (negb (BookingStatus_eqb (Booking.status b) confirmed)); [reflexivity|].
  unfold bind at 1, BookingQueries.booking_passengers, query_all at 1. cbn [working].
  unfold bind at 1, enumerate. rewrite edit_loop. cbn [world durable working skipn].
  unfold bind, commit, ret. cbn [world durable working].
  destruct (commit_succeeds w); reflexivity.
Qed.

Lemma map_id_apply_edits (pairs : list (Passenger.t * PassengerCreate))
    (rows : list Passenger.t) :
  map Passenger.id (apply_edits pairs rows) = map Passenger.id rows.
Proof.
  unfold apply_edits. revert rows. induction pairs as [|[p d] pairs IH]; intros rows;
    [reflexivity|].
  cbn [fold_left]. rewrite IH. apply map_pk_update_row.
Qed.

(** X20.  Editing the passengers of a booking never changes what is
    sold: whatever the arguments of [update_booking] and whether it
    succeeds, the schedules and the bookings are the ones before (so every
    seat counter and every [passenger_count]), and the rows of [passengers]
    have the same ids in the same order: none is added or removed. *)
Theorem update_booking_keeps_seats (w : World) (db : Database) (booking_id u : Z)
    (data : list PassengerCreate) :
  let db' := snd (get_db w (BookingQueries.update_booking booking_id data u) db) in
  train_schedules db' = train_schedules db
  /\ bookings db' = bookings db
  /\ map Passenger.id (passenger_rows db') = map Passenger.id (passenger_rows db).
Proof.
  cbv zeta. rewrite update_booking_request.
  destruct (find _ (bookings db)) as [b|]; [|now repeat split].
  destruct (negb (is_confirmed b)); [now repeat split|].
  destruct (commit_succeeds w); [|now repeat split].
  cbn [snd train_schedules bookings passenger_rows with_passenger_rows].
  repeat split. apply map_id_apply_edits.
Qed.

Lemma filter_update_row (f : Passenger.t -> bool) (p p' : Passenger.t)
    (rows : list Passenger.t) :
  NoDup (map Passenger.id rows) -> In p rows ->
  Passenger.id p' = Passenger.id p -> f p' = f p ->
  filter f (update_row Passenger.id p' rows) = update_row Passenger.id p' (filter f rows).
Proof.
  intros ND Hin Hid Hf. unfold update_row.
  induction rows as [|r rows IH]; [reflexivity|].
  cbn [map filter]. inversion ND as [|? ? Hr ND']; subst.
  destruct (Z.eqb_spec (Passenger.id r) (Passenger.id p')) as [E|N].
  - assert (r = p) as ->.
    { destruct Hin as [<-|Hin']; [reflexivity|]. exfalso. apply Hr.
      rewrite E, Hid. now apply in_map. }
    rewrite Hf. assert (Hrest : forall l, ~ In (Passenger.id p') (map Passenger.id l) ->
      map (fun r => if Passenger.id r =? Passenger.id p' then p' else r) l = l).
    { intros l Hl. now apply (update_row_absent Passenger.id p'). }
    rewrite Hrest by (rewrite Hid; exact Hr).
    destruct (f p); cbn [map]; [|symmetry; apply Hrest].
    + rewrite E, Z.eqb_refl. f_equal. symmetry. apply Hrest.
      rewrite Hid. intros H. apply Hr. apply in_map_iff in H.
      destruct H as [x [Hx Hx']]. apply filter_In in Hx'. rewrite <- Hx.
      apply in_map. tauto.
    + rewrite Hid. intros H. apply Hr. apply in_map_iff in H.
      destruct H as [x [Hx Hx']]. apply filter_In in Hx'. rewrite <- Hx.
      apply in_map. tauto.
  - assert (Hin' : In p rows).
    { destruct Hin as [->|Hin']; [|exact Hin']. congruence. }
    specialize (IH ND' Hin'). destruct (f r); cbn [map]; [|exact IH].
    destruct (Z.eqb_spec (Passenger.id r) (Passenger.id p')); [contradiction|].
    now f_equal.
Qed.

Lemma NoDup_map_filter (f : Passenger.t -> bool) (rows : list Passenger.t) :
  NoDup (map Passenger.id rows) -> NoDup (map Passenger.id (filter f rows)).
Proof.
  induction rows as [|r rows IH]; cbn [map filter]; [tauto|].
  intros ND. inversion ND as [|? ? Hr ND']; subst.
  destruct (f r); [|now apply IH]. cbn [map]. constructor; [|now apply IH].
  intros H. apply Hr. apply in_map_iff in H. destruct H as [x [Hx Hx']].
  apply filter_In in Hx'. rewrite <- Hx. apply in_map. tauto.
Qed.

Lemma update_row_middle (p p' : Passenger.t) (pre ps : list Passenger.t) :
  NoDup (map Passenger.id (pre ++ p :: ps)) -> Passenger.id p' = Passenger.id p ->
  update_row Passenger.id p' (pre ++ p :: ps) = pre ++ p' :: ps.
Proof.
  intros ND Hid. rewrite map_app in ND. cbn [map] in ND.
  pose proof (NoDup_remove_2 _ _ _ ND) as Hn.
  unfold update_row. rewrite map_app. cbn [map].
  destruct (Z.eqb_spec (Passenger.id p) (Passenger.id p')) as [_|N]; [|congruence].
  f_equal.
  - apply (update_row_absent Passenger.id p'). rewrite Hid. intros H. apply Hn.
    apply in_or_app. now left.
  - f_equal. apply (update_row_absent Passenger.id p'). rewrite Hid. intros H. apply Hn.
    apply in_or_app. now right.
Qed.

Lemma apply_edits_this_booking (k : Z) (ps : list Passenger.t) (ds : list PassengerCreate)
    (rows pre : list Passenger.t) :
  NoDup (map Passenger.id rows) ->
  filter (fun p => Passenger.booking_id p =? k) rows = pre ++ ps ->
  filter (fun p => Passenger.booking_id p =? k) (apply_edits (combine ps ds) rows)
  = pre ++ overwrite ps ds.
Proof.
  revert ds rows pre. induction ps as [|p ps IH]; intros ds rows pre ND Hf.
  - cbn. exact Hf.
  - destruct ds as [|d ds]; [exact Hf|].
    cbn [combine overwrite]. unfold apply_edits. cbn [fold_left].
    set (p' := Passenger.mk _ _ _ _ _).
    assert (Hin : In p (filter (fun p => Passenger.booking_id p =? k) rows)).
    { rewrite Hf. apply in_or_app. right. now left. }
    apply filter_In in Hin. destruct Hin as [Hin Hk].
    fold (apply_edits (combine ps ds) (update_row Passenger.id p' rows)).
    replace (pre ++ p' :: overwrite ps ds) with ((pre ++ [p']) ++ overwrite ps ds)
      by (rewrite <- app_assoc; reflexivity).
    apply IH.
    + now rewrite map_pk_update_row.
    + rewrite (filter_update_row _ p p') by (auto; reflexivity).
      rewrite Hf. rewrite update_row_middle; [now rewrite <- app_assoc| |reflexivity].
      rewrite <- Hf. now apply NoDup_map_filter.
Qed.

Lemma filter_update_row_other (j : Z) (p' : Passenger.t) (rows : list Passenger.t) :
  Passenger.booking_id p' <> j ->
  (forall x, In x rows -> Passenger.id x = Passenger.id p' -> Passenger.booking_id x <> j) ->
  filter (fun p => Passenger.booking_id p =? j) (update_row Passenger.id p' rows)
  = filter (fun p => Passenger.booking_id p =? j) rows.
Proof.
  intros Hp H. unfold update_row. induction rows as [|r rows IH]; [reflexivity|].
  cbn [map filter]. rewrite IH by (intros; apply H; [now right|assumption]).
  destruct (Z.eqb_spec (Passenger.id r) (Passenger.id p')) as [E|_]; [|reflexivity].
  apply Z.eqb_neq in Hp. rewrite Hp.
  specialize (H r (or_introl eq_refl) E). apply Z.eqb_neq in H. now rewrite H.
Qed.

Lemma apply_edits_other_booking (k j : Z) (ps : list Passenger.t)
    (ds : list PassengerCreate) (rows : list Passenger.t) :
  (forall p, In p ps ->
     Passenger.booking_id p = k
     /\ forall x, In x rows -> Passenger.id x = Passenger.id p -> Passenger.booking_id x = k) ->
  j <> k ->
  filter (fun p => Passenger.booking_id p =? j) (apply_edits (combine ps ds) rows)
  = filter (fun p => Passenger.booking_id p =? j) rows.
Proof.
  revert ds rows. induction ps as [|p ps IH]; intros ds rows Hps Hj; [reflexivity|].
  destruct ds as [|d ds]; [reflexivity|].
  cbn [combine]. unfold apply_edits. cbn [fold_left].
  set (p' := Passenger.mk _ _ _ _ _).
  fold (apply_edits (combine ps ds) (update_row Passenger.id p' rows)).
  destruct (Hps p (or_introl eq_refl)) as [Hk Hrows].
  rewrite IH; [|intros q Hq|exact Hj].
  - apply filter_update_row_other.
    + cbn [Passenger.booking_id p']. congruence.
    + intros x Hx E. rewrite (Hrows x Hx E). congruence.
  - destruct (Hps q (or_intror Hq)) as [Hq1 Hq2]. split; [exact Hq1|].
    intros x Hx E. apply in_update_row in Hx. destruct Hx as [->|[Hx _]].
    + exact Hk.
    + now apply Hq2.
Qed.

Lemma same_id_same_row (rows : list Passenger.t) (x p : Passenger.t) :
  NoDup (map Passenger.id rows) -> In x rows -> In p rows ->
  Passenger.id x = Passenger.id p -> x = p.
Proof.
  induction rows as [|r rows IH]; [intros _ []|].
  cbn [map]. intros ND Hx Hp E. inversion ND as [|? ? Hr ND']; subst.
  destruct Hx as [->|Hx]; destruct Hp as [->|Hp]; try reflexivity.
  - exfalso. apply Hr. rewrite E. now apply in_map.
  - exfalso. apply Hr. rewrite <- E. now apply in_map.
  - now apply IH.
Qed.

(** X21.  What an edit does.  The ids of [passengers] are a primary key,
    the booking is a confirmed booking of the user and the store accepts
    the commit.  Then [update_booking] succeeds; the passengers of the
    booking are the ones before with the details of the entries written
    over them in order (a booking with more passengers than entries keeps
    the rest, entries beyond the passengers are dropped, so their number
    stays the same), and the passengers of every other booking are
    untouched. *)
Theorem update_booking_overwrites_in_order (w : World) (db : Database) (booking_id u : Z)
    (data : list PassengerCreate) (b : Booking.t) :
  NoDup (map Passenger.id (passenger_rows db)) ->
  find (fun r => (Booking.id r =? booking_id) && (Booking.user_id r =? u)) (bookings db)
    = Some b ->
  Booking.status b = confirmed ->
  commit_succeeds w = true ->
  let r := get_db w (BookingQueries.update_booking booking_id data u) db in
  fst r = Ok "Booking updated successfully"
  /\ passengers_of (snd r) booking_id = overwrite (passengers_of db booking_id) data
  /\ List.length (passengers_of (snd r) booking_id)
     = List.length (passengers_of db booking_id)
  /\ forall j, j <> booking_id -> passengers_of (snd r) j = passengers_of db j.
Proof.
  intros ND Hb Hst Hc. cbv zeta. rewrite update_booking_request, Hb.
  unfold is_confirmed. rewrite Hst, Hc. cbn [BookingStatus_eqb negb fst snd].
  pose proof (find_some _ _ Hb) as [_ Hid]. apply andb_true_iff in Hid.
  destruct Hid as [Hid _]. apply Z.eqb_eq in Hid. rewrite Hid.
  unfold passengers_of. cbn [passenger_rows with_passenger_rows].
  assert (E : filter (fun p => Passenger.booking_id p =? booking_id)
                (apply_edits
                   (combine (filter (fun p => Passenger.booking_id p =? booking_id)
                               (passenger_rows db)) data) (passenger_rows db))
              = overwrite (filter (fun p => Passenger.booking_id p =? booking_id)
                             (passenger_rows db)) data).
  { apply (apply_edits_this_booking booking_id _ data (passenger_rows db) []);
      [exact ND|reflexivity]. }
  repeat split.
  - exact E.
  - rewrite E. clear E. generalize (filter (fun p => Passenger.booking_id p =? booking_id)
                             (passenger_rows db)).
    intros l. revert data. induction l as [|p l IH]; intros [|d data]; cbn; try reflexivity.
    now rewrite IH.
  - intros j Hj. apply (apply_edits_other_booking booking_id); [|exact Hj].
    intros p Hp. apply filter_In in Hp. destruct Hp as [Hp Hk]. apply Z.eqb_eq in Hk.
    split; [exact Hk|]. intros x Hx E'.
    now rewrite (same_id_same_row _ x p ND Hx Hp E').
Qed.

Lemma update_booking_overwrites_in_order_witness :
  let data := [ {| pc_name := "Ravi"; pc_age := 41; pc_gender := male |} ] in
  let r := get_db Scenario.fair (BookingQueries.update_booking 1 data 9)
             Scenario.forty_seven_free in
  fst r = Ok "Booking updated successfully"
  /\ passengers_of (snd r) 1 = overwrite (passengers_of Scenario.forty_seven_free 1) data
  /\ List.length (passengers_of (snd r) 1)
     = List.length (passengers_of Scenario.forty_seven_free 1)
  /\ forall j, j <> 1 -> passengers_of (snd r) j = passengers_of Scenario.forty_seven_free j.
Proof.
  intros data.
  apply (update_booking_overwrites_in_order Scenario.fair Scenario.forty_seven_free 1 9 data
           Scenario.first_booking).
  - vm_compute. repeat constructor; cbn; intuition discriminate.
  - reflexivity.
  - reflexivity.
  - reflexivity.
Defined.

(** X22.  A cancelled booking can no longer be edited: once
    [cancel_booking_with_refund] has returned for a booking, every
    [update_booking] of its owner for it is refused with "Only confirmed
    bookings can be edited" and changes nothing. *)
Theorem cancelled_booking_not_editable (w w' : World) (db db1 : Database)
    (booking_id u : Z) (r : CancelResponse) (data : list PassengerCreate) :
  get_db w (api.cancel_booking_with_refund booking_id u) db = (Ok r, db1) ->
  get_db w' (BookingQueries.update_booking booking_id data u) db1
  = (Raise (HTTPException 400 "Only confirmed bookings can be edited"), db1).
Proof.
  rewrite cancel_booking_request.
  destruct (find _ (bookings db)) as [b|] eqn:Hb; [|discriminate].
  destruct (negb (is_confirmed b)); [discriminate|].
  destruct (schedule_row db (Booking.schedule_id b)) as [schedule|]; [|discriminate].
  destruct (commit_succeeds w); [|discriminate].
  intros H. injection H as _ <-.
  rewrite update_booking_request, bookings_cancelled.
  rewrite (find_update_row_pred Booking.id _ b (Booking.set_status cancelled b)
             (bookings db) Hb eq_refl).
  - reflexivity.
  - apply find_some in Hb. exact (proj2 Hb).
Qed.

Lemma cancelled_booking_not_editable_witness :
  let db1 := snd (get_db Scenario.fair (api.cancel_booking_with_refund 1 9)
                    Scenario.forty_seven_free) in
  get_db Scenario.fair (BookingQueries.update_booking 1 [Scenario.passenger] 9) db1
  = (Raise (HTTPException 400 "Only confirmed bookings can be edited"), db1).
Proof.
  intros db1.
  apply (cancelled_booking_not_editable Scenario.fair Scenario.fair
           Scenario.forty_seven_free db1 1 9
           {| response_message := "Booking cancelled and refunded successfully";
              response_refund_amount :=
                {| message := "Booking cancelled. Refund request submitted for admin approval.";
                   refund_amount := 37650 |} |} [Scenario.passenger]).
  vm_compute. reflexivity.
Defined.

(** ** Deleting a user *)

Lemma purge_loop (bs : list Booking.t) (s : Session) :
  for_each bs (fun booking =>
    delete_passengers (fun p => Passenger.booking_id p =? Booking.id booking)) s =
  (Ok tt, {| world := world s; durable := durable s;
             working := with_passenger_rows
                          (purge_passengers bs (passenger_rows (working s))) (working s) |}).
Proof.
  revert s. induction bs as [|b bs IH]; intros s.
  - cbn. rewrite with_passenger_rows_same. now destruct s.
  - cbn [for_each]. unfold bind at 1, delete_passengers at 1, modify at 1.
    rewrite IH. reflexivity.
Qed.

Lemma delete_user_request (w : World) (db : Database) (users : list Z) (text : string)
    (user_id current : Z) :
  get_db w (admin.delete_user users text user_id current) db =
  match find (fun id => id =? user_id) users with
  | None => (Raise (HTTPException 404 "User not found"), db)
  | Some user =>
      if user =? current
      then (Raise (HTTPException 400 "Cannot delete your own account"), db)
      else if negb (admin.has_dependents user db) && commit_succeeds w
      then (Ok ("User deleted successfully", filter (fun id => negb (id =? user)) users),
            with_bookings
              (filter (fun b => negb (Booking.user_id b =? user_id)) (bookings db))
              (with_passenger_rows
                 (purge_passengers
                    (filter (fun b => Booking.user_id b =? user_id) (bookings db))
                    (passenger_rows db)) db))
      else (Raise (HTTPException 500 (String.append "Failed to delete user: " text)), db)
  end.
Proof.
  unfold get_db, admin.delete_user.
  destruct (find _ users) as [user|]; [|reflexivity].
  destruct (user =? current); [reflexivity|].
  unfold try_except. unfold bind at 1, query_all at 1. cbn [working].
  unfold bind at 1. rewrite purge_loop. cbn [world durable working].
  unfold bind at 1, delete_bookings, modify at 1. cbn [world durable working].
  unfold bind at 1, admin.delete_user_row, admin.has_dependents.
  cbn [world durable working payments credit_cards wallets upi_ids with_bookings
       with_passenger_rows].
  fold (admin.has_dependents user db).
  destruct (admin.has_dependents user db); [reflexivity|].
  unfold bind, commit, rollback, raise, ret.
  cbn [world durable working negb andb]. destruct (commit_succeeds w); reflexivity.
Qed.

Lemma sum_filter_split (f g : Booking.t -> bool) (l : list Booking.t) :
  sum (map Booking.passenger_count (filter f (filter (fun b => negb (g b)) l)))
  = sum (map Booking.passenger_count (filter f l))
    - sum (map Booking.passenger_count (filter (fun b => g b && f b) l)).
Proof.
  induction l as [|b l IH]; [reflexivity|].
  cbn [filter]. destruct (g b); cbn [negb andb filter].
  - destruct (f b); cbn [map sum fold_right] in *; unfold sum in *; lia.
  - destruct (f b); cbn [map sum fold_right] in *; unfold sum in *; lia.
Qed.

Lemma in_purge_passengers (bs : list Booking.t) (rows : list Passenger.t) (p : Passenger.t) :
  In p (purge_passengers bs rows) ->
  In p rows /\ forall b, In b bs -> Passenger.booking_id p <> Booking.id b.
Proof.
  unfold purge_passengers. revert rows. induction bs as [|b bs IH]; intros rows H.
  - split; [exact H|intros b []].
  - cbn [fold_left] in H. apply IH in H. destruct H as [H Hbs].
    apply filter_In in H. destruct H as [Hin Hb]. apply negb_true_iff, Z.eqb_neq in Hb.
    split; [exact Hin|]. intros b' [<-|Hb']; [exact Hb|now apply Hbs].
Qed.

(** X23.  [delete_user] removes the bookings of the user and their
    passengers and leaves every schedule as it is: the seats of the
    confirmed bookings that it deletes are not given back.  For a user
    without payment, card, wallet or UPI id, after a deletion that the
    store accepts, no booking of the user is left and no passenger row of
    one of them, each counter has the value it had, and the confirmed seats
    of each schedule are fewer by the seats the user held there. *)
Theorem delete_user_keeps_seats_taken (w : World) (db : Database) (users : list Z)
    (text : string) (user_id current : Z) :
  In user_id users ->
  user_id <> current ->
  admin.has_dependents user_id db = false ->
  commit_succeeds w = true ->
  let r := get_db w (admin.delete_user users text user_id current) db in
  (exists left, fst r = Ok ("User deleted successfully", left) /\ ~ In user_id left)
  /\ (forall b, In b (bookings (snd r)) -> Booking.user_id b <> user_id)
  /\ (forall p b, In p (passenger_rows (snd r)) -> In b (bookings db) ->
        Booking.user_id b = user_id -> Passenger.booking_id p <> Booking.id b)
  /\ train_schedules (snd r) = train_schedules db
  /\ forall k, available_seats_of (snd r) k = available_seats_of db k
               /\ confirmed_seats (snd r) k = confirmed_seats db k - user_seats db user_id k.
Proof.
  intros Hin Hne Hdep Hc. cbv zeta. rewrite delete_user_request.
  destruct (find (fun id => id =? user_id) users) as [user|] eqn:Hu.
  2:{ pose proof (find_none _ _ Hu user_id Hin) as N. cbn in N.
      now rewrite Z.eqb_refl in N. }
  pose proof (find_some _ _ Hu) as [_ E]. apply Z.eqb_eq in E. subst user.
  destruct (Z.eqb_spec user_id current) as [|_]; [contradiction|]. rewrite Hdep, Hc.
  cbn [negb andb].
  cbn [fst snd bookings passenger_rows train_schedules with_bookings with_passenger_rows].
  repeat split.
  - eexists. split; [reflexivity|]. intros H. apply filter_In in H.
    destruct H as [_ H]. now rewrite Z.eqb_refl in H.
  - intros b Hb. apply filter_In in Hb. destruct Hb as [_ Hb].
    now apply negb_true_iff, Z.eqb_neq in Hb.
  - intros p b Hp Hb Hbu. apply in_purge_passengers in Hp. destruct Hp as [_ Hp].
    apply Hp. apply filter_In. split; [exact Hb|]. now apply Z.eqb_eq.
  - unfold confirmed_seats, user_seats. cbn [bookings with_bookings with_passenger_rows].
    apply sum_filter_split.
Qed.

Lemma delete_user_keeps_seats_taken_witness :
  let r := get_db Scenario.fair (admin.delete_user [1; 9] "IntegrityError" 9 1)
             (with_wallets [] Scenario.forty_seven_free) in
  (exists left, fst r = Ok ("User deleted successfully", left) /\ ~ In 9 left)
  /\ (forall b, In b (bookings (snd r)) -> Booking.user_id b <> 9)
  /\ (forall p b, In p (passenger_rows (snd r)) ->
        In b (bookings (with_wallets [] Scenario.forty_seven_free)) ->
        Booking.user_id b = 9 -> Passenger.booking_id p <> Booking.id b)
  /\ train_schedules (snd r) = train_schedules (with_wallets [] Scenario.forty_seven_free)
  /\ forall k, available_seats_of (snd r) k
               = available_seats_of (with_wallets [] Scenario.forty_seven_free) k
               /\ confirmed_seats (snd r) k
                  = confirmed_seats (with_wallets [] Scenario.forty_seven_free) k
                    - user_seats (with_wallets [] Scenario.forty_seven_free) 9 k.
Proof.
  apply (delete_user_keeps_seats_taken Scenario.fair
           (with_wallets [] Scenario.forty_seven_free) [1; 9] "IntegrityError" 9 1).
  - right. left. reflexivity.
  - discriminate.
  - reflexivity.
  - reflexivity.
Defined.

(** X24.  A user with a wallet, a card, a UPI id or a payment cannot be
    deleted: [delete_user] answers 500 and nothing is removed, neither the
    user nor a booking or passenger. *)
Theorem delete_user_with_dependents (w : World) (db : Database) (users : list Z)
    (text : string) (user_id current : Z) :
  In user_id users ->
  user_id <> current ->
  admin.has_dependents user_id db = true ->
  get_db w (admin.delete_user users text user_id current) db
  = (Raise (HTTPException 500 (String.append "Failed to delete user: " text)), db).
Proof.
  intros Hin Hne Hdep. rewrite delete_user_request.
  destruct (find (fun id => id =? user_id) users) as [user|] eqn:Hu.
  2:{ pose proof (find_none _ _ Hu user_id Hin) as N. cbn in N.
      now rewrite Z.eqb_refl in N. }
  pose proof (find_some _ _ Hu) as [_ E]. apply Z.eqb_eq in E. subst user.
  destruct (Z.eqb_spec user_id current) as [|_]; [contradiction|]. now rewrite Hdep.
Qed.

Lemma delete_user_with_dependents_witness :
  get_db Scenario.fair (admin.delete_user [1; 9] "IntegrityError" 9 1)
    Scenario.forty_seven_free
  = (Raise (HTTPException 500 (String.append "Failed to delete user: " "IntegrityError")),
     Scenario.forty_seven_free).
Proof.
  apply (delete_user_with_dependents Scenario.fair Scenario.forty_seven_free [1; 9]
           "IntegrityError" 9 1).
  - right. left. reflexivity.
  - discriminate.
  - reflexivity.
Defined.

(** ** Password strength *)

Lemma existsb_app_le {A} (f : A -> bool) (v u : list A) :
  schemas.point (existsb f v) <= schemas.point (existsb f (v ++ u)).
Proof.
  rewrite existsb_app. destruct (existsb f v), (existsb f u); cbn; lia.
Qed.

Lemma len_app {A} (v u : list A) : len (v ++ u) = len v + len u.
Proof. unfold len. rewrite length_app. lia. Qed.

Lemma point_leb_le (n a b : Z) :
  a <= b -> schemas.point (n <=? a) <= schemas.point (n <=? b).
Proof.
  intros H. destruct (Z.leb_spec n a), (Z.leb_spec n b); cbn; lia.
Qed.

Lemma score_app (v u : list Z) : schemas.score v <= schemas.score (v ++ u).
Proof.
  unfold schemas.score, schemas.re_search.
  pose proof (len_nonneg u) as Hu.
  pose proof (point_leb_le 8 (len v) (len (v ++ u))) as H8.
  pose proof (point_leb_le 12 (len v) (len (v ++ u))) as H12.
  rewrite len_app in H8, H12. rewrite len_app.
  pose proof (existsb_app_le schemas.lowercase v u).
  pose proof (existsb_app_le schemas.uppercase v u).
  pose proof (existsb_app_le schemas.digit v u).
  pose proof (existsb_app_le schemas.symbol v u).
  lia.
Qed.

Lemma validate_password_ok (v : list Z) :
  schemas.validate_password v = Ok v <-> 8 <= len v /\ 3 <= schemas.score v.
Proof.
  unfold schemas.validate_password, schemas.get_password_strength.
  destruct (Z.ltb_spec (len v) 8).
  - split; [discriminate | lia].
  - destruct (Z.leb_spec (schemas.score v) 2).
    + cbn. split; [discriminate | lia].
    + destruct (schemas.score v <=? 4); cbn; (split; [intros _; lia | reflexivity]).
Qed.

(** X25.  a password that the
    validator of [UserCreate] accepts is still accepted with any
    characters appended to it: no point of the score is ever taken
    away. *)
Theorem validate_password_append (v u : list Z) :
  schemas.validate_password v = Ok v ->
  schemas.validate_password (v ++ u) = Ok (v ++ u).
Proof.
  intros H. apply validate_password_ok in H. apply validate_password_ok.
  pose proof (score_app v u). pose proof (len_nonneg u). rewrite len_app. lia.
Qed.

Lemma validate_password_append_witness :
  schemas.validate_password (schemas.code_points "Abcdef12" ++ schemas.code_points "3")
  = Ok (schemas.code_points "Abcdef12" ++ schemas.code_points "3").
Proof.
  apply (validate_password_append (schemas.code_points "Abcdef12") (schemas.code_points "3")).
  reflexivity.
Defined.

Lemma digits_only (v : list Z) :
  forallb schemas.digit v = true ->
  existsb schemas.lowercase v = false /\ existsb schemas.uppercase v = false
  /\ existsb schemas.symbol v = false /\ existsb schemas.digit v = negb (len v =? 0).
Proof.
  induction v as [|c v IH]; intros H.
  - repeat split.
  - cbn [forallb] in H. apply andb_true_iff in H as [Hc Hv].
    destruct (IH Hv) as (H1 & H2 & H3 & _).
    cbn [existsb]. rewrite H1, H2, H3, Hc.
    unfold schemas.digit, schemas.between in Hc.
    apply andb_true_iff in Hc as [Ha Hb].
    apply Z.leb_le in Ha. apply Z.leb_le in Hb.
    repeat split.
    + unfold schemas.lowercase, schemas.between.
      destruct (Z.leb_spec 97 c); [lia | reflexivity].
    + unfold schemas.uppercase, schemas.between.
      destruct (Z.leb_spec 65 c); [lia | reflexivity].
    + unfold schemas.symbol. cbn [existsb].
      repeat match goal with
             | |- context [c =? ?n] => destruct (Z.eqb_spec c n); [lia |]
             end.
      reflexivity.
Qed.

(** X26.  a password of
    decimal digits only is accepted exactly when it has twelve characters
    or more: the two points for the length and the one for the digits
    reach the score of a medium password, with no letter and no
    symbol. *)
Theorem digits_only_accepted_from_twelve (v : list Z) :
  forallb schemas.digit v = true ->
  (schemas.validate_password v = Ok v <-> 12 <= len v).
Proof.
  intros H. destruct (digits_only v H) as (H1 & H2 & H3 & H4).
  rewrite validate_password_ok.
  unfold schemas.score, schemas.re_search. rewrite H1, H2, H3, H4.
  pose proof (len_nonneg v).
  destruct (Z.leb_spec 8 (len v)), (Z.leb_spec 12 (len v)), (Z.eqb_spec (len v) 0);
    cbn; lia.
Qed.

Lemma digits_only_accepted_from_twelve_witness :
  schemas.validate_password (schemas.code_points "123456789012")
  = Ok (schemas.code_points "123456789012")
  <-> 12 <= len (schemas.code_points "123456789012").
Proof.
  apply (digits_only_accepted_from_twelve (schemas.code_points "123456789012")).
  reflexivity.
Defined.

(** X27.  a strong password has eight characters
    or more and characters of three of the four classes at least; with
    fewer than twelve characters it has all four. *)
Theorem strong_password (v : list Z) :
  schemas.get_password_strength v = "strong" ->
  8 <= len v
  /\ 3 <= schemas.point (existsb schemas.lowercase v) + schemas.point (existsb schemas.uppercase v)
          + schemas.point (existsb schemas.digit v) + schemas.point (existsb schemas.symbol v)
  /\ (len v < 12 ->
      existsb schemas.lowercase v = true /\ existsb schemas.uppercase v = true
      /\ existsb schemas.digit v = true /\ existsb schemas.symbol v = true).
Proof.
  unfold schemas.get_password_strength, schemas.score, schemas.re_search.
  destruct (Z.leb_spec 8 (len v)), (Z.leb_spec 12 (len v));
    destruct (existsb schemas.lowercase v), (existsb schemas.uppercase v),
             (existsb schemas.digit v), (existsb schemas.symbol v);
    cbn; intros Hstrong; try discriminate Hstrong; repeat split; lia.
Qed.

Lemma strong_password_witness :
  8 <= len (schemas.code_points "Abcdef1!")
  /\ 3 <= schemas.point (existsb schemas.lowercase (schemas.code_points "Abcdef1!"))
          + schemas.point (existsb schemas.uppercase (schemas.code_points "Abcdef1!"))
          + schemas.point (existsb schemas.digit (schemas.code_points "Abcdef1!"))
          + schemas.point (existsb schemas.symbol (schemas.code_points "Abcdef1!"))
  /\ (len (schemas.code_points "Abcdef1!") < 12 ->
      existsb schemas.lowercase (schemas.code_points "Abcdef1!") = true
      /\ existsb schemas.uppercase (schemas.code_points "Abcdef1!") = true
      /\ existsb schemas.digit (schemas.code_points "Abcdef1!") = true
      /\ existsb schemas.symbol (schemas.code_points "Abcdef1!") = true).
Proof.
  apply (strong_password (schemas.code_points "Abcdef1!")).
  reflexivity.
Defined.

(** ** [format_time_ago] *)

Lemma timedelta_of (d q r : Z) :
  d = 86400000000 * q + r -> 0 <= r < 86400000000 ->
  admin.timedelta_days d = q /\ admin.timedelta_seconds d = r / 1000000.
Proof.
  intros Hd Hr. unfold admin.timedelta_days, admin.timedelta_seconds.
  assert (Hq : d / 86400000000 = q).
  { symmetry. apply (Z.div_unique d 86400000000 q r); [lia | lia]. }
  assert (Hm : d mod 86400000000 = r).
  { symmetry. apply (Z.mod_unique d 86400000000 q r); [lia | lia]. }
  now rewrite Hq, Hm.
Qed.

(** X28.  an age of one hour, from 3600 seconds up to
    3601, is shown in minutes, as 60 minutes: the comparison with 3600
    seconds is strict. *)
Theorem one_hour_in_minutes (now dt : Z) :
  3600000000 <= now - dt < 3601000000 ->
  admin.format_time_ago now dt = "60 minutes ago".
Proof.
  intros H. unfold admin.format_time_ago. cbv zeta.
  destruct (timedelta_of (now - dt) 0 (now - dt)) as [Hd Hs]; [lia | lia |].
  rewrite Hd, Hs.
  assert (E : (now - dt) / 1000000 = 3600).
  { symmetry. apply (Z.div_unique (now - dt) 1000000 3600 (now - dt - 3600000000)); lia. }
  rewrite E. reflexivity.
Qed.

Lemma one_hour_in_minutes_witness :
  admin.format_time_ago 3600000000 0 = "60 minutes ago".
Proof.
  apply (one_hour_in_minutes 3600000000 0). lia.
Defined.

(** X29.  a time that is still to come, by an hour at
    most, is shown as 23 hours ago: the difference is negative, its
    [days] are -1 and its [seconds] count from the day before. *)
Theorem future_time_23_hours_ago (now dt : Z) :
  0 < dt - now <= 3600000000 ->
  admin.format_time_ago now dt = "23 hours ago".
Proof.
  intros H. unfold admin.format_time_ago. cbv zeta.
  destruct (timedelta_of (now - dt) (-1) (86400000000 + (now - dt))) as [Hd Hs];
    [lia | lia |].
  rewrite Hd, Hs.
  set (s := (86400000000 + (now - dt)) / 1000000).
  assert (Hs1 : 82800 <= s < 86400).
  { subst s. split.
    - apply Z.div_le_lower_bound; lia.
    - apply Z.div_lt_upper_bound; lia. }
  assert (E : s / 3600 = 23).
  { symmetry. apply (Z.div_unique s 3600 23 (s - 82800)); lia. }
  change (0 <? -1) with false. cbv iota.
  destruct (Z.ltb_spec 3600 s); [| lia].
  rewrite E. reflexivity.
Qed.

Lemma future_time_23_hours_ago_witness :
  admin.format_time_ago 0 1000000 = "23 hours ago".
Proof.
  apply (future_time_23_hours_ago 0 1000000). lia.
Defined.

(** ** Two requests that overlap, in general *)

Lemma query_step_passes (w : World) (db : Database) (booking : BookingCreate) (u : Z)
    (schedule : TrainSchedule.t) (route : Route.t) :
  schedule_row db (schedule_id booking) = Some schedule ->
  len (passengers booking) <= TrainSchedule.available_seats schedule ->
  find (fun r => Route.id r =? TrainSchedule.route_id schedule) (routes db) = Some route ->
  journey_representable schedule route = true ->
  flush_succeeds w = true ->
  Interleaving.query_step w db booking u =
  Interleaving.at_commit w booking
    (TrainSchedule.set_available_seats
       (TrainSchedule.available_seats schedule - len (passengers booking)) schedule)
    (Booking.set_id 0 (new_booking w db booking u schedule route)).
Proof.
  unfold schedule_row, Interleaving.query_step. intros -> Hle -> -> ->.
  destruct (Z.ltb_spec (TrainSchedule.available_seats schedule) (len (passengers booking)));
    [lia|reflexivity].
Qed.

Lemma commit_step_accepted (w w' : World) (db db0 : Database) (booking : BookingCreate)
    (u : Z) (schedule : TrainSchedule.t) (route : Route.t) :
  commit_succeeds w = true ->
  Interleaving.commit_step w db booking
    (TrainSchedule.set_available_seats
       (TrainSchedule.available_seats schedule - len (passengers booking)) schedule)
    (Booking.set_id 0 (new_booking w' db0 booking u schedule route)) =
  (booked db booking schedule (new_booking w' db booking u schedule route),
   Interleaving.returned (new_booking w' db booking u schedule route)).
Proof.
  unfold Interleaving.commit_step. intros ->. unfold booked.
  rewrite insert_passengers_train_schedules. reflexivity.
Qed.

Lemma schedule_first (db : Database) (t : Interleaving.Thread)
    (ts : list Interleaving.Thread) :
  Interleaving.schedule_thread
    {| Interleaving.database := db; Interleaving.threads := t :: ts |} 0 =
  {| Interleaving.database := fst (Interleaving.step db t);
     Interleaving.threads := snd (Interleaving.step db t) :: ts |}.
Proof.
  unfold Interleaving.schedule_thread.
  cbn [Interleaving.database Interleaving.threads Interleaving.step_nth].
  now destruct (Interleaving.step db t).
Qed.

Lemma schedule_second (db : Database) (t0 t : Interleaving.Thread)
    (ts : list Interleaving.Thread) :
  Interleaving.schedule_thread
    {| Interleaving.database := db; Interleaving.threads := t0 :: t :: ts |} 1 =
  {| Interleaving.database := fst (Interleaving.step db t);
     Interleaving.threads := t0 :: snd (Interleaving.step db t) :: ts |}.
Proof.
  unfold Interleaving.schedule_thread.
  cbn [Interleaving.database Interleaving.threads Interleaving.step_nth].
  now destruct (Interleaving.step db t).
Qed.

(** X30.  The lost update, for any schedule and any two requests.  Two
    reserve requests for the same schedule, each for no more seats than
    are free, read the schedule before either commits (its route is in the
    database, the journey ends on a date and the store accepts the writes).
    Both return a booking; the counter is the old one less the seats of the
    request that committed last, and the seats of the other request are
    confirmed without having been taken from it. *)
Theorem overlapping_reserves (db : Database) (w1 w2 : World) (b1 b2 : BookingCreate)
    (u1 u2 : Z) (schedule : TrainSchedule.t) (route : Route.t) :
  schedule_id b2 = schedule_id b1 ->
  schedule_row db (schedule_id b1) = Some schedule ->
  len (passengers b1) <= TrainSchedule.available_seats schedule ->
  len (passengers b2) <= TrainSchedule.available_seats schedule ->
  find (fun r => Route.id r =? TrainSchedule.route_id schedule) (routes db) = Some route ->
  journey_representable schedule route = true ->
  storage_ok w1 -> storage_ok w2 ->
  let st := Interleaving.run Interleaving.read_read_commit_commit
              {| Interleaving.database := db;
                 Interleaving.threads := [Interleaving.at_query w1 b1 u1;
                                          Interleaving.at_query w2 b2 u2] |} in
  Interleaving.quiescent st = true
  /\ Interleaving.successes st = 2%nat
  /\ available_seats_of (Interleaving.database st) (schedule_id b1)
     = Some (TrainSchedule.available_seats schedule - len (passengers b2))
  /\ confirmed_seats (Interleaving.database st) (schedule_id b1)
     = confirmed_seats db (schedule_id b1) + len (passengers b1) + len (passengers b2).
Proof.
  intros Hk Hs Hle1 Hle2 Hr Hj [Hf1 Hc1] [Hf2 Hc2]. cbv zeta.
  assert (Hs2 : schedule_row db (schedule_id b2) = Some schedule) by now rewrite Hk.
  unfold Interleaving.run, Interleaving.read_read_commit_commit.
  cbn [fold_left].
  rewrite schedule_first. cbn [Interleaving.step fst snd].
  rewrite (query_step_passes w1 db b1 u1 schedule route Hs Hle1 Hr Hj Hf1).
  rewrite schedule_second. cbn [Interleaving.step fst snd].
  rewrite (query_step_passes w2 db b2 u2 schedule route Hs2 Hle2 Hr Hj Hf2).
  rewrite schedule_first. cbn [Interleaving.step].
  rewrite (commit_step_accepted w1 w1 db db b1 u1 schedule route Hc1). cbn [fst snd].
  rewrite schedule_second. cbn [Interleaving.step].
  rewrite (commit_step_accepted w2 w2 _ db b2 u2 schedule route Hc2). cbn [fst snd].
  cbn [Interleaving.database Interleaving.threads].
  split; [reflexivity|]. split; [reflexivity|].
  set (db1 := booked db b1 schedule (new_booking w1 db b1 u1 schedule route)).
  pose proof (schedule_row_id _ _ _ Hs) as Hid.
  split.
  - unfold available_seats_of, schedule_row, booked.
    cbn [train_schedules with_train_schedules].
    rewrite find_update_row.
    cbn [TrainSchedule.id TrainSchedule.set_available_seats].
    fold (schedule_row db1 (schedule_id b1)). subst db1.
    rewrite (schedule_row_booked db b1 schedule _ (schedule_id b1) Hs), Z.eqb_refl.
    rewrite Hid, Z.eqb_refl. reflexivity.
  - rewrite confirmed_seats_booked. subst db1. rewrite confirmed_seats_booked.
    rewrite !seats_held_new_booking, Hk, Z.eqb_refl. lia.
Qed.

Lemma overlapping_reserves_witness :
  let st := Interleaving.run Interleaving.read_read_commit_commit
              {| Interleaving.database := Scenario.fifty_seats;
                 Interleaving.threads :=
                   [Interleaving.at_query Scenario.fair (Scenario.seats 3) 9;
                    Interleaving.at_query Scenario.fair (Scenario.seats 2) 4] |} in
  Interleaving.quiescent st = true
  /\ Interleaving.successes st = 2%nat
  /\ available_seats_of (Interleaving.database st) (schedule_id (Scenario.seats 3))
     = Some (TrainSchedule.available_seats (TrainSchedule.mk 3 7 100 50)
             - len (passengers (Scenario.seats 2)))
  /\ confirmed_seats (Interleaving.database st) (schedule_id (Scenario.seats 3))
     = confirmed_seats Scenario.fifty_seats (schedule_id (Scenario.seats 3))
       + len (passengers (Scenario.seats 3)) + len (passengers (Scenario.seats 2)).
Proof.
  apply (overlapping_reserves Scenario.fifty_seats Scenario.fair Scenario.fair
           (Scenario.seats 3) (Scenario.seats 2) 9 4
           (TrainSchedule.mk 3 7 100 50) (Route.mk 7 1 1200 12550)).
  - reflexivity.
  - reflexivity.
  - vm_compute. discriminate.
  - vm_compute. discriminate.
  - reflexivity.
  - reflexivity.
  - split; reflexivity.
  - split; reflexivity.
Defined.
